(** * GreenLogix_Cherry: scenario store, batch driver, model wiring

    A shallow embedding of the parts of the repository that configure
    and persist scenarios ([simulation/scenarios.py]), drive a batch of
    runs ([simulation/run_scenarios.py]), wire and bind the component
    graph ([core/model.py], [core/model_bis.py]) and compute the
    additional grid cost ([analysis/analyse_results.py]).

    Python values are dynamically typed: a dictionary value and a
    dataclass attribute hold a [pyval].  Exceptions are explicit: a
    function that may raise returns a [result]. *)

From Stdlib Require Import ZArith String Ascii List Bool Lia.
From Stdlib Require Import SpecFloat.
From stdpp Require Import gmap strings list fin_maps pretty.

Open Scope string_scope.
Open Scope Z_scope.

(* ================================================================== *)
(** * Part I: definitions                                               *)
(* ================================================================== *)

(** ** Exceptions and results *)

(** The exception classes the embedded code can raise.  The first group
    are subclasses of [Exception]; [KeyboardInterrupt] and [SystemExit]
    derive from [BaseException] only, so [except Exception] lets them
    through. *)
Inductive exn_class :=
| KeyError | ValueError | TypeError | AttributeError | NameError
| OverflowError | FileNotFoundError | ModuleNotFoundError
| DuplicateNameError | UnboundPortError | MultipleWriterError
| UnknownPortError | NotFoundError | ShapeError
| OtherException
| KeyboardInterrupt | SystemExit.

Record exn := Exn { exn_cls : exn_class; exn_msg : string }.

(** [isinstance(e, Exception)] *)
Definition is_Exception (e : exn) : bool :=
  match exn_cls e with
  | KeyboardInterrupt | SystemExit => false
  | _ => true
  end.

Inductive result (A : Type) :=
| Ok (a : A)
| Raise (e : exn).
Arguments Ok {A} a.
Arguments Raise {A} e.

#[global] Instance result_ret : MRet result := fun A a => Ok a.
#[global] Instance result_bind : MBind result := fun A B f r =>
  match r with
  | Ok a => f a
  | Raise e => Raise e
  end.
#[global] Instance result_fmap : FMap result := fun A B f r =>
  match r with
  | Ok a => Ok (f a)
  | Raise e => Raise e
  end.

Definition raise {A} (c : exn_class) (msg : string) : result A :=
  Raise (Exn c msg).

Definition is_Ok {A} (r : result A) : bool :=
  match r with Ok _ => true | Raise _ => false end.

(** ** Python values *)

(** The three option enums of [model_to_flex.core.enums]. *)
Inductive enum_class := BuilderType | SolverType | DispatchType.

#[global] Instance enum_class_eq_dec : EqDecision enum_class.
Proof. solve_decision. Defined.

(** A Python float is an IEEE 754 binary64 ([prec = 53], [emax = 1024]). *)
Definition prec : Z := 53.
Definition emax : Z := 1024.

(** A member of an enum class is identified by the class and its
    [.value]: Python's [Enum] keeps one member per value. *)
#[warning="-register-all"]
Inductive pyval :=
| VNone
| VBool (b : bool)
| VInt (z : Z)
| VFloat (f : spec_float)
| VStr (s : string)
| VList (l : list pyval)
| VDict (d : gmap string pyval)
| VEnum (c : enum_class) (value : string).

(** Truth value of an object, as [if x:] tests it: a number is true
    when it is not zero, a container when it is not empty. *)
Definition truthy (v : pyval) : bool :=
  match v with
  | VNone => false
  | VBool b => b
  | VInt z => negb (z =? 0)
  | VFloat (S754_zero _) => false
  | VFloat _ => true
  | VStr s => negb (String.eqb s "")
  | VList l => match l with [] => false | _ => true end
  | VDict d => match map_to_list d with [] => false | _ => true end
  | VEnum _ _ => true
  end.

(** The keys of a dictionary. *)
Definition keys {A} (d : gmap string A) : list string := (map_to_list d).*1.

(** [key in d] *)
Definition has_key {A} (k : string) (d : gmap string A) : bool :=
  match d !! k with Some _ => true | None => false end.

(** [d.pop(k, default)]: the value and the dictionary without [k]. *)
Definition pop (k : string) (default : pyval) (d : gmap string pyval)
  : pyval * gmap string pyval :=
  (match d !! k with Some v => v | None => default end, delete k d).

(** ** The option enums

    Modelled from the spec: the enum classes live in
    [model_to_flex.core.enums], outside the repository.  The source
    names three members ([BuilderType.PYOMO], [SolverType.CBC],
    [DispatchType.MONTHLY]); the spec says their values are strings.
    Which strings are values of which class is a parameter. *)
Class Enums := {
  is_member : enum_class → string → bool;
  PYOMO : string;
  CBC : string;
  MONTHLY : string;
  PYOMO_is_member : is_member BuilderType PYOMO = true;
  CBC_is_member : is_member SolverType CBC = true;
  MONTHLY_is_member : is_member DispatchType MONTHLY = true;
}.

(** [cls(x)]: look a member up by value; a member of the class is
    returned as it is; anything else is a [ValueError]. *)
Definition enum_of_value `{Enums} (c : enum_class) (x : pyval) : result pyval :=
  match x with
  | VStr s => if is_member c s then Ok (VEnum c s)
              else raise ValueError "not a valid member"
  | VEnum c' s =>
      if bool_decide (c' = c) && is_member c s then Ok (VEnum c s)
      else raise ValueError "not a valid member"
  | _ => raise ValueError "not a valid member"
  end.

(** [isinstance(x, cls)] for an enum class *)
Definition isinstance `{Enums} (c : enum_class) (x : pyval) : bool :=
  match x with
  | VEnum c' s => bool_decide (c' = c) && is_member c s
  | _ => false
  end.

(** [x.value]: only enum members have the attribute. *)
Definition enum_value (x : pyval) : result pyval :=
  match x with
  | VEnum _ s => Ok (VStr s)
  | _ => raise AttributeError "value"
  end.

(** [v[k]] for a string key: only a dictionary can be subscripted so. *)
Definition getitem (v : pyval) (k : string) : result pyval :=
  match v with
  | VDict d => match d !! k with
               | Some x => Ok x
               | None => raise KeyError k
               end
  | _ => raise TypeError "not subscriptable"
  end.

(** [v[k] = x] for a string key. *)
Definition setitem (v : pyval) (k : string) (x : pyval) : result pyval :=
  match v with
  | VDict d => Ok (VDict (<[k:=x]> d))
  | _ => raise TypeError "does not support item assignment"
  end.

(** The operand of [**v] in a call must be a mapping. *)
Definition as_mapping (v : pyval) : result (gmap string pyval) :=
  match v with
  | VDict d => Ok d
  | _ => raise TypeError "argument after ** must be a mapping"
  end.

(** [f( **a, **b)]: a keyword given twice is a [TypeError]. *)
Definition merge_kwargs (a b : gmap string pyval) : result (gmap string pyval) :=
  if forallb (λ k, negb (has_key k b)) (keys a) then Ok (a ∪ b)
  else raise TypeError "multiple values for keyword argument".

(** [data.update(other)]: the entries of [other] win.  A truthy string
    is a sequence of one-character items and raises [ValueError]; the
    other scalars are not iterable.  Updating from a list of pairs is
    not modelled: the store keeps [equipment_params] as an object. *)
Definition dict_update (data : gmap string pyval) (other : pyval)
  : result (gmap string pyval) :=
  match other with
  | VDict o => Ok (o ∪ data)
  | VStr _ => raise ValueError "dictionary update sequence element #0 has length 1"
  | VList _ => raise OtherException "update from a sequence of pairs"
  | _ => raise TypeError "object is not iterable"
  end.

(** A comprehension [{k: f(v) for k, v in d.items()}] whose body may raise. *)
Definition dict_mapM {A B} (f : A → result B) (d : gmap string A)
  : result (gmap string B) :=
  l ← mapM (λ kv, b ← f kv.2; mret (kv.1, b)) (map_to_list d);
  mret (list_to_map l).

(** Float literals of the source. *)
Definition Z2F (z : Z) : spec_float := binary_normalize prec emax z 0 false.
Definition float_0_0 : spec_float := S754_zero false.
Definition float_1_0 : spec_float := Eval vm_compute in Z2F 1.

(* ------------------------------------------------------------------ *)
(** ** [simulation/scenarios.py]: the [Scenario] dataclass *)

Module Scenario.

(** The attributes carry no run-time type: each holds whatever object
    the caller passed. *)
Record t := mk {
  (* required parameters (no defaults) *)
  name : pyval;
  description : pyval;
  price_starttime : pyval;
  demand_starttime : pyval;
  length : pyval;
  gas_turbine_minload_electricity_capacity : pyval;
  gas_turbine_maxload_electricity_capacity : pyval;
  gas_turbine_minload_electricity_efficiency : pyval;
  gas_turbine_maxload_electricity_efficiency : pyval;
  gas_turbine_minload_heat_efficiency : pyval;
  gas_turbine_maxload_heat_efficiency : pyval;
  gas_boiler_efficiency : pyval;
  gas_boiler_capacity : pyval;
  e_boiler_efficiency : pyval;
  e_boiler_capacity : pyval;
  hrsg_efficiency : pyval;
  hrsg_capacity : pyval;
  elec_offtake_contract_param_a : pyval;
  elec_offtake_contract_param_b : pyval;
  elec_injection_contract_param_a : pyval;
  elec_injection_contract_param_b : pyval;
  elec_grid_cost_energy : pyval;
  elec_grid_cost_power_peak : pyval;
  elec_grid_cost_power_fixed : pyval;
  elec_grid_cost_max_tariff : pyval;
  elec_offtake_tax_energy : pyval;
  gas_offtake_contract_param_a : pyval;
  gas_offtake_contract_param_b : pyval;
  gas_grid_cost_energy : pyval;
  (* optional parameters (with defaults) *)
  freq : pyval;
  optimizer_type : pyval;
  builder_type : pyval;
  solver : pyval;
  dispatch_type : pyval;
  pred_hor : pyval;
  contr_hor : pyval;
  created_at : pyval;
  results_path : pyval;
}.

(** Parameters without a default, in declaration order. *)
Definition required_fields : list string := [
  "name";
  "description";
  "price_starttime";
  "demand_starttime";
  "length";
  "gas_turbine_minload_electricity_capacity";
  "gas_turbine_maxload_electricity_capacity";
  "gas_turbine_minload_electricity_efficiency";
  "gas_turbine_maxload_electricity_efficiency";
  "gas_turbine_minload_heat_efficiency";
  "gas_turbine_maxload_heat_efficiency";
  "gas_boiler_efficiency";
  "gas_boiler_capacity";
  "e_boiler_efficiency";
  "e_boiler_capacity";
  "hrsg_efficiency";
  "hrsg_capacity";
  "elec_offtake_contract_param_a";
  "elec_offtake_contract_param_b";
  "elec_injection_contract_param_a";
  "elec_injection_contract_param_b";
  "elec_grid_cost_energy";
  "elec_grid_cost_power_peak";
  "elec_grid_cost_power_fixed";
  "elec_grid_cost_max_tariff";
  "elec_offtake_tax_energy";
  "gas_offtake_contract_param_a";
  "gas_offtake_contract_param_b";
  "gas_grid_cost_energy"
].

Definition optional_fields : list string := [
  "freq"; "optimizer_type"; "builder_type"; "solver"; "dispatch_type";
  "pred_hor"; "contr_hor"; "created_at"; "results_path"
].

Definition field_names : list string :=
  (required_fields ++ optional_fields)%list.

Definition is_field (k : string) : bool := bool_decide (k ∈ field_names).

Definition arg (kw : gmap string pyval) (k : string) : pyval :=
  default VNone (kw !! k).

(** [__post_init__]: a missing creation time becomes the current time,
    [datetime.now().strftime(...)], here the parameter [now]. *)
Definition post_init (now : string) (self : t) : t :=
  match created_at self with
  | VNone =>
      let 'mk a1 a2 a3 a4 a5 a6 a7 a8 a9 a10 a11 a12 a13 a14 a15 a16 a17 a18
              a19 a20 a21 a22 a23 a24 a25 a26 a27 a28 a29 a30 a31 a32 a33
              a34 a35 a36 _ a38 := self in
      mk a1 a2 a3 a4 a5 a6 a7 a8 a9 a10 a11 a12 a13 a14 a15 a16 a17 a18
         a19 a20 a21 a22 a23 a24 a25 a26 a27 a28 a29 a30 a31 a32 a33
         a34 a35 a36 (VStr now) a38
  | _ => self
  end.

(** The generated [__init__], called with keyword arguments only
    ([cls( **kw)]): an unknown keyword or a missing required one is a
    [TypeError]; then [__post_init__] runs. *)
Definition init `{Enums} (now : string) (kw : gmap string pyval) : result t :=
  if negb (forallb is_field (keys kw)) then
    raise TypeError "__init__() got an unexpected keyword argument"
  else if negb (forallb (λ k, has_key k kw) required_fields) then
    raise TypeError "__init__() missing required arguments"
  else
    Ok (post_init now
      {|
     name := arg kw "name";
     description := arg kw "description";
     price_starttime := arg kw "price_starttime";
     demand_starttime := arg kw "demand_starttime";
     length := arg kw "length";
     gas_turbine_minload_electricity_capacity := arg kw "gas_turbine_minload_electricity_capacity";
     gas_turbine_maxload_electricity_capacity := arg kw "gas_turbine_maxload_electricity_capacity";
     gas_turbine_minload_electricity_efficiency := arg kw "gas_turbine_minload_electricity_efficiency";
     gas_turbine_maxload_electricity_efficiency := arg kw "gas_turbine_maxload_electricity_efficiency";
     gas_turbine_minload_heat_efficiency := arg kw "gas_turbine_minload_heat_efficiency";
     gas_turbine_maxload_heat_efficiency := arg kw "gas_turbine_maxload_heat_efficiency";
     gas_boiler_efficiency := arg kw "gas_boiler_efficiency";
     gas_boiler_capacity := arg kw "gas_boiler_capacity";
     e_boiler_efficiency := arg kw "e_boiler_efficiency";
     e_boiler_capacity := arg kw "e_boiler_capacity";
     hrsg_efficiency := arg kw "hrsg_efficiency";
     hrsg_capacity := arg kw "hrsg_capacity";
     elec_offtake_contract_param_a := arg kw "elec_offtake_contract_param_a";
     elec_offtake_contract_param_b := arg kw "elec_offtake_contract_param_b";
     elec_injection_contract_param_a := arg kw "elec_injection_contract_param_a";
     elec_injection_contract_param_b := arg kw "elec_injection_contract_param_b";
     elec_grid_cost_energy := arg kw "elec_grid_cost_energy";
     elec_grid_cost_power_peak := arg kw "elec_grid_cost_power_peak";
     elec_grid_cost_power_fixed := arg kw "elec_grid_cost_power_fixed";
     elec_grid_cost_max_tariff := arg kw "elec_grid_cost_max_tariff";
     elec_offtake_tax_energy := arg kw "elec_offtake_tax_energy";
     gas_offtake_contract_param_a := arg kw "gas_offtake_contract_param_a";
     gas_offtake_contract_param_b := arg kw "gas_offtake_contract_param_b";
     gas_grid_cost_energy := arg kw "gas_grid_cost_energy";
     freq := default (VStr "h") (kw !! "freq");
     optimizer_type := default (VStr "default") (kw !! "optimizer_type");
     builder_type := default (VEnum BuilderType PYOMO) (kw !! "builder_type");
     solver := default (VEnum SolverType CBC) (kw !! "solver");
     dispatch_type := default (VEnum DispatchType MONTHLY) (kw !! "dispatch_type");
     pred_hor := default (VInt (24 * 32)) (kw !! "pred_hor");
     contr_hor := default (VInt (24 * 32)) (kw !! "contr_hor");
     created_at := default (VNone) (kw !! "created_at");
     results_path := default (VNone) (kw !! "results_path")
      |}).

(** The three option fields hold members of their annotated enums. *)
Definition options_typed `{Enums} (self : t) : Prop :=
  isinstance BuilderType (builder_type self) = true ∧
  isinstance SolverType (solver self) = true ∧
  isinstance DispatchType (dispatch_type self) = true.

(** [to_dict]: the flat fields, then the nested [dispatch_options] and
    [metadata]. *)
Definition to_dict (self : t) : result (gmap string pyval) :=
  builder_type_value ← enum_value (builder_type self);
  solver_value ← enum_value (solver self);
  dispatch_type_value ← enum_value (dispatch_type self);
  mret (list_to_map [
    ("name", name self);
    ("description", description self);
    ("price_starttime", price_starttime self);
    ("demand_starttime", demand_starttime self);
    ("length", length self);
    ("freq", freq self);
    ("gas_turbine_minload_electricity_capacity", gas_turbine_minload_electricity_capacity self);
    ("gas_turbine_maxload_electricity_capacity", gas_turbine_maxload_electricity_capacity self);
    ("gas_turbine_minload_electricity_efficiency", gas_turbine_minload_electricity_efficiency self);
    ("gas_turbine_maxload_electricity_efficiency", gas_turbine_maxload_electricity_efficiency self);
    ("gas_turbine_minload_heat_efficiency", gas_turbine_minload_heat_efficiency self);
    ("gas_turbine_maxload_heat_efficiency", gas_turbine_maxload_heat_efficiency self);
    ("gas_boiler_efficiency", gas_boiler_efficiency self);
    ("gas_boiler_capacity", gas_boiler_capacity self);
    ("e_boiler_efficiency", e_boiler_efficiency self);
    ("e_boiler_capacity", e_boiler_capacity self);
    ("hrsg_efficiency", hrsg_efficiency self);
    ("hrsg_capacity", hrsg_capacity self);
    ("elec_offtake_contract_param_a", elec_offtake_contract_param_a self);
    ("elec_offtake_contract_param_b", elec_offtake_contract_param_b self);
    ("elec_injection_contract_param_a", elec_injection_contract_param_a self);
    ("elec_injection_contract_param_b", elec_injection_contract_param_b self);
    ("elec_grid_cost_energy", elec_grid_cost_energy self);
    ("elec_grid_cost_power_peak", elec_grid_cost_power_peak self);
    ("elec_grid_cost_power_fixed", elec_grid_cost_power_fixed self);
    ("elec_grid_cost_max_tariff", elec_grid_cost_max_tariff self);
    ("elec_offtake_tax_energy", elec_offtake_tax_energy self);
    ("gas_offtake_contract_param_a", gas_offtake_contract_param_a self);
    ("gas_offtake_contract_param_b", gas_offtake_contract_param_b self);
    ("gas_grid_cost_energy", gas_grid_cost_energy self);
    ("dispatch_options", VDict (list_to_map [
        ("optimizer_type", optimizer_type self);
        ("builder_type", builder_type_value);
        ("solver", solver_value);
        ("dispatch_type", dispatch_type_value);
        ("pred_hor", pred_hor self);
        ("contr_hor", contr_hor self)
     ]));
    ("metadata", VDict (list_to_map [
        ("created_at", created_at self);
        ("results_path", results_path self)
     ]))
  ]).

(** The defaults of the newer parameters, as [from_dict] lists them. *)
Definition defaults : list (string * pyval) := [
  ("elec_offtake_contract_param_a", VFloat float_1_0);
  ("elec_offtake_contract_param_b", VFloat float_0_0);
  ("elec_injection_contract_param_a", VFloat float_1_0);
  ("elec_injection_contract_param_b", VFloat float_0_0);
  ("elec_grid_cost_energy", VFloat float_0_0);
  ("elec_grid_cost_power_peak", VFloat float_0_0);
  ("elec_grid_cost_power_fixed", VFloat float_0_0);
  ("elec_grid_cost_max_tariff", VFloat float_0_0);
  ("elec_offtake_tax_energy", VFloat float_0_0);
  ("gas_offtake_contract_param_a", VFloat float_1_0);
  ("gas_offtake_contract_param_b", VFloat float_0_0);
  ("gas_grid_cost_energy", VFloat float_0_0)
].

Definition default_keys : list string := defaults.*1.

Definition default_value (key : string) : pyval :=
  default VNone ((list_to_map defaults : gmap string pyval) !! key).

(** [for key, default_value in defaults.items():
       if key not in data: data[key] = default_value] *)
Definition fill_defaults (data : gmap string pyval) : gmap string pyval :=
  foldl (λ data kv, if has_key kv.1 data then data else <[kv.1:=kv.2]> data)
        data defaults.

(** [dispatch_options[k] = cls(dispatch_options[k])] *)
Definition convert_enum `{Enums} (c : enum_class) (k : string)
    (dispatch_options : pyval) : result pyval :=
  x ← getitem dispatch_options k;
  e ← enum_of_value c x;
  setitem dispatch_options k e.

(** [from_dict].  The function pops and fills the dictionary it is
    given; the embedding threads the local [data] and returns only the
    scenario. *)
Definition from_dict `{Enums} (now : string) (data : gmap string pyval)
  : result t :=
  let '(dispatch_options, data) := pop "dispatch_options" (VDict ∅) data in
  let '(metadata, data) := pop "metadata" (VDict ∅) data in
  (* old structure with equipment_params *)
  let '(equipment_params, data) := pop "equipment_params" (VDict ∅) data in
  data ← (if truthy equipment_params then dict_update data equipment_params
          else Ok data);
  (* enum strings back to enum values *)
  dispatch_options ← convert_enum BuilderType "builder_type" dispatch_options;
  dispatch_options ← convert_enum SolverType "solver" dispatch_options;
  dispatch_options ← convert_enum DispatchType "dispatch_type" dispatch_options;
  (* defaults for missing keys *)
  let data := fill_defaults data in
  (* cls( **data, **dispatch_options, **metadata) *)
  dispatch_options ← as_mapping dispatch_options;
  kw ← merge_kwargs data dispatch_options;
  metadata ← as_mapping metadata;
  kw ← merge_kwargs kw metadata;
  init now kw.

(** The instance dictionary [self.__dict__], restricted to the
    dataclass fields. *)
Definition attrs (self : t) : gmap string pyval :=
  list_to_map [
    ("name", name self);
    ("description", description self);
    ("price_starttime", price_starttime self);
    ("demand_starttime", demand_starttime self);
    ("length", length self);
    ("gas_turbine_minload_electricity_capacity", gas_turbine_minload_electricity_capacity self);
    ("gas_turbine_maxload_electricity_capacity", gas_turbine_maxload_electricity_capacity self);
    ("gas_turbine_minload_electricity_efficiency", gas_turbine_minload_electricity_efficiency self);
    ("gas_turbine_maxload_electricity_efficiency", gas_turbine_maxload_electricity_efficiency self);
    ("gas_turbine_minload_heat_efficiency", gas_turbine_minload_heat_efficiency self);
    ("gas_turbine_maxload_heat_efficiency", gas_turbine_maxload_heat_efficiency self);
    ("gas_boiler_efficiency", gas_boiler_efficiency self);
    ("gas_boiler_capacity", gas_boiler_capacity self);
    ("e_boiler_efficiency", e_boiler_efficiency self);
    ("e_boiler_capacity", e_boiler_capacity self);
    ("hrsg_efficiency", hrsg_efficiency self);
    ("hrsg_capacity", hrsg_capacity self);
    ("elec_offtake_contract_param_a", elec_offtake_contract_param_a self);
    ("elec_offtake_contract_param_b", elec_offtake_contract_param_b self);
    ("elec_injection_contract_param_a", elec_injection_contract_param_a self);
    ("elec_injection_contract_param_b", elec_injection_contract_param_b self);
    ("elec_grid_cost_energy", elec_grid_cost_energy self);
    ("elec_grid_cost_power_peak", elec_grid_cost_power_peak self);
    ("elec_grid_cost_power_fixed", elec_grid_cost_power_fixed self);
    ("elec_grid_cost_max_tariff", elec_grid_cost_max_tariff self);
    ("elec_offtake_tax_energy", elec_offtake_tax_energy self);
    ("gas_offtake_contract_param_a", gas_offtake_contract_param_a self);
    ("gas_offtake_contract_param_b", gas_offtake_contract_param_b self);
    ("gas_grid_cost_energy", gas_grid_cost_energy self);
    ("freq", freq self);
    ("optimizer_type", optimizer_type self);
    ("builder_type", builder_type self);
    ("solver", solver self);
    ("dispatch_type", dispatch_type self);
    ("pred_hor", pred_hor self);
    ("contr_hor", contr_hor self);
    ("created_at", created_at self);
    ("results_path", results_path self)
  ].

Definition of_attrs (d : gmap string pyval) : t :=
  {|
     name := arg d "name";
     description := arg d "description";
     price_starttime := arg d "price_starttime";
     demand_starttime := arg d "demand_starttime";
     length := arg d "length";
     gas_turbine_minload_electricity_capacity := arg d "gas_turbine_minload_electricity_capacity";
     gas_turbine_maxload_electricity_capacity := arg d "gas_turbine_maxload_electricity_capacity";
     gas_turbine_minload_electricity_efficiency := arg d "gas_turbine_minload_electricity_efficiency";
     gas_turbine_maxload_electricity_efficiency := arg d "gas_turbine_maxload_electricity_efficiency";
     gas_turbine_minload_heat_efficiency := arg d "gas_turbine_minload_heat_efficiency";
     gas_turbine_maxload_heat_efficiency := arg d "gas_turbine_maxload_heat_efficiency";
     gas_boiler_efficiency := arg d "gas_boiler_efficiency";
     gas_boiler_capacity := arg d "gas_boiler_capacity";
     e_boiler_efficiency := arg d "e_boiler_efficiency";
     e_boiler_capacity := arg d "e_boiler_capacity";
     hrsg_efficiency := arg d "hrsg_efficiency";
     hrsg_capacity := arg d "hrsg_capacity";
     elec_offtake_contract_param_a := arg d "elec_offtake_contract_param_a";
     elec_offtake_contract_param_b := arg d "elec_offtake_contract_param_b";
     elec_injection_contract_param_a := arg d "elec_injection_contract_param_a";
     elec_injection_contract_param_b := arg d "elec_injection_contract_param_b";
     elec_grid_cost_energy := arg d "elec_grid_cost_energy";
     elec_grid_cost_power_peak := arg d "elec_grid_cost_power_peak";
     elec_grid_cost_power_fixed := arg d "elec_grid_cost_power_fixed";
     elec_grid_cost_max_tariff := arg d "elec_grid_cost_max_tariff";
     elec_offtake_tax_energy := arg d "elec_offtake_tax_energy";
     gas_offtake_contract_param_a := arg d "gas_offtake_contract_param_a";
     gas_offtake_contract_param_b := arg d "gas_offtake_contract_param_b";
     gas_grid_cost_energy := arg d "gas_grid_cost_energy";
     freq := arg d "freq";
     optimizer_type := arg d "optimizer_type";
     builder_type := arg d "builder_type";
     solver := arg d "solver";
     dispatch_type := arg d "dispatch_type";
     pred_hor := arg d "pred_hor";
     contr_hor := arg d "contr_hor";
     created_at := arg d "created_at";
     results_path := arg d "results_path"
  |}.

(** [getattr(self, key)], absent when there is no such attribute. *)
Definition getattr (key : string) (self : t) : option pyval :=
  attrs self !! key.

(** [setattr(self, key, value)] stores into the instance dictionary.
    An attribute that is not a dataclass field is invisible to
    [to_dict] and is not kept in the record. *)
Definition setattr (key : string) (value : pyval) (self : t) : t :=
  of_attrs (<[key:=value]> (attrs self)).

End Scenario.

(* ------------------------------------------------------------------ *)
(** ** [simulation/scenarios.py]: the [ScenarioManager]

    The file system is a map from a path to the JSON document stored
    there; [json.dump] and [json.load] are taken as exact inverses on
    the document, whose text encoding is not modelled.  A method
    that rewrites the store returns the manager and the file system
    after the call.  The clock is read as [now] throughout one call. *)

(** Writing can fail: [open(path, "w")] raises an [OSError] when the
    path cannot be opened (a [FileNotFoundError] when its directory
    is missing), and [json.dump] raises on a value that has no JSON
    form or when the write fails.  Which paths open and which
    documents can be dumped is decided by the operating system and by
    the [json] module, outside the repository: a parameter.  What a
    failed write leaves in the file is not modelled. *)
Class Files := {
  open_for_writing : string → result unit;   (* open(path, "w") *)
  json_dump : pyval → result unit;           (* json.dump(data, f, indent=2) *)
}.

Module ScenarioManager.

Record t := mk {
  scenarios_file : string;
  scenarios : gmap string Scenario.t;
}.

(** [load_scenarios]: nothing to do when the file does not exist. *)
Definition load_scenarios `{Enums} (now : string) (fs : gmap string pyval)
    (self : t) : result t :=
  match fs !! scenarios_file self with
  | None => Ok self
  | Some (VDict data) =>
      loaded ← dict_mapM (λ scenario_data,
                 match scenario_data with
                 | VDict d => Scenario.from_dict now d
                 | _ => raise AttributeError "pop"
                 end) data;
      mret (mk (scenarios_file self) loaded)
  | Some _ => raise AttributeError "items"
  end.

(** [__init__(scenarios_file="simulation/scenarios.json")] *)
Definition init `{Enums} (now : string) (fs : gmap string pyval)
    (scenarios_file : string) : result t :=
  load_scenarios now fs (mk scenarios_file ∅).

Definition default_file : string := "simulation/scenarios.json".

(** The document [save_scenarios] dumps. *)
Definition document (self : t) : result pyval :=
  data ← dict_mapM Scenario.to_dict (scenarios self);
  mret (VDict (VDict <$> data)).

(** [save_scenarios]: the document is built first, then the file is
    opened for writing and the document dumped into it, so that what
    the file held is replaced by the document. *)
Definition save_scenarios `{Files} (fs : gmap string pyval) (self : t)
  : result (gmap string pyval) :=
  data ← document self;
  _ ← open_for_writing (scenarios_file self);
  _ ← json_dump data;
  mret (<[scenarios_file self := data]> fs).

(** [add_scenario].  The store is keyed by the scenario's [name], a
    [str]; a name of another type is outside this model of the store. *)
Definition add_scenario `{Files} (fs : gmap string pyval) (self : t)
    (scenario : Scenario.t) : result (t * gmap string pyval) :=
  match Scenario.name scenario with
  | VStr name =>
      let self := mk (scenarios_file self) (<[name:=scenario]> (scenarios self)) in
      fs ← save_scenarios fs self;
      mret (self, fs)
  | _ => raise TypeError "scenario name is not a str"
  end.

(** [get_scenario]: [dict.get], [None] when the name is absent. *)
Definition get_scenario (self : t) (name : string) : option Scenario.t :=
  scenarios self !! name.

(** [list_scenarios]: name to description. *)
Definition list_scenarios (self : t) : gmap string pyval :=
  Scenario.description <$> scenarios self.

(** [update_scenario(name, **kwargs)]: only an existing scenario is
    touched, and only then is the store saved. *)
Definition update_scenario `{Files} (fs : gmap string pyval) (self : t)
    (name : string) (kwargs : list (string * pyval))
  : result (t * gmap string pyval) :=
  match scenarios self !! name with
  | Some scenario =>
      let scenario :=
        foldl (λ sc kv, Scenario.setattr kv.1 kv.2 sc) scenario kwargs in
      let self := mk (scenarios_file self) (<[name:=scenario]> (scenarios self)) in
      fs ← save_scenarios fs self;
      mret (self, fs)
  | None => mret (self, fs)
  end.

(** [delete_scenario] *)
Definition delete_scenario `{Files} (fs : gmap string pyval) (self : t)
    (name : string) : result (t * gmap string pyval) :=
  match scenarios self !! name with
  | Some _ =>
      let self := mk (scenarios_file self) (delete name (scenarios self)) in
      fs ← save_scenarios fs self;
      mret (self, fs)
  | None => mret (self, fs)
  end.

End ScenarioManager.

(* ------------------------------------------------------------------ *)
(** ** Executing a module's top level

    What matters when a module is imported: which global names each
    top-level statement reads, in evaluation order, and which it
    binds.  A name is looked up in the module's globals, then in the
    builtins; a name found in neither raises [NameError]. *)

Module PyModule.

Inductive stmt :=
| SImport (module : string)                         (* import module *)
| SFromImport (module : string) (names : list string) (* from module import names *)
| SExpr (loads : list string)                       (* an expression statement *)
| SAssign (target : string) (loads : list string)   (* target = expression *)
| SDef (name : string).                             (* def name(...): the body is not run *)

(** A top-level item: a statement, or the block guarded by
    [if __name__ == "__main__":]. *)
Inductive item :=
| Stmt (st : stmt)
| IfMain (body : list stmt).

(** Names every module starts with. *)
Definition module_globals : list string :=
  ["__name__"; "__doc__"; "__package__"; "__loader__"; "__spec__";
   "__file__"; "__builtins__"].

(** The names of the [builtins] module (Python 3). *)
Definition builtins : list string :=
  ["abs"; "aiter"; "all"; "anext"; "any"; "ascii"; "bin"; "bool";
   "breakpoint"; "bytearray"; "bytes"; "callable"; "chr"; "classmethod";
   "compile"; "complex"; "delattr"; "dict"; "dir"; "divmod"; "enumerate";
   "eval"; "exec"; "filter"; "float"; "format"; "frozenset"; "getattr";
   "globals"; "hasattr"; "hash"; "help"; "hex"; "id"; "input"; "int";
   "isinstance"; "issubclass"; "iter"; "len"; "list"; "locals"; "map";
   "max"; "memoryview"; "min"; "next"; "object"; "oct"; "open"; "ord";
   "pow"; "print"; "property"; "range"; "repr"; "reversed"; "round";
   "set"; "setattr"; "slice"; "sorted"; "staticmethod"; "str"; "sum";
   "super"; "tuple"; "type"; "vars"; "zip"; "__import__";
   "True"; "False"; "None"; "Ellipsis"; "NotImplemented";
   "BaseException"; "Exception"; "ArithmeticError"; "AssertionError";
   "AttributeError"; "EOFError"; "FileNotFoundError"; "ImportError";
   "IndexError"; "KeyError"; "KeyboardInterrupt"; "LookupError";
   "MemoryError"; "ModuleNotFoundError"; "NameError";
   "NotImplementedError"; "OSError"; "OverflowError"; "RuntimeError";
   "StopIteration"; "SyntaxError"; "SystemExit"; "TypeError";
   "ValueError"; "ZeroDivisionError"; "Warning"; "UserWarning";
   "DeprecationWarning"; "RuntimeWarning"].

Definition bound (globals : list string) (x : string) : bool :=
  bool_decide (x ∈ globals) || bool_decide (x ∈ builtins).

(** The first of the loaded names that is unbound, if any. *)
Definition first_unbound (globals loads : list string) : option string :=
  List.find (λ x, negb (bound globals x)) loads.

(** The name [import a.b.c] binds is the first component [a]. *)
Fixpoint top_package (module : string) : string :=
  match module with
  | EmptyString => EmptyString
  | String c rest =>
      if Ascii.eqb c "."%char then EmptyString else String c (top_package rest)
  end.

Section Exec.
(** Which modules can be imported (found, and executed without an
    error), and whether the file runs as a script. *)
Variable importable : string → bool.
Variable as_main : bool.

Definition name_error (x : string) : exn :=
  Exn NameError ("name '" ++ x ++ "' is not defined").

(** The globals after the statements that ran, and the exception that
    stopped the execution, if one did. *)
Definition exec_stmt (globals : list string) (st : stmt)
  : list string * option exn :=
  match st with
  | SImport module =>
      if importable module then (top_package module :: globals, None)
      else (globals, Some (Exn ModuleNotFoundError module))
  | SFromImport module names =>
      if importable module then ((names ++ globals)%list, None)
      else (globals, Some (Exn ModuleNotFoundError module))
  | SExpr loads =>
      match first_unbound globals loads with
      | Some x => (globals, Some (name_error x))
      | None => (globals, None)
      end
  | SAssign target loads =>
      match first_unbound globals loads with
      | Some x => (globals, Some (name_error x))
      | None => (target :: globals, None)
      end
  | SDef name => (name :: globals, None)
  end.

Fixpoint exec_block (globals : list string) (body : list stmt)
  : list string * option exn :=
  match body with
  | [] => (globals, None)
  | st :: rest =>
      match exec_stmt globals st with
      | (globals, None) => exec_block globals rest
      | stopped => stopped
      end
  end.

Fixpoint exec (globals : list string) (prog : list item)
  : list string * option exn :=
  match prog with
  | [] => (globals, None)
  | it :: rest =>
      let step :=
        match it with
        | Stmt st => exec_stmt globals st
        | IfMain body => if as_main then exec_block globals body
                         else (globals, None)
        end in
      match step with
      | (globals, None) => exec globals rest
      | stopped => stopped
      end
  end.

Definition run (prog : list item) : list string * option exn :=
  exec module_globals prog.
End Exec.

End PyModule.

(* ------------------------------------------------------------------ *)
(** ** [simulation/run_scenarios.py] *)

Module RunScenarios.

Import PyModule.

(** The top level of the module, lines 1 to 14, then the two function
    definitions and the script block (whose branches depend on the
    command line and are not followed further). *)
Definition top_level : list item := [
  Stmt (SImport "os");
  (* os.chdir(Path(__file__).parent.parent) *)
  Stmt (SExpr ["os"; "Path"; "__file__"]);
  (* print(f"Working directory: {os.getcwd()}") *)
  Stmt (SExpr ["print"; "os"]);
  Stmt (SFromImport "datetime" ["datetime"]);
  Stmt (SFromImport "simulation.scenarios" ["Scenario"; "ScenarioManager"]);
  Stmt (SFromImport "simulation.define_scenarios" ["define_scenarios"]);
  Stmt (SFromImport "core.data_generator" ["get_data"]);
  Stmt (SFromImport "core.model_bis" ["get_model"]);
  Stmt (SFromImport "model_to_flex.core.dispatch" ["dispatch"]);
  Stmt (SFromImport "model_to_flex.core.io_utils.save_results" ["save_results"]);
  Stmt (SDef "run_scenario");
  Stmt (SDef "run_all_scenarios");
  IfMain [
    SImport "sys";
    SAssign "is_notebook" ["sys"]
  ]
].

(** The scenarios for which [run_scenario] sets the penalty that keeps
    the CHP from being used, and the one that keeps it from shutting
    down. *)
Definition no_chp_scenarios : list string :=
  ["Flex_0"; "Flex_4"; "Flex_5.1"; "Flex_5.11"; "Flex_5.2"; "Flex_5.3"].

Definition no_shutdown_scenarios : list string :=
  ["Flex_0"; "Flex_1.1"; "Flex_1.2"; "Flex_1.3"; "Flex_1.4"; "Flex_1.5"].

Definition penalty_for_gas_to_turbine (name : string) : Z :=
  if bool_decide (name ∈ no_chp_scenarios) then -100000 else 0.

Definition penalty_turbine_no_shutdown (name : string) : Z :=
  if bool_decide (name ∈ no_shutdown_scenarios) then -100000 else 0.

(** What [run_all_scenarios] prints, one constructor per [print] call. *)
Inductive line :=
| NoScenariosDefined                       (* "No scenarios defined!" *)
| RunningAll                               (* "Running all scenarios:" *)
| RunningScenario (name : string)          (* "\nRunning scenario: {name}" *)
| FromRun (text : string)                  (* printed inside run_scenario *)
| Completed (name : string)                (* "✓ Scenario '{name}' completed successfully" *)
| FailedWith (name : string) (error : string) (* "✗ Scenario '{name}' failed with error: {e}" *)
| Continuing                               (* "Continuing with remaining scenarios..." *)
| Rule                                     (* "=" * 50 *)
| SummaryTitle                             (* "SCENARIO EXECUTION SUMMARY" *)
| SuccessfullyCompleted (count total : Z)  (* "Successfully completed: {count}/{total} scenarios" *)
| FailedScenarios                          (* "\nFailed scenarios:" *)
| FailedItem (name : string) (error : string) (* "  - {name}: {error}" *)
| AllCompleted.                            (* "All scenarios completed successfully!" *)

Section Driver.
Context `{Enums}.

(** The world a run acts on: files, clock, network.  [disk] and
    [clock] are what [ScenarioManager()] reads of it. *)
Context {World : Type}.
Variable disk : World → gmap string pyval.
Variable clock : World → string.

(** [run_scenario(name)]: the world after the call, the lines it
    printed, and whether it returned or raised. *)
Variable run_scenario : string → World → World * list string * result unit.

(** The state of the [for] loop: world, output so far,
    [failed_scenarios]. *)
Definition loop_state : Type := World * list line * list (string * string).

(** [for name in scenarios: try: ... except Exception as e: ...].
    An exception that is not an [Exception] leaves the loop. *)
Fixpoint for_each (names : list string) (st : loop_state)
  : loop_state * option exn :=
  match names with
  | [] => (st, None)
  | name :: rest =>
      let '(w, out, failed) := st in
      let out := (out ++ [RunningScenario name])%list in
      let '(w, printed, r) := run_scenario name w in
      let out := (out ++ map FromRun printed)%list in
      match r with
      | Ok _ => for_each rest (w, (out ++ [Completed name])%list, failed)
      | Raise e =>
          if is_Exception e then
            for_each rest
              (w, (out ++ [FailedWith name (exn_msg e); Continuing])%list,
               (failed ++ [(name, exn_msg e)])%list)
          else ((w, out, failed), Some e)
      end
  end.

(** [run_all_scenarios()] *)
Definition run_all_scenarios (w : World)
  : World * list line * result unit :=
  match ScenarioManager.init (clock w) (disk w) ScenarioManager.default_file with
  | Raise e => (w, [], Raise e)
  | Ok manager =>
      let scenarios := keys (ScenarioManager.list_scenarios manager) in
      match scenarios with
      | [] => (w, [NoScenariosDefined], Ok tt)
      | _ =>
          match for_each scenarios (w, [RunningAll], []) with
          | ((w, out, failed), Some e) => (w, out, Raise e)
          | ((w, out, failed), None) =>
              let successful_count :=
                Z.of_nat (length scenarios) - Z.of_nat (length failed) in
              let out :=
                (out ++ [Rule; SummaryTitle; Rule;
                         SuccessfullyCompleted successful_count
                           (Z.of_nat (length scenarios))])%list in
              let out :=
                match failed with
                | [] => (out ++ [AllCompleted])%list
                | _ => (out ++ FailedScenarios ::
                               map (λ f, FailedItem f.1 f.2) failed)%list
                end in
              (w, out, Ok tt)
          end
      end
  end.
End Driver.

End RunScenarios.

(* ------------------------------------------------------------------ *)
(** ** The model graph of [model_to_flex]

    Modelled from the spec: [model_to_flex.core.Model.model.Model] is
    not part of the repository.  The spec gives its contract: [add]
    registers a component under its unique name; [connect] records a
    directed edge between two ports whose components are registered,
    and a port is the destination of at most one edge; [get_component]
    fails on an unknown name. *)

Class Named (C : Type) := name_of : C → string.

(** A port is addressed by the component that owns it and its name in
    the component's [vars]. *)
Definition port : Type := string * string.

Module Model.
Section Model.
Context {C : Type} `{Named C}.

Record t := mk {
  components : gmap string C;
  connections : list (port * port);
}.

(** [Model()] *)
Definition new : t := mk ∅ [].

(** [add(component)] *)
Definition add (c : C) (m : t) : result t :=
  if has_key (name_of c) (components m) then
    raise DuplicateNameError (name_of c)
  else Ok (mk (<[name_of c:=c]> (components m)) (connections m)).

Definition is_destination (p : port) (m : t) : bool :=
  bool_decide (p ∈ (connections m).*2).

(** [connect(source_port, destination_port)] *)
Definition connect (source destination : port) (m : t) : result t :=
  if negb (has_key source.1 (components m)
           && has_key destination.1 (components m)) then
    raise UnboundPortError "port of a component that was not added"
  else if is_destination destination m then
    raise MultipleWriterError "destination port already has a connection"
  else Ok (mk (components m) (connections m ++ [(source, destination)])).

(** [get_component(name)] *)
Definition get_component (name : string) (m : t) : result C :=
  match components m !! name with
  | Some c => Ok c
  | None => raise NotFoundError name
  end.

(** A method call on the component registered as [name]: the object
    is changed in place, or the call raises. *)
Definition update_component (name : string) (method : C → result C)
    (m : t) : result t :=
  c ← get_component name m;
  c ← method c;
  mret (mk (<[name:=c]> (components m)) (connections m)).

(** The module-level calls of a model file: every [add], then every
    [connect], in source order. *)
Definition assemble (cs : list C) (edges : list (port * port)) : result t :=
  m ← foldl (λ r c, m ← r; add c m) (Ok new) cs;
  foldl (λ r e, m ← r; connect e.1 e.2 m) (Ok m) edges.
End Model.
Arguments t C : clear implicits.
End Model.

(** The constructor calls of [model_to_flex.component_library] the
    model files make (the arguments that are given are kept; a market
    whose [quantities] is then retyped to [VariableType.VARIABLE] has
    [variable_quantities], a storage whose [charge] is retyped to
    [VariableType.PARAM] has [param_charge], and [base_quantities] is
    what [set_values("base quantities", ..)] gave the peak market). *)
Inductive component_decl :=
| Conversion (name : string) (conversion_factor : spec_float)
| Market (name : string) (quantities_lbounds quantities_ubounds : option Z)
         (variable_quantities : bool)
| PeakMarket (name : string) (base_quantities : option Z)
| Demand (name : string)
| Summation (name : string) (n : nat)
| Splitter (name : string) (n : nat)
| Storage (name : string) (param_charge : bool)
| CHP (name : string).

#[global] Instance component_decl_named : Named component_decl := λ d,
  match d with
  | Conversion n _ | Market n _ _ _ | PeakMarket n _ | Demand n
  | Summation n _ | Splitter n _ | Storage n _ | CHP n => n
  end.

(** Decimal literals: the double nearest to [n / d]. *)
Definition decimal (n d : Z) : spec_float := SFdiv prec emax (Z2F n) (Z2F d).

(** ** The component library, as far as the binding callbacks use it

    The component classes and pandas are outside the repository.  A
    library provides the methods the callbacks call, each of which may
    raise; a method aimed at one port leaves the values of the other
    ports of the component alone. *)
Class ComponentLibrary := {
  Component : Type;
  component_name : Component → string;
  (** a column of a data frame *)
  Series : Type;
  to_list : Series → pyval;                      (* series.to_list() *)
  series_mul : Series → spec_float → result Series; (* series * x *)
  series_add : Series → Series → result Series;  (* series + series *)
  (** [c.vars[p].values], when [c] has a port [p] *)
  port_values : Component → string → option pyval;
  (** [c.vars[p].set_values(v)] *)
  var_set_values : string → pyval → Component → result Component;
  (** [c.set_values(p, v)] *)
  set_values : string → pyval → Component → result Component;
  (** [c.set_bounds(p, lbound=.., ubound=..)] *)
  set_bounds : string → option pyval → option pyval → Component
               → result Component;
  (** [c.set_conversion_factor(v)] *)
  set_conversion_factor : pyval → Component → result Component;
  (** [c.set_max_charge(v)] *)
  set_max_charge : pyval → Component → result Component;
  var_set_values_other p v c c' q :
    var_set_values p v c = Ok c' → q ≠ p →
    port_values c' q = port_values c q;
  set_values_other p v c c' q :
    set_values p v c = Ok c' → q ≠ p →
    port_values c' q = port_values c q;
  set_bounds_other p lb ub c c' q :
    set_bounds p lb ub c = Ok c' → q ≠ p →
    port_values c' q = port_values c q;
}.

#[global] Instance component_named `{ComponentLibrary} : Named Component :=
  component_name.

(** [if key in table: model = body(table[key], model)] *)
Definition if_present {A M} (key : string) (table : gmap string A)
    (body : A → M → result M) (model : M) : result M :=
  match table !! key with
  | Some x => body x model
  | None => Ok model
  end.

(** [table[key]] *)
Definition item {A} (table : gmap string A) (key : string) : result A :=
  match table !! key with
  | Some x => Ok x
  | None => raise KeyError key
  end.

(** The values of port [p] of the component registered as [c]. *)
Definition values_at `{ComponentLibrary} (m : Model.t Component)
    (c p : string) : option pyval :=
  Model.components m !! c ≫= λ comp, port_values comp p.

(* ------------------------------------------------------------------ *)
(** ** [core/model.py] *)

Module ModelPy.

Definition components : list component_decl := [
  Conversion "gas_turbine_minload_electricity" (decimal 4 10);
  Conversion "gas_turbine_minload_heat" (decimal 6 10);
  Conversion "gas_turbine_maxload_electricity" (decimal 4 10);
  Conversion "gas_turbine_maxload_heat" (decimal 6 10);
  Conversion "gas_boiler" float_1_0;
  Conversion "hrsg" float_1_0;
  Conversion "e_boiler" float_1_0;
  Market "Electricity offtake" (Some 0) None true;
  Market "Electricity injection" (Some 0) None true;
  Market "Gas offtake" (Some 0) None true;
  Demand "heat_demand";
  Demand "electricity_demand";
  Summation "heat_supply" 5;
  Summation "electricity_consumption" 3;
  Splitter "gas_consumption" 4;
  Splitter "electricity_supply" 3;
  Market "CO2 allowance" (Some 0) None true;
  Conversion "CO2_emission" (decimal 1824 10000)
].

(** The [m.connect(source, destination)] calls, in order. *)
Definition connections : list (port * port) := [
  (("Gas offtake", "quantities"), ("gas_consumption", "input"));
  (("gas_consumption", "output0"), ("gas_boiler", "input"));
  (("gas_consumption", "output1"), ("gas_turbine_minload_electricity", "input"));
  (("gas_consumption", "output1"), ("gas_turbine_minload_heat", "input"));
  (("gas_consumption", "output2"), ("gas_turbine_maxload_electricity", "input"));
  (("gas_consumption", "output2"), ("gas_turbine_maxload_heat", "input"));
  (("gas_consumption", "output3"), ("hrsg", "input"));
  (("Gas offtake", "quantities"), ("CO2_emission", "input"));
  (("CO2_emission", "output"), ("CO2 allowance", "quantities"));
  (("gas_turbine_minload_heat", "output"), ("heat_supply", "input0"));
  (("gas_turbine_maxload_heat", "output"), ("heat_supply", "input1"));
  (("gas_boiler", "output"), ("heat_supply", "input2"));
  (("e_boiler", "output"), ("heat_supply", "input3"));
  (("hrsg", "output"), ("heat_supply", "input4"));
  (("heat_supply", "output"), ("heat_demand", "supply"));
  (("Electricity offtake", "quantities"), ("electricity_consumption", "input0"));
  (("gas_turbine_minload_electricity", "output"), ("electricity_consumption", "input1"));
  (("gas_turbine_maxload_electricity", "output"), ("electricity_consumption", "input2"));
  (("electricity_consumption", "output"), ("electricity_supply", "input"));
  (("electricity_supply", "output0"), ("electricity_demand", "supply"));
  (("electricity_supply", "output1"), ("e_boiler", "input"));
  (("electricity_supply", "output2"), ("Electricity injection", "quantities"))
].

(** The module-level [m]. *)
Definition m : result (Model.t component_decl) :=
  Model.assemble components connections.

Section Callbacks.
Context `{ComponentLibrary}.

Definition set_data (model : Model.t Component) (df : gmap string Series)
  : result (Model.t Component) :=
  model ← if_present "offtake_price" df (λ col,
    Model.update_component "Electricity offtake"
      (var_set_values "prices" (to_list col))) model;
  model ← if_present "injection_price" df (λ col,
    Model.update_component "Electricity injection"
      (var_set_values "prices" (to_list col))) model;
  model ← if_present "gas_price" df (λ col,
    Model.update_component "Gas offtake"
      (var_set_values "prices" (to_list col))) model;
  model ← if_present "co2_price" df (λ col,
    Model.update_component "CO2 allowance"
      (var_set_values "prices" (to_list col))) model;
  model ← if_present "heat_demand" df (λ col,
    Model.update_component "heat_demand"
      (var_set_values "demand" (to_list col))) model;
  model ← if_present "electricity_demand" df (λ col,
    Model.update_component "electricity_demand"
      (var_set_values "demand" (to_list col))) model;
  (* temperature dependent efficiencies *)
  model ← if_present "gas_turbine_minload_electricity_efficiency" df (λ col,
    Model.update_component "gas_turbine_minload_electricity"
      (set_conversion_factor (to_list col))) model;
  model ← if_present "gas_turbine_maxload_electricity_efficiency" df (λ col,
    Model.update_component "gas_turbine_maxload_electricity"
      (set_conversion_factor (to_list col))) model;
  (* turbine capacities *)
  model ← if_present "gas_turbine_minload_electricity_capacity" df (λ col,
    Model.update_component "gas_turbine_minload_electricity"
      (set_bounds "output" (Some (to_list col)) (Some (to_list col)))) model;
  model ← if_present "gas_turbine_maxload_electricity_capacity" df (λ col,
    Model.update_component "gas_turbine_maxload_electricity"
      (set_bounds "output" (Some (VInt 0)) (Some (to_list col)))) model;
  if_present "hrsg_capacity" df (λ col,
    Model.update_component "hrsg"
      (set_bounds "output" (Some (VInt 0)) (Some (to_list col)))) model.

Definition set_parameters (model : Model.t Component)
    (params : gmap string pyval) : result (Model.t Component) :=
  (* gas turbine *)
  model ← if_present "gas_turbine_minload_heat_efficiency" params (λ v,
    Model.update_component "gas_turbine_minload_heat"
      (set_conversion_factor v)) model;
  model ← if_present "gas_turbine_maxload_heat_efficiency" params (λ v,
    Model.update_component "gas_turbine_maxload_heat"
      (set_conversion_factor v)) model;
  (* hrsg *)
  model ← if_present "hrsg_efficiency" params (λ v,
    Model.update_component "hrsg" (set_conversion_factor v)) model;
  (* gas boiler *)
  model ← if_present "gas_boiler_efficiency" params (λ v,
    Model.update_component "gas_boiler" (set_conversion_factor v)) model;
  model ← if_present "gas_boiler_capacity" params (λ v,
    Model.update_component "gas_boiler"
      (set_bounds "output" (Some (VInt 0)) (Some v))) model;
  (* e-boiler *)
  model ← if_present "e_boiler_efficiency" params (λ v,
    Model.update_component "e_boiler" (set_conversion_factor v)) model;
  if_present "e_boiler_capacity" params (λ v,
    Model.update_component "e_boiler"
      (set_bounds "output" (Some (VInt 0)) (Some v))) model.
End Callbacks.

End ModelPy.

(* ------------------------------------------------------------------ *)
(** ** [core/model_bis.py] *)

Module ModelBis.

Definition components : list component_decl := [
  Conversion "gas_boiler" float_1_0;
  CHP "chp";
  Conversion "e_boiler" float_1_0;
  Market "Electricity offtake" (Some 0) (Some 10000) true;
  Market "Electricity injection" (Some 0) None true;
  Market "Gas offtake" (Some 0) None true;
  Demand "heat_demand";
  Demand "electricity_demand";
  Summation "heat_supply" 3;
  Summation "electricity_consumption" 2;
  Splitter "gas_consumption" 2;
  Splitter "electricity_supply" 3;
  Market "CO2 allowance" (Some 0) None true;
  Conversion "CO2_emission" (decimal 1824 10000);
  Market "start_up_cost" None None false;
  Market "penalty_for_gas_to_turbine" None None false;
  Market "penalty_turbine_no_shutdown" None None false;
  PeakMarket "captar" (Some 0)
].

Definition connections : list (port * port) := [
  (("Gas offtake", "quantities"), ("CO2_emission", "input"));
  (("CO2_emission", "output"), ("CO2 allowance", "quantities"));
  (("Gas offtake", "quantities"), ("gas_consumption", "input"));
  (("gas_consumption", "output0"), ("gas_boiler", "input"));
  (("gas_consumption", "output1"), ("chp", "gas_in"));
  (("chp", "thermal_output"), ("heat_supply", "input0"));
  (("gas_boiler", "output"), ("heat_supply", "input1"));
  (("e_boiler", "output"), ("heat_supply", "input2"));
  (("heat_supply", "output"), ("heat_demand", "supply"));
  (("chp", "electricity_output"), ("electricity_consumption", "input0"));
  (("Electricity offtake", "quantities"), ("electricity_consumption", "input1"));
  (("electricity_consumption", "output"), ("electricity_supply", "input"));
  (("electricity_supply", "output0"), ("electricity_demand", "supply"));
  (("electricity_supply", "output1"), ("e_boiler", "input"));
  (("electricity_supply", "output2"), ("Electricity injection", "quantities"));
  (("chp", "is_starting_up"), ("start_up_cost", "quantities"));
  (("chp", "gas_to_turbine"), ("penalty_for_gas_to_turbine", "quantities"));
  (("chp", "is_on"), ("penalty_turbine_no_shutdown", "quantities"));
  (("Electricity offtake", "quantities"), ("captar", "quantities"))
].

Definition m : result (Model.t component_decl) :=
  Model.assemble components connections.

(** The literal [0.0001]. *)
Definition float_0_0001 : spec_float := Eval vm_compute in decimal 1 10000.

Section Callbacks.
Context `{ComponentLibrary}.

Definition set_data (model : Model.t Component) (df : gmap string Series)
  : result (Model.t Component) :=
  model ← if_present "electricity_offtake_price" df (λ col,
    Model.update_component "Electricity offtake"
      (var_set_values "prices" (to_list col))) model;
  model ← if_present "electricity_injection_price" df (λ col,
    Model.update_component "Electricity injection"
      (var_set_values "prices" (to_list col))) model;
  model ← if_present "gas_price" df (λ col model,
    model ← Model.update_component "Gas offtake"
      (var_set_values "prices" (to_list col)) model;
    Model.update_component "start_up_cost" (λ c,
      scaled ← series_mul col float_0_0001;
      var_set_values "prices" (to_list scaled) c) model) model;
  model ← if_present "co2_price" df (λ col,
    Model.update_component "CO2 allowance"
      (var_set_values "prices" (to_list col))) model;
  model ← if_present "heat_demand" df (λ col,
    Model.update_component "heat_demand"
      (var_set_values "demand" (to_list col))) model;
  model ← if_present "electricity_demand" df (λ col,
    Model.update_component "electricity_demand"
      (var_set_values "demand" (to_list col))) model;
  (* chp *)
  model ← if_present "gas_turbine_minload_electricity_capacity" df
    (λ minload model,
      model ← Model.update_component "chp"
        (set_values "min_electricity_output" (to_list minload)) model;
      if_present "gas_turbine_maxload_electricity_capacity" df (λ maxload,
        Model.update_component "chp" (λ c,
          total ← series_add minload maxload;
          set_values "max_electricity_output" (to_list total) c)) model)
    model;
  model ← if_present "pc_max_gas" df (λ col,
    Model.update_component "chp"
      (set_bounds "gas_to_aux_firing" None (Some (to_list col)))) model;
  (* temperature dependent efficiencies *)
  model ← if_present "gas_turbine_minload_electricity_efficiency" df (λ col,
    Model.update_component "chp"
      (set_values "min_electrical_efficiency" (to_list col))) model;
  if_present "gas_turbine_maxload_electricity_efficiency" df (λ col,
    Model.update_component "chp"
      (set_values "max_electrical_efficiency" (to_list col))) model.

Definition set_parameters (model : Model.t Component)
    (params : gmap string pyval) : result (Model.t Component) :=
  model ← if_present "gas_turbine_minload_heat_efficiency" params (λ v,
    Model.update_component "chp" (set_values "thermal_efficiency" v)) model;
  model ← if_present "hrsg_efficiency" params (λ v,
    Model.update_component "chp" (set_values "aux_firing_efficiency" v)) model;
  (* gas boiler *)
  model ← if_present "gas_boiler_efficiency" params (λ v,
    Model.update_component "gas_boiler" (set_conversion_factor v)) model;
  model ← if_present "gas_boiler_capacity" params (λ v,
    Model.update_component "gas_boiler"
      (set_bounds "output" (Some (VInt 0)) (Some v))) model;
  (* e-boiler *)
  model ← if_present "e_boiler_efficiency" params (λ v,
    Model.update_component "e_boiler" (set_conversion_factor v)) model;
  model ← if_present "e_boiler_capacity" params (λ v,
    Model.update_component "e_boiler"
      (set_bounds "output" (Some (VInt 0)) (Some v))) model;
  model ← if_present "penalty_for_gas_to_turbine" params (λ v,
    Model.update_component "penalty_for_gas_to_turbine"
      (set_values "prices" v)) model;
  model ← if_present "penalty_turbine_no_shutdown" params (λ v,
    Model.update_component "penalty_turbine_no_shutdown"
      (set_values "prices" v)) model;
  if_present "elec_grid_cost_power_peak" params (λ v,
    Model.update_component "captar" (set_values "prices" v)) model.
End Callbacks.

End ModelBis.

(* ------------------------------------------------------------------ *)
(** ** Python arithmetic on numbers, as [*] and [round] use it *)

(** [float(z)] for an integer: the nearest double, ties to even; an
    integer beyond the range of a double is an [OverflowError]. *)
Definition int_to_float (z : Z) : result spec_float :=
  match Z2F z with
  | S754_infinity _ => raise OverflowError "int too large to convert to float"
  | f => Ok f
  end.

Fixpoint repeat_string (n : nat) (s : string) : string :=
  match n with
  | O => ""
  | S n => s ++ repeat_string n s
  end.

(** [a * b].  [bool] is a subclass of [int]; a sequence times an
    integer is repeated; an [int] meets a [float] as a [float]. *)
Definition py_mul (a b : pyval) : result pyval :=
  let as_int v := match v with
                  | VInt z => Some z
                  | VBool b => Some (Z.b2z b)
                  | _ => None
                  end in
  match a, b with
  | VFloat x, VFloat y => Ok (VFloat (SFmul prec emax x y))
  | VFloat x, (VInt _ | VBool _) =>
      y ← int_to_float (default 0 (as_int b)); Ok (VFloat (SFmul prec emax x y))
  | (VInt _ | VBool _), VFloat y =>
      x ← int_to_float (default 0 (as_int a)); Ok (VFloat (SFmul prec emax x y))
  | (VInt _ | VBool _), (VInt _ | VBool _) =>
      Ok (VInt (default 0 (as_int a) * default 0 (as_int b)))
  | VStr s, (VInt _ | VBool _) =>
      Ok (VStr (repeat_string (Z.to_nat (default 0 (as_int b))) s))
  | (VInt _ | VBool _), VStr s =>
      Ok (VStr (repeat_string (Z.to_nat (default 0 (as_int a))) s))
  | VList l, (VInt _ | VBool _) =>
      Ok (VList (mjoin (replicate (Z.to_nat (default 0 (as_int b))) l)))
  | (VInt _ | VBool _), VList l =>
      Ok (VList (mjoin (replicate (Z.to_nat (default 0 (as_int a))) l)))
  | _, _ => raise TypeError "unsupported operand type(s) for *"
  end.

(** The integer nearest to [(-1)^s * m * 2^e], ties to the even one. *)
Definition round_half_even (s : bool) (m : positive) (e : Z) : Z :=
  let magnitude :=
    if 0 <=? e then Z.pos m * 2 ^ e
    else
      let d := 2 ^ (- e) in
      let q := Z.pos m / d in
      let r := Z.pos m mod d in
      if 2 * r <? d then q
      else if d <? 2 * r then q + 1
      else if Z.even q then q else q + 1 in
  if s then - magnitude else magnitude.

(** [round(x)] with one argument returns an [int]. *)
Definition py_round (x : pyval) : result Z :=
  match x with
  | VInt z => Ok z
  | VBool b => Ok (Z.b2z b)
  | VFloat (S754_zero _) => Ok 0
  | VFloat (S754_finite s m e) => Ok (round_half_even s m e)
  | VFloat (S754_infinity _) =>
      raise OverflowError "cannot convert float infinity to integer"
  | VFloat S754_nan => raise ValueError "cannot convert float NaN to integer"
  | _ => raise TypeError "type doesn't define __round__ method"
  end.

(* ------------------------------------------------------------------ *)
(** ** [analysis/analyse_results.py]: [get_toegangsvermogen_cost] *)

Module AnalyseResults.

(** A sheet as [pd.read_excel] returns it: the column labels and the
    rows, each row giving the cell under a label.  A cell is a scalar:
    text, a number, or empty ([NaN]). *)
Record frame := mk_frame {
  columns : list string;
  rows : list (gmap string pyval);
}.

(** [pd.isna(x)] on a scalar *)
Definition isna (x : pyval) : bool :=
  match x with
  | VNone => true
  | VFloat S754_nan => true
  | _ => false
  end.

(** [cell == scenario_name], as the comparison of a column with a
    string evaluates it cell by cell. *)
Definition cell_is (scenario_name : string) (cell : option pyval) : bool :=
  match cell with
  | Some (VStr s) => String.eqb s scenario_name
  | _ => false
  end.

(** [series.get(key, default)] *)
Definition get (row : gmap string pyval) (key : string) (default : pyval)
  : pyval :=
  match row !! key with
  | Some v => v
  | None => default
  end.

(** The body of the [try]. *)
Definition cost_of_sheet (sheet : result frame) (scenario_name : string)
  : result Z :=
  df ← sheet;                        (* pd.read_excel(...) *)
  if negb (bool_decide ("Name" ∈ columns df)) then raise KeyError "Name"
  else
    let row := filter (λ r, cell_is scenario_name (r !! "Name") = true) (rows df) in
    match row with
    | [] => Ok 0                     (* row.empty *)
    | first :: _ =>
        let elec_grid_cost_power_fixed :=
          get first "elec_grid_cost_power_fixed" (VInt 0) in
        let e_boiler_capacity := get first "e_boiler_capacity" (VInt 0) in
        if isna elec_grid_cost_power_fixed || isna e_boiler_capacity then Ok 0
        else
          x ← py_mul elec_grid_cost_power_fixed e_boiler_capacity;
          x ← py_mul x (VInt 1000);
          x ← py_mul x (VInt 12);
          py_round x
    end.

(** [get_toegangsvermogen_cost].  [sheet] is what is at
    [simulation/Scenarios.xlsx]: nothing, or what reading its
    [Sheet1] gives. *)
Definition get_toegangsvermogen_cost (sheet : option (result frame))
    (scenario_name : string) : result Z :=
  match sheet with
  | None => Ok 0                     (* not scenarios_file.exists() *)
  | Some sheet =>
      match cost_of_sheet sheet scenario_name with
      | Ok cost => Ok cost
      | Raise e => if is_Exception e then Ok 0 else Raise e
      end
  end.

End AnalyseResults.

(* ------------------------------------------------------------------ *)
(** ** Auxiliary definitions for the proofs *)

(** The tail of [Scenario.from_dict], once the enums are converted. *)
Definition construct `{Enums} (now : string) (data opts md : gmap string pyval)
  : result Scenario.t :=
  kw ← merge_kwargs (Scenario.fill_defaults data) opts;
  kw ← merge_kwargs kw md;
  Scenario.init now kw.

(** A scenario with field [k] at its documented default. *)
Definition set_default (S : Scenario.t) (k : string) : Scenario.t :=
  Scenario.setattr k (Scenario.default_value k) S.

(** An association list with the value under [k] replaced. *)
Definition set_assoc (k : string) (v : pyval) (l : list (string * pyval))
  : list (string * pyval) :=
  map (λ kv, if bool_decide (kv.1 = k) then (k, v) else kv) l.

(* ------------------------------------------------------------------ *)
(** ** Concrete inputs *)

(** Modelled from the spec: an enum environment with just the three
    members the source names, each valued by its lower-case name. *)
Definition known_enums : Enums := {|
  is_member c s :=
    match c with
    | BuilderType => String.eqb s "pyomo"
    | SolverType => String.eqb s "cbc"
    | DispatchType => String.eqb s "monthly"
    end;
  PYOMO := "pyomo";
  CBC := "cbc";
  MONTHLY := "monthly";
  PYOMO_is_member := eq_refl;
  CBC_is_member := eq_refl;
  MONTHLY_is_member := eq_refl;
|}.

(** The keyword arguments of the [base_case] scenario that
    [scenarios.py] builds when run as a script. *)
Definition base_case_kwargs : gmap string pyval :=
  list_to_map [
    ("name", VStr "base_case");
    ("description", VStr "Base case scenario with current equipment parameters");
    ("price_starttime", VStr "2025-01-01");
    ("demand_starttime", VStr "2022-01-01");
    ("length", VInt (24 * 30));
    ("gas_turbine_minload_electricity_capacity",
       VFloat (SFdiv prec emax (decimal 655 100) (Z2F 2)));
    ("gas_turbine_maxload_electricity_capacity",
       VFloat (SFdiv prec emax (decimal 655 100) (Z2F 2)));
    ("gas_turbine_minload_electricity_efficiency", VFloat (decimal 31 100));
    ("gas_turbine_maxload_electricity_efficiency", VFloat (decimal 31 100));
    ("gas_turbine_minload_heat_efficiency", VFloat (decimal 46 100));
    ("gas_turbine_maxload_heat_efficiency", VFloat (decimal 46 100));
    ("gas_boiler_efficiency", VFloat (decimal 85 100));
    ("gas_boiler_capacity", VInt 26);
    ("e_boiler_efficiency", VFloat float_1_0);
    ("e_boiler_capacity", VInt 10);
    ("hrsg_efficiency", VFloat float_1_0);
    ("hrsg_capacity", VInt 10);
    ("elec_offtake_contract_param_a", VFloat float_0_0);
    ("elec_offtake_contract_param_b", VFloat float_0_0);
    ("elec_injection_contract_param_a", VInt 0);
    ("elec_injection_contract_param_b", VFloat float_0_0);
    ("elec_grid_cost_energy", VFloat float_0_0);
    ("elec_grid_cost_power_peak", VFloat float_0_0);
    ("elec_grid_cost_power_fixed", VFloat float_0_0);
    ("elec_grid_cost_max_tariff", VFloat float_0_0);
    ("elec_offtake_tax_energy", VFloat float_0_0);
    ("gas_offtake_contract_param_a", VInt 0);
    ("gas_offtake_contract_param_b", VFloat float_0_0);
    ("gas_grid_cost_energy", VInt 0)
  ].

(** [Scenario(name="base_case", ...)], created at the given time. *)
Definition base_case : Scenario.t :=
  Eval vm_compute in
    match Scenario.init (H:=known_enums) "2025-06-01 12:00:00" base_case_kwargs with
    | Ok s => s
    | Raise _ => Scenario.of_attrs ∅
    end.

(** [base_case.to_dict()] *)
Definition base_case_dict : gmap string pyval :=
  match Scenario.to_dict base_case with
  | Ok d => d
  | Raise _ => ∅
  end.

(** The three contract slopes, whose default is [1.0]. *)
Definition param_a_keys : list string :=
  ["elec_offtake_contract_param_a"; "elec_injection_contract_param_a";
   "gas_offtake_contract_param_a"].

(* ------------------------------------------------------------------ *)
(** ** Reading a batch run *)

Section Trace.
Context {World : Type}.
Variable run_scenario : string → World → World * list string * result unit.

(** The calls the loop makes when none is interrupted: for each name
    in turn, what the call printed and how it ended, each call starting
    in the world the previous one left. *)
Fixpoint runs (names : list string) (w : World)
  : list (string * list string * result unit) :=
  match names with
  | [] => []
  | name :: rest =>
      let '(w', printed, r) := run_scenario name w in
      (name, printed, r) :: runs rest w'
  end.

(** The world after those calls. *)
Fixpoint world_after (names : list string) (w : World) : World :=
  match names with
  | [] => w
  | name :: rest => world_after rest (run_scenario name w).1.1
  end.
End Trace.

(** What the loop prints for one call. *)
Definition report (call : string * list string * result unit)
  : list RunScenarios.line :=
  let '(name, printed, r) := call in
  (RunScenarios.RunningScenario name :: map RunScenarios.FromRun printed)
  ++ match r with
     | Ok _ => [RunScenarios.Completed name]
     | Raise e => [RunScenarios.FailedWith name (exn_msg e); RunScenarios.Continuing]
     end.

(** The entry of [failed_scenarios] a call leaves, if it raised. *)
Definition failure (call : string * list string * result unit)
  : option (string * string) :=
  match call.2 with
  | Ok _ => None
  | Raise e => Some (call.1.1, exn_msg e)
  end.

(** The success or failure line of a scenario, read off the output. *)
Definition verdict (l : RunScenarios.line) : option (string * bool) :=
  match l with
  | RunScenarios.Completed name => Some (name, true)
  | RunScenarios.FailedWith name _ => Some (name, false)
  | _ => None
  end.

(** The counts of the summary line, read off the output. *)
Definition summary (l : RunScenarios.line) : option (Z * Z) :=
  match l with
  | RunScenarios.SuccessfullyCompleted count total => Some (count, total)
  | _ => None
  end.

(** A store with two scenarios, and a [run_scenario] that fails on the
    one called ["bad"]; the world is just the disk. *)
Definition example_disk : gmap string pyval :=
  {[ ScenarioManager.default_file :=
       VDict (list_to_map [("base_case", VDict base_case_dict);
                           ("bad", VDict base_case_dict)]) ]}.

Definition example_run_scenario (name : string) (w : gmap string pyval)
  : gmap string pyval * list string * result unit :=
  (w, ["Running scenario: " ++ name],
   if String.eqb name "bad" then Raise (Exn ValueError "invalid date range")
   else Ok tt).

(** The manager that [ScenarioManager()] builds over [example_disk]. *)
Definition example_manager : ScenarioManager.t :=
  match ScenarioManager.init (H:=known_enums) "2025-06-02 08:00:00"
          example_disk ScenarioManager.default_file with
  | Ok manager => manager
  | Raise _ => ScenarioManager.mk ScenarioManager.default_file ∅
  end.

(** What [save_scenarios] leaves on disk: under the manager's path, a
    document with exactly the names of the collection, each holding
    the [to_dict] of its scenario; every other file as it was. *)
Definition holds_collection (fs : gmap string pyval) (self : ScenarioManager.t)
  : Prop :=
  ∃ docs, fs !! ScenarioManager.scenarios_file self = Some (VDict docs) ∧
    ∀ name, match ScenarioManager.scenarios self !! name with
            | Some scenario =>
                ∃ d, Scenario.to_dict scenario = Ok d ∧
                     docs !! name = Some (VDict d)
            | None => docs !! name = None
            end.


(** A manager that holds just the base case. *)
Definition single_manager : ScenarioManager.t :=
  ScenarioManager.mk ScenarioManager.default_file {[ "base_case" := base_case ]}.

(** A machine on which every path opens and every document is
    dumped. *)
Definition writable : Files := {|
  open_for_writing := λ _, Ok tt;
  json_dump := λ _, Ok tt;
|}.

(** A machine without the directory [nodir]: a path under it cannot
    be opened for writing. *)
Definition no_directory : Files := {|
  open_for_writing := λ path,
    if String.prefix "nodir/" path then
      raise FileNotFoundError "No such file or directory"
    else Ok tt;
  json_dump := λ _, Ok tt;
|}.

(** The base case with another description, under the same name. *)
Definition revised_case : Scenario.t :=
  Scenario.setattr "description" (VStr "Base case, revised") base_case.

(** Both endpoints of an edge belong to components of the model. *)
Definition endpoints_registered {C} (m : Model.t C) (e : port * port) : Prop :=
  has_key e.1.1 (Model.components m) = true ∧
  has_key e.2.1 (Model.components m) = true.

(** A model with three conversions and no connection yet. *)
Definition three_conversions : Model.t component_decl :=
  match Model.assemble [Conversion "gas_boiler" float_1_0;
                        Conversion "e_boiler" float_1_0;
                        Conversion "hrsg" float_1_0] [] with
  | Ok m => m
  | Raise _ => Model.new
  end.

(** [round(a * b * 1000 * 12)], the last line of the [try]. *)
Definition rounded_product (a b : pyval) : result Z :=
  x ← py_mul a b;
  x ← py_mul x (VInt 1000);
  x ← py_mul x (VInt 12);
  py_round x.

(** The rows of the sheet whose [Name] is the scenario's. *)
Definition matching_rows (df : AnalyseResults.frame) (scenario_name : string)
  : list (gmap string pyval) :=
  filter (λ r, AnalyseResults.cell_is scenario_name (r !! "Name") = true)
         (AnalyseResults.rows df).

(** A sheet with one scenario, of fixed grid cost [2.0] and an
    e-boiler of [5]. *)
Definition example_sheet : AnalyseResults.frame :=
  AnalyseResults.mk_frame
    ["Name"; "description"; "e_boiler_capacity"; "elec_grid_cost_power_fixed"]
    [ list_to_map [("Name", VStr "Flex_1.1");
                   ("description", VStr "CHP always on");
                   ("e_boiler_capacity", VInt 5);
                   ("elec_grid_cost_power_fixed", VFloat (Z2F 2))] ].

(* ------------------------------------------------------------------ *)
(** ** What the binding callbacks read and write *)

(** The model without the component registered as [c]. *)
Definition without {C} (c : string) (m : Model.t C) : Model.t C :=
  Model.mk (delete c (Model.components m)) (Model.connections m).

(** [f] leaves what [obs] observes of a model as it is. *)
Definition keeps {M X} (obs : M → X) (f : M → result M) : Prop :=
  ∀ m m', f m = Ok m' → obs m' = obs m.

(** [f] does the same with and without what [W] takes away. *)
Definition commutes {M} (W : M → M) (f : M → result M) : Prop :=
  ∀ m, f (W m) = W <$> f m.

(** [f] returns the model it is given. *)
Definition idle {M} (f : M → result M) : Prop := ∀ m, f m = Ok m.

(** A callback skips the bindings whose key is absent: given the pairs
    (key, component) of its [if key in table] blocks, it returns the
    model as it is when no key is present, and a component none of
    whose keys is present is neither looked up nor changed. *)
Definition skips_absent `{ComponentLibrary} {A}
    (callback : Model.t Component → gmap string A → result (Model.t Component))
    (bindings : list (string * string)) : Prop :=
  ∀ model table,
    ((∀ k, k ∈ bindings.*1 → table !! k = None) →
     callback model table = Ok model) ∧
    (∀ c, (∀ k, (k, c) ∈ bindings → table !! k = None) →
       callback (without c model) table = without c <$> callback model table ∧
       ∀ m', callback model table = Ok m' →
             Model.components m' !! c = Model.components model !! c).

(** Given the triples (key, component, port) of the blocks that set
    the values of a port: when the key is absent, the values of the
    port are after the call what they were before. *)
Definition keeps_unbound_values `{ComponentLibrary} {A}
    (callback : Model.t Component → gmap string A → result (Model.t Component))
    (bindings : list (string * string * string)) : Prop :=
  ∀ model table k c p m',
    (k, c, p) ∈ bindings → table !! k = None →
    callback model table = Ok m' →
    values_at m' c p = values_at model c p.








(** *** What a callback needs when a key is present *)

(** The component has the port. *)
Definition has_port `{ComponentLibrary} (c : Component) (p : string) : bool :=
  match port_values c p with Some _ => true | None => false end.

(** The component has the port a method call addresses, if it
    addresses one ([set_conversion_factor] and [set_max_charge] do
    not). *)
Definition port_ok `{ComponentLibrary} (port : option string) (c : Component)
  : bool :=
  match port with Some p => has_port c p | None => true end.

(** A method call that returns on a component that has the port it
    addresses, and leaves the component with the ports it had. *)
Definition dependable_method `{ComponentLibrary} (port : option string)
    (method : Component → result Component) : Prop :=
  ∀ c, port_ok port c = true →
       ∃ c', method c = Ok c' ∧ ∀ q, has_port c' q = has_port c q.

(** A library whose methods fail only for a port the component does
    not have, and whose columns can be scaled and added. *)
Definition dependable `{ComponentLibrary} : Prop :=
  (∀ p v, dependable_method (Some p) (var_set_values p v)) ∧
  (∀ p v, dependable_method (Some p) (set_values p v)) ∧
  (∀ p lbound ubound, dependable_method (Some p) (set_bounds p lbound ubound)) ∧
  (∀ v, dependable_method None (set_conversion_factor v)) ∧
  (∀ v, dependable_method None (set_max_charge v)) ∧
  (∀ s x, ∃ s', series_mul s x = Ok s') ∧
  (∀ a b, ∃ s, series_add a b = Ok s).

(** Given the triples (key, component, port) of the method calls of a
    callback: for every key that is present, the component is
    registered and has the port. *)
Definition ready `{ComponentLibrary} {A}
    (requirements : list (string * string * option string))
    (table : gmap string A) (model : Model.t Component) : bool :=
  forallb (λ r,
    if has_key r.1.1 table then
      match Model.components model !! r.1.2 with
      | Some c => port_ok r.2 c
      | None => false
      end
    else true) requirements.

(** [f] returns on every model that satisfies [I], with a model that
    satisfies it. *)
Definition succeeds {M} (I : M → Prop) (f : M → result M) : Prop :=
  ∀ m, I m → ∃ m', f m = Ok m' ∧ I m'.

(** With a dependable library, a callback returns on every model that
    is ready for the keys that are present; nothing is asked of the
    model for a key that is absent. *)
Definition binds_present `{ComponentLibrary} {A}
    (callback : Model.t Component → gmap string A → result (Model.t Component))
    (requirements : list (string * string * option string)) : Prop :=
  dependable → ∀ model table,
    ready requirements table model = true →
    ∃ m', callback model table = Ok m' ∧ ready requirements table m' = true.





(* ------------------------------------------------------------------ *)
(** ** A small component library

    Modelled from the spec: the component classes are outside the
    repository.  By the spec a component has a name, named ports with
    values and optional bounds, and tunables such as a conversion
    factor; [set_values] and [set_bounds] fail with an
    [UnknownPortError] on a port the component does not have, and
    change nothing else.  A column is the list of its numbers. *)
Record simple_component := SimpleComponent {
  sc_name : string;
  sc_values : gmap string pyval;
  sc_bounds : gmap string (option pyval * option pyval);
  sc_factor : option pyval;
  sc_max_charge : option pyval;
}.

Definition simple_set_values (missing : exn_class) (p : string) (v : pyval)
    (c : simple_component) : result simple_component :=
  if has_key p (sc_values c) then
    Ok (SimpleComponent (sc_name c) (<[p:=v]> (sc_values c)) (sc_bounds c)
          (sc_factor c) (sc_max_charge c))
  else raise missing p.

Definition simple_set_bounds (p : string) (lbound ubound : option pyval)
    (c : simple_component) : result simple_component :=
  if has_key p (sc_values c) then
    Ok (SimpleComponent (sc_name c) (sc_values c)
          (<[p:=(lbound, ubound)]> (sc_bounds c)) (sc_factor c) (sc_max_charge c))
  else raise UnknownPortError p.

Definition simple_library : ComponentLibrary.
Proof.
  refine {|
    Component := simple_component;
    component_name := sc_name;
    Series := list spec_float;
    to_list := λ s, VList (VFloat <$> s);
    series_mul := λ s x, Ok ((λ y, SFmul prec emax y x) <$> s);
    series_add := λ a b, Ok (zip_with (SFadd prec emax) a b);
    port_values := λ c p, sc_values c !! p;
    var_set_values := simple_set_values KeyError;
    set_values := simple_set_values UnknownPortError;
    set_bounds := simple_set_bounds;
    set_conversion_factor := λ v c,
      Ok (SimpleComponent (sc_name c) (sc_values c) (sc_bounds c) (Some v)
            (sc_max_charge c));
    set_max_charge := λ v c,
      Ok (SimpleComponent (sc_name c) (sc_values c) (sc_bounds c) (sc_factor c)
            (Some v));
  |}.
  - intros p v c c' q. unfold simple_set_values.
    destruct (has_key p (sc_values c)); [|discriminate].
    intros [= <-] Hq. apply lookup_insert_ne. congruence.
  - intros p v c c' q. unfold simple_set_values.
    destruct (has_key p (sc_values c)); [|discriminate].
    intros [= <-] Hq. apply lookup_insert_ne. congruence.
  - intros p lb ub c c' q. unfold simple_set_bounds.
    destruct (has_key p (sc_values c)); [|discriminate].
    by intros [= <-] Hq.
Defined.

(** The ports of each kind of component, by the spec's list, with the
    names the model files use. *)
Definition simple_ports (d : component_decl) : list string :=
  match d with
  | Conversion _ _ => ["input"; "output"]
  | Market _ _ _ _ => ["quantities"; "prices"]
  | PeakMarket _ _ => ["quantities"; "prices"; "base quantities"]
  | Demand _ => ["supply"; "demand"]
  | Summation _ n =>
      ((λ i : nat, String.app "input" (pretty i)) <$> seq 0 n) ++ ["output"]
  | Splitter _ n =>
      "input" :: ((λ i : nat, String.app "output" (pretty i)) <$> seq 0 n)
  | Storage _ _ => ["charge"; "discharge"]
  | CHP _ =>
      ["gas_in"; "thermal_output"; "electricity_output"; "is_starting_up";
       "gas_to_turbine"; "is_on"; "gas_to_aux_firing";
       "min_electricity_output"; "max_electricity_output";
       "min_electrical_efficiency"; "max_electrical_efficiency";
       "thermal_efficiency"; "aux_firing_efficiency"]
  end.

(** A declared component, before any value is bound to its ports. *)
Definition simple_instance (d : component_decl) : simple_component :=
  SimpleComponent (name_of d)
    (list_to_map ((λ p, (p, VList [])) <$> simple_ports d)) ∅
    (match d with Conversion _ f => Some (VFloat f) | _ => None end) None.

(** The model of [model_bis.py], as the callbacks receive it. *)
Definition example_model : Model.t simple_component :=
  match ModelBis.m with
  | Ok m => Model.mk (simple_instance <$> Model.components m) (Model.connections m)
  | Raise _ => Model.new
  end.

(** Two quarters of an hour of prices, and no demand. *)
Definition example_frame : gmap string (list spec_float) :=
  list_to_map [("gas_price", [Z2F 30; Z2F 32]);
               ("electricity_offtake_price", [Z2F 90; Z2F 80])].

(** [example_model] after [set_data] has bound [example_frame]. *)
Definition example_bound : Model.t simple_component :=
  Eval vm_compute in
  match ModelBis.set_data (H:=simple_library) example_model example_frame with
  | Ok m => m
  | Raise _ => example_model
  end.

(** A stored document of the old shape: the base case with its two
    boiler capacities nested under ["equipment_params"]. *)
Definition old_document : gmap string pyval :=
  <["equipment_params" :=
      VDict (list_to_map [("gas_boiler_capacity", VInt 26);
                          ("e_boiler_capacity", VInt 10)])]>
    (delete "gas_boiler_capacity" (delete "e_boiler_capacity" base_case_dict)).

(** The fields [from_dict] has no default for. *)
Definition fields_without_default : list string :=
  filter (λ k, k ∉ Scenario.default_keys) Scenario.required_fields.

(** A store with a record that has lost its dispatch options. *)
Definition damaged_disk : gmap string pyval :=
  {[ ScenarioManager.default_file :=
       VDict (list_to_map
         [("base_case", VDict base_case_dict);
          ("damaged", VDict (delete "dispatch_options" base_case_dict))]) ]}.

(** A run that is interrupted from the keyboard in the scenario
    ["base_case"]. *)
Definition interrupted_run_scenario (name : string) (w : gmap string pyval)
  : gmap string pyval * list string * result unit :=
  (w, ["Running scenario: " ++ name],
   if String.eqb name "base_case" then Raise (Exn KeyboardInterrupt "")
   else Ok tt).

(* ------------------------------------------------------------------ *)
(** ** [core/model_biogas.py] *)

Module ModelBiogas.

Definition components : list component_decl := [
  CHP "chp1";
  CHP "chp2";
  Splitter "splitter1" 3;
  Splitter "splitter2" 2;
  Splitter "splitter3" 2;
  Summation "s1" 2;
  Summation "s2" 2;
  Summation "s3" 2;
  Storage "balloon" true;
  Demand "heat_demand";
  Demand "electricity_demand";
  Market "Electricity offtake" (Some 0) (Some 10000) true;
  Market "Electricity injection" (Some 0) None true
].

(** The [m.connect(source, destination)] calls, in order; the flare,
    from [splitter1]'s third output, is commented out in the source. *)
Definition connections : list (port * port) := [
  (("balloon", "discharge"), ("splitter1", "input"));
  (("splitter1", "output0"), ("chp1", "gas_in"));
  (("splitter1", "output1"), ("chp2", "gas_in"));
  (("chp1", "electricity_output"), ("s1", "input0"));
  (("chp2", "electricity_output"), ("s1", "input1"));
  (("s1", "output"), ("splitter2", "input"));
  (("splitter2", "output0"), ("s2", "input0"));
  (("splitter2", "output1"), ("Electricity injection", "quantities"));
  (("Electricity offtake", "quantities"), ("s2", "input1"));
  (("s2", "output"), ("electricity_demand", "supply"));
  (("chp1", "thermal_output"), ("s3", "input0"));
  (("chp2", "thermal_output"), ("s3", "input1"));
  (("s3", "output"), ("splitter3", "input"));
  (("splitter3", "output0"), ("heat_demand", "supply"))
].

(** The module-level [m]. *)
Definition m : result (Model.t component_decl) :=
  Model.assemble components connections.

Section Callbacks.
Context `{ComponentLibrary}.

Definition set_data (model : Model.t Component) (df : gmap string Series)
  : result (Model.t Component) :=
  model ← if_present "electricity_offtake_price" df (λ col,
    Model.update_component "Electricity offtake"
      (var_set_values "prices" (to_list col))) model;
  model ← if_present "electricity_injection_price" df (λ col,
    Model.update_component "Electricity injection"
      (var_set_values "prices" (to_list col))) model;
  model ← if_present "heat_demand" df (λ col,
    Model.update_component "heat_demand"
      (var_set_values "demand" (to_list col))) model;
  model ← if_present "electricity_demand" df (λ col,
    Model.update_component "electricity_demand"
      (var_set_values "demand" (to_list col))) model;
  model ← if_present "charging_rate" df (λ col,
    Model.update_component "balloon"
      (var_set_values "charge" (to_list col))) model;
  (* chps *)
  model ← if_present "gas_turbine_minload_electricity_capacity" df (λ col,
    Model.update_component "chp1"
      (set_values "min_electricity_output" (to_list col))) model;
  model ← if_present "gas_turbine_maxload_electricity_capacity" df (λ col,
    Model.update_component "chp1"
      (set_values "max_electricity_output" (to_list col))) model;
  model ← if_present "pc_max_gas" df (λ col,
    Model.update_component "chp1"
      (set_bounds "gas_to_aux_firing" None (Some (to_list col)))) model;
  model ← if_present "gas_turbine_minload_electricity_capacity" df (λ col,
    Model.update_component "chp2"
      (set_values "min_electricity_output" (to_list col))) model;
  model ← if_present "gas_turbine_maxload_electricity_capacity" df (λ col,
    Model.update_component "chp2"
      (set_values "max_electricity_output" (to_list col))) model;
  if_present "pc_max_gas" df (λ col,
    Model.update_component "chp2"
      (set_bounds "gas_to_aux_firing" None (Some (to_list col)))) model.

(** [set_parameters].  The two efficiency blocks of each CHP test one
    key and read another: the component is looked up, then
    [params[...]] is evaluated, then the method is called. *)
Definition set_parameters (model : Model.t Component)
    (params : gmap string pyval) : result (Model.t Component) :=
  model ← if_present "gas_turbine_heat_efficiency" params (λ _,
    Model.update_component "chp1" (λ c,
      v ← item params "gas_turbine_minload_heat_efficiency";
      set_values "thermal_efficiency" v c)) model;
  model ← if_present "gas_turbine_electricity_efficiency" params (λ _,
    Model.update_component "chp1" (λ c,
      v ← item params "gas_turbine_minload_electricity_efficiency";
      set_values "electricity_efficiency" v c)) model;
  model ← if_present "hrsg_efficiency" params (λ v,
    Model.update_component "chp1" (set_values "aux_firing_efficiency" v)) model;
  model ← if_present "gas_turbine_heat_efficiency" params (λ _,
    Model.update_component "chp2" (λ c,
      v ← item params "gas_turbine_minload_heat_efficiency";
      set_values "thermal_efficiency" v c)) model;
  model ← if_present "gas_turbine_electricity_efficiency" params (λ _,
    Model.update_component "chp2" (λ c,
      v ← item params "gas_turbine_minload_electricity_efficiency";
      set_values "electricity_efficiency" v c)) model;
  model ← if_present "hrsg_efficiency" params (λ v,
    Model.update_component "chp2" (set_values "aux_firing_efficiency" v)) model;
  if_present "maximum capacity of balloon" params (λ v,
    Model.update_component "balloon" (set_max_charge v)) model.
End Callbacks.

End ModelBiogas.

(** The blocks of [model_biogas.py]'s [set_data]: key and component,
    then key, component and the port whose values the block sets,
    then what each method call needs. *)
Definition ModelBiogas_data_bindings : list (string * string) := [
  ("electricity_offtake_price", "Electricity offtake");
  ("electricity_injection_price", "Electricity injection");
  ("heat_demand", "heat_demand");
  ("electricity_demand", "electricity_demand");
  ("charging_rate", "balloon");
  ("gas_turbine_minload_electricity_capacity", "chp1");
  ("gas_turbine_maxload_electricity_capacity", "chp1");
  ("pc_max_gas", "chp1");
  ("gas_turbine_minload_electricity_capacity", "chp2");
  ("gas_turbine_maxload_electricity_capacity", "chp2");
  ("pc_max_gas", "chp2")
].

Definition ModelBiogas_data_values : list (string * string * string) := [
  ("electricity_offtake_price", "Electricity offtake", "prices");
  ("electricity_injection_price", "Electricity injection", "prices");
  ("heat_demand", "heat_demand", "demand");
  ("electricity_demand", "electricity_demand", "demand");
  ("charging_rate", "balloon", "charge");
  ("gas_turbine_minload_electricity_capacity", "chp1", "min_electricity_output");
  ("gas_turbine_maxload_electricity_capacity", "chp1", "max_electricity_output");
  ("gas_turbine_minload_electricity_capacity", "chp2", "min_electricity_output");
  ("gas_turbine_maxload_electricity_capacity", "chp2", "max_electricity_output")
].

Definition ModelBiogas_data_requirements
  : list (string * string * option string) := [
  ("electricity_offtake_price", "Electricity offtake", Some "prices");
  ("electricity_injection_price", "Electricity injection", Some "prices");
  ("heat_demand", "heat_demand", Some "demand");
  ("electricity_demand", "electricity_demand", Some "demand");
  ("charging_rate", "balloon", Some "charge");
  ("gas_turbine_minload_electricity_capacity", "chp1", Some "min_electricity_output");
  ("gas_turbine_maxload_electricity_capacity", "chp1", Some "max_electricity_output");
  ("pc_max_gas", "chp1", Some "gas_to_aux_firing");
  ("gas_turbine_minload_electricity_capacity", "chp2", Some "min_electricity_output");
  ("gas_turbine_maxload_electricity_capacity", "chp2", Some "max_electricity_output");
  ("pc_max_gas", "chp2", Some "gas_to_aux_firing")
].

(** The blocks of [model_biogas.py]'s [set_parameters], by the key
    each block tests. *)
Definition ModelBiogas_parameter_bindings : list (string * string) := [
  ("gas_turbine_heat_efficiency", "chp1");
  ("gas_turbine_electricity_efficiency", "chp1");
  ("hrsg_efficiency", "chp1");
  ("gas_turbine_heat_efficiency", "chp2");
  ("gas_turbine_electricity_efficiency", "chp2");
  ("hrsg_efficiency", "chp2");
  ("maximum capacity of balloon", "balloon")
].

Definition ModelBiogas_parameter_values : list (string * string * string) := [
  ("gas_turbine_heat_efficiency", "chp1", "thermal_efficiency");
  ("gas_turbine_electricity_efficiency", "chp1", "electricity_efficiency");
  ("hrsg_efficiency", "chp1", "aux_firing_efficiency");
  ("gas_turbine_heat_efficiency", "chp2", "thermal_efficiency");
  ("gas_turbine_electricity_efficiency", "chp2", "electricity_efficiency");
  ("hrsg_efficiency", "chp2", "aux_firing_efficiency")
].

(** The model of [model_biogas.py], as the callbacks receive it. *)
Definition biogas_model : Model.t simple_component :=
  match ModelBiogas.m with
  | Ok m => Model.mk (simple_instance <$> Model.components m) (Model.connections m)
  | Raise _ => Model.new
  end.

(** The parameters [optimization.py] passes to [dispatch]. *)
Definition optimization_params : gmap string pyval :=
  list_to_map [
    ("gas_turbine_minload_heat_efficiency", VFloat (decimal 45 100));
    ("gas_turbine_maxload_heat_efficiency", VFloat (decimal 45 100));
    ("hrsg_efficiency", VFloat float_1_0);
    ("maximum capacity of balloon", VInt 1500)
  ].

(* ------------------------------------------------------------------ *)
(** ** [analysis/analyse_results.py]: the overviews *)

Module Overviews.


(** What [generate_all_scenario_overviews] prints. *)
Inductive line :=
| Found (names : list string)        (* "Found {n} scenarios: {names}" *)
| Processing (name : string)         (* "\nProcessing scenario: {name}" *)
| Processed (name : string)          (* "✓ Successfully processed {name}" *)
| ErrorProcessing (name error : string). (* "✗ Error processing {name}: {e}" *)

Section Generate.
Context {Overview : Type}.

(** [create_scenario_overview(scenario_name)], which reads the result
    files of the scenario: it returns an overview or raises. *)
Variable create_scenario_overview : string → result Overview.

(** The [for] loop: [all_overviews] and the output so far.  An
    exception that is not an [Exception] leaves the loop. *)
Fixpoint for_each (scenario_names : list string)
    (all_overviews : gmap string Overview) (out : list line)
  : result (gmap string Overview) * list line :=
  match scenario_names with
  | [] => (Ok all_overviews, out)
  | scenario_name :: rest =>
      let out := (out ++ [Processing scenario_name])%list in
      match create_scenario_overview scenario_name with
      | Ok overview =>
          for_each rest (<[scenario_name:=overview]> all_overviews)
                   (out ++ [Processed scenario_name])%list
      | Raise e =>
          if is_Exception e then
            for_each rest all_overviews
                     (out ++ [ErrorProcessing scenario_name (exn_msg e)])%list
          else (Raise e, out)
      end
  end.

(** [generate_all_scenario_overviews].  [results_dir] is what is at
    [results]: nothing, or its entries in the order [iterdir] gives
    them, each with whether it is a directory. *)
Definition generate_all_scenario_overviews
    (results_dir : option (list (string * bool)))
  : result (gmap string Overview) * list line :=
  match results_dir with
  | None => (raise ValueError "Results directory not found", [])
  | Some entries =>
      let scenario_dirs := filter (λ d, d.2 = true) entries in
      let scenario_names := scenario_dirs.*1 in
      for_each scenario_names ∅ [Found scenario_names]
  end.
End Generate.

End Overviews.

(** Two result directories and a stray file; the overview of the
    second directory cannot be made. *)
Definition example_results_dir : list (string * bool) :=
  [("base_case", true); ("notes.txt", false); ("bad", true)].

Definition example_overview (scenario_name : string) : result Z :=
  if String.eqb scenario_name "bad" then
    raise ValueError "No results files found in bad"
  else Ok 120000.

(* ------------------------------------------------------------------ *)
(** ** [core/data_generator.py] *)

Module DataGenerator.

(** A timestamp of the demand file as [pd.to_datetime(.., utc=True)]
    gives it: the nanoseconds since the epoch, or [NaT] for a cell
    that holds no time. *)
Definition timestamp : Type := option Z.

(** [a < b], false when either side is [NaT]. *)
Definition lt (a b : timestamp) : bool :=
  match a, b with
  | Some x, Some y => x <? y
  | _, _ => false
  end.

Definition hour : Z := 3600 * 10 ^ 9.

(** [pd.Timestamp.max], in nanoseconds. *)
Definition max_timestamp : Z := 2 ^ 63 - 1.

(** [t + pd.Timedelta(hours=1)]: [NaT] stays [NaT]; a time beyond
    [pd.Timestamp.max] is an [OutOfBoundsDatetime], which is a
    [ValueError]. *)
Definition add_hour (t : timestamp) : result timestamp :=
  match t with
  | None => Ok None
  | Some x =>
      if x + hour <=? max_timestamp then Ok (Some (x + hour))
      else raise ValueError "Out of bounds nanosecond timestamp"
  end.

(** [get_demands], lines 141 to 143:
    [for i in range(1, len(timestamps_list)):
       if timestamps_list[i] < timestamps_list[i - 1]:
         timestamps_list[i] = timestamps_list[i - 1] + pd.Timedelta(hours=1)].
    At step [i] the element before is what step [i - 1] left there:
    the loop is one pass that carries the previous element. *)
Fixpoint adjust_after (previous : timestamp) (rest : list timestamp)
  : result (list timestamp) :=
  match rest with
  | [] => Ok []
  | current :: rest =>
      current ← (if lt current previous then add_hour previous else Ok current);
      rest ← adjust_after current rest;
      Ok (current :: rest)
  end.

Definition adjust_timestamps (timestamps_list : list timestamp)
  : result (list timestamp) :=
  match timestamps_list with
  | [] => Ok []
  | first :: rest => rest ← adjust_after first rest; Ok (first :: rest)
  end.

(** No element is less than the one before it. *)
Fixpoint in_order (l : list timestamp) : bool :=
  match l with
  | a :: rest => match rest with
                 | b :: _ => negb (lt b a) && in_order rest
                 | [] => true
                 end
  | [] => true
  end.

(** [get_data], lines 421 to 422: the file goes into the data folder. *)
Definition in_data_folder (filename : string) : string :=
  if String.prefix "data/" filename then filename else "data/" ++ filename.

(** [filename[:-4]] *)
Definition base_name (filename : string) : string :=
  String.substring 0 (String.length filename - 4) filename.

(** The name tried at the given value of [counter]. *)
Definition numbered (base_name : string) (counter : nat) : string :=
  base_name ++ "_" ++ pretty counter ++ ".csv".

(** Lines 427 to 429:
    [while os.path.exists(filename):
       filename = f"{base_name}_{counter}.csv"; counter += 1],
    run for at most [fuel] tests of the condition. *)
Fixpoint free_filename (fuel : nat) (path_exists : string → bool)
    (base_name filename : string) (counter : nat) : option string :=
  match fuel with
  | O => None
  | S fuel =>
      if path_exists filename then
        free_filename fuel path_exists base_name (numbered base_name counter)
                      (S counter)
      else Some filename
  end.

(** The name [get_data] saves under, lines 421 to 429. *)
Definition csv_filename (fuel : nat) (path_exists : string → bool)
    (filename : string) : option string :=
  let filename := in_data_folder filename in
  free_filename fuel path_exists (base_name filename) filename 1.

End DataGenerator.

(** Four readings, the third an hour early and the last one missing. *)
Definition example_timestamps : list DataGenerator.timestamp :=
  [Some 0; Some (2 * DataGenerator.hour); Some DataGenerator.hour;
   Some (4 * DataGenerator.hour); None].

(** A data folder that holds the default file and its first copy. *)
Definition example_data_folder : gset string :=
  {[ "data/time_series_data.csv"; "data/time_series_data_1.csv" ]}.

(* ================================================================== *)
(** * Part II: properties                                               *)
(* ================================================================== *)

(** ** The result monad *)

Lemma bind_Ok {A B} (f : A → result B) (a : A) : (Ok a ≫= f) = f a.
Proof. reflexivity. Qed.

Lemma bind_Raise {A B} (f : A → result B) (e : exn) : (Raise e ≫= f) = Raise e.
Proof. reflexivity. Qed.

Lemma bind_Ok_inv {A B} (f : A → result B) (r : result A) (b : B) :
  (r ≫= f) = Ok b → ∃ a, r = Ok a ∧ f a = Ok b.
Proof. destruct r as [a|e]; [eauto | discriminate]. Qed.

Lemma Ok_inj {A} (a b : A) : Ok a = Ok b → a = b.
Proof. by intros [= ->]. Qed.

Lemma set_assoc_cons k v k' v' (l : list (string * pyval)) :
  set_assoc k v ((k', v') :: l)
  = (if bool_decide (k' = k) then (k, v) else (k', v')) :: set_assoc k v l.
Proof. reflexivity. Qed.

Lemma set_assoc_absent k v (l : list (string * pyval)) :
  k ∉ l.*1 → set_assoc k v l = l.
Proof.
  induction l as [|[k' v'] l IH]; [done|].
  rewrite fmap_cons, set_assoc_cons. intros [Hne Hl]%not_elem_of_cons.
  cbn [fst] in Hne. rewrite bool_decide_eq_false_2 by done. by rewrite IH.
Qed.

Lemma insert_list_to_map k v (l : list (string * pyval)) :
  k ∈ l.*1 →
  <[k:=v]> (list_to_map l : gmap string pyval) = list_to_map (set_assoc k v l).
Proof.
  induction l as [|[k' v'] l IH]; [by intros ?%elem_of_nil|].
  rewrite fmap_cons, set_assoc_cons. cbn [fst]. intros Hk.
  destruct (decide (k' = k)) as [->|Hne].
  - rewrite bool_decide_eq_true_2 by done.
    rewrite !list_to_map_cons, insert_insert_eq.
    destruct (decide (k ∈ l.*1)) as [Hin|Hnin].
    + by rewrite <-IH, insert_insert_eq.
    + by rewrite set_assoc_absent.
  - rewrite bool_decide_eq_false_2 by done.
    apply elem_of_cons in Hk as [->|Hk]; [done|].
    by rewrite !list_to_map_cons, <-IH, insert_insert_ne.
Qed.

Lemma has_key_true {A} (k : string) (d : gmap string A) :
  has_key k d = true ↔ is_Some (d !! k).
Proof.
  unfold has_key. destruct (d !! k); split; intros Hk; done.
Qed.

Lemma has_key_false {A} (k : string) (d : gmap string A) :
  has_key k d = false ↔ d !! k = None.
Proof. unfold has_key. destruct (d !! k); split; intros Hk; done. Qed.

(** ** [Scenario.from_dict] step by step *)

Section FromDict.
Context `{Enums}.

Lemma convert_enum_ok c k opts s :
  opts !! k = Some (VStr s) → is_member c s = true →
  Scenario.convert_enum c k (VDict opts) = Ok (VDict (<[k:=VEnum c s]> opts)).
Proof.
  intros Hk Hm. unfold Scenario.convert_enum, getitem. rewrite Hk.
  cbn. rewrite Hm. reflexivity.
Qed.

(** A dictionary of the current flat shape, with string enum values. *)
Lemma from_dict_flat now data opts md b s d :
  data !! "dispatch_options" = Some (VDict opts) →
  data !! "metadata" = Some (VDict md) →
  data !! "equipment_params" = None →
  opts !! "builder_type" = Some (VStr b) → is_member BuilderType b = true →
  opts !! "solver" = Some (VStr s) → is_member SolverType s = true →
  opts !! "dispatch_type" = Some (VStr d) → is_member DispatchType d = true →
  Scenario.from_dict now data =
    construct now
      (delete "equipment_params" (delete "metadata" (delete "dispatch_options" data)))
      (<["dispatch_type":=VEnum DispatchType d]>
         (<["solver":=VEnum SolverType s]>
            (<["builder_type":=VEnum BuilderType b]> opts)))
      md.
Proof.
  intros Hdo Hmd Hep Hb Hbm Hs Hsm Hd Hdm.
  unfold Scenario.from_dict, pop.
  rewrite Hdo.
  rewrite (lookup_delete_ne data "dispatch_options" "metadata") by done.
  rewrite Hmd.
  rewrite !(lookup_delete_ne _ _ "equipment_params") by done.
  rewrite Hep.
  cbn [truthy]. rewrite map_to_list_empty. 
  rewrite bind_Ok.
  rewrite (convert_enum_ok _ _ _ b) by done. rewrite bind_Ok.
  rewrite (convert_enum_ok _ _ _ s); [|by rewrite lookup_insert_ne|done].
  rewrite bind_Ok.
  rewrite (convert_enum_ok _ _ _ d); [|by rewrite !lookup_insert_ne|done].
  reflexivity.
Qed.
End FromDict.

Section RoundTrip.
Context `{Enums}.

Lemma isinstance_inv c v :
  isinstance c v = true → ∃ s, v = VEnum c s ∧ is_member c s = true.
Proof.
  destruct v as [| | | | | | |c' s]; try discriminate. cbn.
  intros [Hc Hm]%andb_true_iff. apply bool_decide_eq_true in Hc as ->. eauto.
Qed.

Lemma from_dict_to_dict now (S : Scenario.t) :
  Scenario.options_typed S →
  ∃ d, Scenario.to_dict S = Ok d ∧
       Scenario.from_dict now d = Ok (Scenario.post_init now S).
Proof.
  intros (Hb & Hs & Hd).
  apply isinstance_inv in Hb as (b & Hb & Hbm).
  apply isinstance_inv in Hs as (s & Hs & Hsm).
  apply isinstance_inv in Hd as (d & Hd & Hdm).
  destruct S; cbn [Scenario.builder_type Scenario.solver Scenario.dispatch_type] in *.
  subst. eexists. split; [reflexivity|].
  erewrite (from_dict_flat now _ _ _ b s d);
    [| vm_compute; reflexivity ..| assumption | vm_compute; reflexivity | assumption | vm_compute; reflexivity | assumption ].
  destruct created_at; vm_compute; reflexivity.
Qed.
End RoundTrip.

Section Defaults.
Context `{Enums}.

Lemma fill_lookup (l : list (string * pyval)) (data : gmap string pyval) k :
  NoDup l.*1 →
  foldl (λ data kv, if has_key kv.1 data then data else <[kv.1:=kv.2]> data)
        data l !! k
  = match data !! k with
    | Some v => Some v
    | None => (list_to_map l : gmap string pyval) !! k
    end.
Proof.
  revert data. induction l as [|[k' v'] l IH]; intros data Hnd; cbn.
  { rewrite lookup_empty. by destruct (data !! k). }
  apply NoDup_cons in Hnd as [Hk' Hnd].
  rewrite IH by done. unfold has_key.
  destruct (decide (k = k')) as [->|Hne].
  - rewrite lookup_insert_eq.
    destruct (data !! k') eqn:Hd; [by rewrite Hd|].
    rewrite lookup_insert_eq. done.
  - rewrite (lookup_insert_ne _ k' k) by done.
    destruct (data !! k') eqn:Hd; [done|].
    by rewrite lookup_insert_ne.
Qed.

Lemma NoDup_default_keys : NoDup Scenario.default_keys.
Proof. apply (bool_decide_unpack _). by vm_compute. Qed.

Lemma fill_defaults_lookup data k :
  Scenario.fill_defaults data !! k
  = match data !! k with
    | Some v => Some v
    | None => (list_to_map Scenario.defaults : gmap string pyval) !! k
    end.
Proof. apply fill_lookup, NoDup_default_keys. Qed.

Lemma default_key_value k v :
  (k, v) ∈ Scenario.defaults →
  (list_to_map Scenario.defaults : gmap string pyval) !! k = Some v.
Proof. intros Hkv. by apply elem_of_list_to_map_1; [apply NoDup_default_keys|]. Qed.

Lemma fill_defaults_insert data k v :
  (k, v) ∈ Scenario.defaults → data !! k = None →
  Scenario.fill_defaults (<[k:=v]> data) = Scenario.fill_defaults data.
Proof.
  intros Hkv Hk. apply map_eq. intros j. rewrite !fill_defaults_lookup.
  destruct (decide (j = k)) as [->|Hne].
  - by rewrite lookup_insert_eq, Hk, (default_key_value k v).
  - by rewrite lookup_insert_ne.
Qed.

Lemma fill_defaults_union_insert o data k v :
  (k, v) ∈ Scenario.defaults → data !! k = None →
  Scenario.fill_defaults (o ∪ <[k:=v]> data) = Scenario.fill_defaults (o ∪ data).
Proof.
  intros Hkv Hk. apply map_eq. intros j. rewrite !fill_defaults_lookup.
  rewrite !lookup_union.
  destruct (decide (j = k)) as [->|Hne].
  - rewrite lookup_insert_eq, Hk. destruct (o !! k); [done|].
    rewrite !(left_id None _). by rewrite (default_key_value k v).
  - by rewrite lookup_insert_ne.
Qed.

Lemma default_key_not_nested k :
  k ∈ Scenario.default_keys →
  k ≠ "dispatch_options" ∧ k ≠ "metadata" ∧ k ≠ "equipment_params".
Proof.
  intros Hk. repeat split; intros ->; revert Hk;
    apply (bool_decide_eq_false_1 _); by vm_compute.
Qed.

(** A default written into the dictionary and a default filled in for
    a missing key give the same scenario, or the same exception. *)
Lemma from_dict_insert_default now data k v :
  (k, v) ∈ Scenario.defaults → data !! k = None →
  Scenario.from_dict now (<[k:=v]> data) = Scenario.from_dict now data.
Proof.
  intros Hkv Hk.
  assert (k ∈ Scenario.default_keys) as (H1 & H2 & H3)%default_key_not_nested.
  { unfold Scenario.default_keys. apply list_elem_of_fmap. by exists (k, v). }
  unfold Scenario.from_dict, pop.
  rewrite (lookup_insert_ne data k "dispatch_options") by done.
  rewrite (delete_insert_ne data "dispatch_options" k) by done.
  rewrite (lookup_insert_ne _ k "metadata") by done.
  rewrite (delete_insert_ne _ "metadata" k) by done.
  rewrite (lookup_insert_ne _ k "equipment_params") by done.
  rewrite (delete_insert_ne _ "equipment_params" k) by done.
  set (d3 := delete "equipment_params" (delete "metadata" (delete "dispatch_options" data))).
  assert (d3 !! k = None) as Hd3.
  { subst d3. by rewrite !lookup_delete_ne. }
  destruct (truthy _).
  - unfold dict_update.
    destruct (match delete "metadata" (delete "dispatch_options" data) !! "equipment_params" with
              | Some v0 => v0 | None => VDict ∅ end); try reflexivity.
    cbn [mbind result_bind]. by rewrite fill_defaults_union_insert.
  - cbn [mbind result_bind]. by rewrite fill_defaults_insert.
Qed.
End Defaults.

Section SetAttr.
Context `{Enums}.

Lemma post_init_set now (S : Scenario.t) :
  Scenario.created_at S ≠ VNone → Scenario.post_init now S = S.
Proof. unfold Scenario.post_init. by destruct (Scenario.created_at S). Qed.

Lemma to_dict_Ok_inv (S : Scenario.t) d :
  Scenario.to_dict S = Ok d →
  ∃ c1 b c2 s c3 dt, Scenario.builder_type S = VEnum c1 b ∧
    Scenario.solver S = VEnum c2 s ∧ Scenario.dispatch_type S = VEnum c3 dt.
Proof.
  unfold Scenario.to_dict.
  destruct (Scenario.builder_type S); try discriminate.
  destruct (Scenario.solver S); try discriminate.
  destruct (Scenario.dispatch_type S); try discriminate.
  intros _. by repeat eexists.
Qed.

Lemma setattr_default_key (S : Scenario.t) k v d :
  k ∈ Scenario.default_keys → Scenario.to_dict S = Ok d →
  Scenario.to_dict (Scenario.setattr k v S) = Ok (<[k:=v]> d) ∧
  Scenario.builder_type (Scenario.setattr k v S) = Scenario.builder_type S ∧
  Scenario.solver (Scenario.setattr k v S) = Scenario.solver S ∧
  Scenario.dispatch_type (Scenario.setattr k v S) = Scenario.dispatch_type S ∧
  Scenario.created_at (Scenario.setattr k v S) = Scenario.created_at S.
Proof.
  intros Hk Hd.
  destruct (to_dict_Ok_inv S d Hd) as (c1 & b & c2 & s & c3 & dt & Hb & Hs & Hdt).
  destruct S; cbn [Scenario.builder_type Scenario.solver Scenario.dispatch_type] in *.
  subst. apply Ok_inj in Hd. subst d.
  unfold Scenario.default_keys in Hk. cbv [Scenario.defaults fmap list_fmap fst] in Hk.
  repeat (apply elem_of_cons in Hk as [->|Hk]); [..| by apply elem_of_nil in Hk].
  all: lazymatch goal with
       | |- context [Scenario.setattr ?k ?v ?S] =>
           let r := eval vm_compute in (Scenario.setattr k v S) in
           replace (Scenario.setattr k v S) with r by (vm_compute; reflexivity)
       end.
  all: split; [|done].
  all: unfold Scenario.to_dict;
       cbn [Scenario.builder_type Scenario.solver Scenario.dispatch_type
            enum_value mbind result_bind mret result_ret].
  all: rewrite insert_list_to_map by (apply (bool_decide_unpack _); by vm_compute).
  all: reflexivity.
Qed.
End SetAttr.

Section ScenarioClaims.
Context `{Enums}.

Lemma default_value_in k :
  k ∈ Scenario.default_keys → (k, Scenario.default_value k) ∈ Scenario.defaults.
Proof.
  intros Hk. apply (elem_of_list_to_map_2 (M:=gmap string)).
  unfold Scenario.default_value.
  apply list_elem_of_fmap in Hk as ([k' v] & -> & Hkv). cbn [fst].
  by rewrite (default_key_value k' v).
Qed.

Lemma options_typed_setattr (S : Scenario.t) k v d :
  k ∈ Scenario.default_keys → Scenario.to_dict S = Ok d →
  Scenario.options_typed S → Scenario.options_typed (Scenario.setattr k v S).
Proof.
  intros Hk Hd. destruct (setattr_default_key S k v d Hk Hd) as (_ & Hb & Hs & Hdt & _).
  unfold Scenario.options_typed. by rewrite Hb, Hs, Hdt.
Qed.

(** Dropping newer keys from a stored scenario gives, on load, the
    scenario with those fields set to their defaults. *)
Lemma from_dict_without ks : ∀ now (S : Scenario.t) d,
  Scenario.options_typed S → Scenario.to_dict S = Ok d →
  Forall (λ k, k ∈ Scenario.default_keys) ks →
  Scenario.from_dict now (foldr delete d ks)
  = Ok (Scenario.post_init now (foldl set_default S ks)).
Proof.
  induction ks as [|k ks IH]; intros now S d Hty Hd Hks.
  { cbn [foldr foldl]. destruct (from_dict_to_dict now S Hty) as (d' & Hd' & Hfrom).
    rewrite Hd in Hd'. by apply Ok_inj in Hd' as <-. }
  apply Forall_cons in Hks as [Hk Hks]. cbn [foldr foldl].
  destruct (setattr_default_key S k (Scenario.default_value k) d Hk Hd)
    as (Hd1 & _).
  rewrite <-(IH now (set_default S k) _ (options_typed_setattr _ _ _ _ Hk Hd Hty) Hd1 Hks).
  rewrite foldr_delete_insert. case_decide as Hin.
  - rewrite delete_id; [done|]. by apply lookup_foldr_delete.
  - rewrite <-(from_dict_insert_default now (delete k _) k (Scenario.default_value k)).
    + by rewrite insert_delete_eq.
    + by apply default_value_in.
    + apply lookup_delete_eq.
Qed.

Lemma created_at_foldl ks : ∀ (S : Scenario.t) d,
  Scenario.options_typed S → Scenario.to_dict S = Ok d →
  Forall (λ k, k ∈ Scenario.default_keys) ks →
  Scenario.created_at (foldl set_default S ks) = Scenario.created_at S.
Proof.
  induction ks as [|k ks IH]; intros S d Hty Hd Hks; [done|].
  apply Forall_cons in Hks as [Hk Hks]. cbn [foldl].
  destruct (setattr_default_key S k (Scenario.default_value k) d Hk Hd)
    as (Hd1 & _ & _ & _ & Hc).
  rewrite (IH (set_default S k) _ (options_typed_setattr _ _ _ _ Hk Hd Hty) Hd1 Hks).
  exact Hc.
Qed.

Lemma getattr_setattr (S : Scenario.t) k v f :
  k ∈ Scenario.default_keys →
  Scenario.getattr f (Scenario.setattr k v S)
  = if bool_decide (f = k) then Some v else Scenario.getattr f S.
Proof.
  intros Hk. unfold Scenario.getattr.
  assert (Scenario.attrs (Scenario.setattr k v S) = <[k:=v]> (Scenario.attrs S)) as ->.
  { destruct S.
    unfold Scenario.default_keys in Hk.
    cbv [Scenario.defaults fmap list_fmap fst] in Hk.
    repeat (apply elem_of_cons in Hk as [->|Hk]); [..| by apply elem_of_nil in Hk].
    all: lazymatch goal with
         | |- context [Scenario.setattr ?k ?v ?S] =>
             let r := eval vm_compute in (Scenario.setattr k v S) in
             replace (Scenario.setattr k v S) with r by (vm_compute; reflexivity)
         end.
    all: unfold Scenario.attrs.
    all: rewrite insert_list_to_map by (apply (bool_decide_unpack _); by vm_compute).
    all: reflexivity. }
  case_bool_decide as Hf.
  - subst f. apply lookup_insert_eq.
  - by apply lookup_insert_ne.
Qed.

Lemma getattr_foldl ks : ∀ (S : Scenario.t) f,
  Forall (λ k, k ∈ Scenario.default_keys) ks →
  Scenario.getattr f (foldl set_default S ks)
  = if bool_decide (f ∈ ks) then Some (Scenario.default_value f)
    else Scenario.getattr f S.
Proof.
  induction ks as [|k ks IH]; intros S f Hks.
  { cbn [foldl]. rewrite bool_decide_eq_false_2; [done|]. apply not_elem_of_nil. }
  apply Forall_cons in Hks as [Hk Hks]. cbn [foldl].
  rewrite (IH _ _ Hks). unfold set_default.
  rewrite (getattr_setattr _ _ _ _ Hk).
  destruct (decide (f = k)) as [->|Hne].
  - rewrite (bool_decide_eq_true_2 (k ∈ k :: ks)) by (apply elem_of_cons; by left).
    rewrite (bool_decide_eq_true_2 (k = k)) by done.
    by case_bool_decide.
  - rewrite (bool_decide_eq_false_2 (f = k)) by done.
    rewrite (bool_decide_ext (f ∈ k :: ks) (f ∈ ks)); [done|].
    rewrite elem_of_cons. split; [by intros [?|?] | by right].
Qed.
End ScenarioClaims.

(** ** The scenario record: round trip and defaults *)

Section ScenarioTheorems.
Context `{Enums}.

Lemma to_dict_options (S : Scenario.t) d c1 b c2 s c3 dt :
  Scenario.builder_type S = VEnum c1 b →
  Scenario.solver S = VEnum c2 s →
  Scenario.dispatch_type S = VEnum c3 dt →
  Scenario.to_dict S = Ok d →
  ∃ opts, d !! "dispatch_options" = Some (VDict opts) ∧
    opts !! "builder_type" = Some (VStr b) ∧
    opts !! "solver" = Some (VStr s) ∧
    opts !! "dispatch_type" = Some (VStr dt).
Proof.
  intros Hb Hs Hdt Hd.
  destruct S; cbn [Scenario.builder_type Scenario.solver Scenario.dispatch_type] in *.
  subst. apply Ok_inj in Hd. subst d.
  eexists. split; [vm_compute; reflexivity|].
  repeat split; vm_compute; reflexivity.
Qed.

(** C1.  For a scenario whose option fields hold members of their
    enums and whose creation time is set (as [__post_init__] leaves
    it), [to_dict] succeeds, writes each option enum as the string
    that is its value, and [from_dict] of the result gives the
    scenario back, field for field. *)
Theorem scenario_round_trip now (S : Scenario.t) :
  Scenario.options_typed S → Scenario.created_at S ≠ VNone →
  ∃ d opts b s dt,
    Scenario.to_dict S = Ok d ∧
    d !! "dispatch_options" = Some (VDict opts) ∧
    Scenario.builder_type S = VEnum BuilderType b ∧
    opts !! "builder_type" = Some (VStr b) ∧
    Scenario.solver S = VEnum SolverType s ∧
    opts !! "solver" = Some (VStr s) ∧
    Scenario.dispatch_type S = VEnum DispatchType dt ∧
    opts !! "dispatch_type" = Some (VStr dt) ∧
    Scenario.from_dict now d = Ok S.
Proof.
  intros Hty Hc.
  destruct (from_dict_to_dict now S Hty) as (d & Hd & Hfrom).
  rewrite (post_init_set now S Hc) in Hfrom.
  destruct Hty as (Hb & Hs & Hdt).
  apply isinstance_inv in Hb as (b & Hb & _).
  apply isinstance_inv in Hs as (s & Hs & _).
  apply isinstance_inv in Hdt as (dt & Hdt & _).
  destruct (to_dict_options S d _ b _ s _ dt Hb Hs Hdt Hd)
    as (opts & Hopts & Hob & Hos & Hod).
  exists d, opts, b, s, dt. by repeat split.
Qed.

(** C2.  A stored scenario dictionary from which any of the newer
    keys are missing loads, and the loaded scenario has the default
    of [from_dict] in each missing field ([1.0] for the three
    [param_a] slopes, [0.0] for the others) and the stored value in
    every other field. *)
Theorem from_dict_fills_missing_defaults now (S : Scenario.t) d ks :
  Scenario.options_typed S → Scenario.created_at S ≠ VNone →
  Scenario.to_dict S = Ok d →
  Forall (λ k, k ∈ Scenario.default_keys) ks →
  (∃ S', Scenario.from_dict now (foldr delete d ks) = Ok S' ∧
     ∀ f, Scenario.getattr f S'
          = if bool_decide (f ∈ ks) then Some (Scenario.default_value f)
            else Scenario.getattr f S) ∧
  Forall (λ k, Scenario.default_value k
               = VFloat (if bool_decide (k ∈ param_a_keys) then float_1_0
                         else float_0_0))
         Scenario.default_keys.
Proof.
  intros Hty Hc Hd Hks. split.
  - exists (foldl set_default S ks). split.
    + rewrite (from_dict_without ks now S d Hty Hd Hks).
      rewrite post_init_set; [done|].
      by rewrite (created_at_foldl ks S d Hty Hd Hks).
    + intros f. by apply getattr_foldl.
  - unfold Scenario.default_keys. cbv [Scenario.defaults fmap list_fmap fst].
    repeat (apply Forall_cons; split; [vm_compute; reflexivity|]).
    apply Forall_nil_2.
Qed.
End ScenarioTheorems.

Lemma scenario_round_trip_witness :
  ∃ d opts b s dt,
    Scenario.to_dict base_case = Ok d ∧
    d !! "dispatch_options" = Some (VDict opts) ∧
    Scenario.builder_type base_case = VEnum BuilderType b ∧
    opts !! "builder_type" = Some (VStr b) ∧
    Scenario.solver base_case = VEnum SolverType s ∧
    opts !! "solver" = Some (VStr s) ∧
    Scenario.dispatch_type base_case = VEnum DispatchType dt ∧
    opts !! "dispatch_type" = Some (VStr dt) ∧
    Scenario.from_dict (H:=known_enums) "2025-06-02 08:00:00" d = Ok base_case.
Proof.
  apply (@scenario_round_trip known_enums "2025-06-02 08:00:00" base_case).
  - repeat split; reflexivity.
  - discriminate.
Defined.

Lemma from_dict_fills_missing_defaults_witness :
  ∃ S', Scenario.from_dict (H:=known_enums) "2025-06-02 08:00:00"
          (foldr delete base_case_dict
             ["gas_grid_cost_energy"; "elec_offtake_contract_param_a"]) = Ok S' ∧
        Scenario.getattr "gas_grid_cost_energy" S' = Some (VFloat float_0_0) ∧
        Scenario.getattr "elec_offtake_contract_param_a" S' = Some (VFloat float_1_0) ∧
        Scenario.getattr "e_boiler_capacity" S' = Some (VInt 10).
Proof.
  destruct (@from_dict_fills_missing_defaults known_enums "2025-06-02 08:00:00"
              base_case base_case_dict
              ["gas_grid_cost_energy"; "elec_offtake_contract_param_a"])
    as [(S' & Hfrom & Hattr) _].
  - repeat split; reflexivity.
  - discriminate.
  - reflexivity.
  - repeat constructor; apply (bool_decide_unpack _); exact I.
  - exists S'. split; [exact Hfrom|].
    rewrite !Hattr. repeat split; reflexivity.
Defined.

(** ** [run_all_scenarios]: a failing scenario does not stop the batch *)

Section DriverProofs.
Context `{Enums} {World : Type}.
Variable disk : World → gmap string pyval.
Variable clock : World → string.
Variable run_scenario : string → World → World * list string * result unit.

(** [run_scenario] raises only exceptions that [except Exception]
    catches. *)
Hypothesis raises_Exception :
  ∀ name w e, (run_scenario name w).2 = Raise e → is_Exception e = true.

Lemma for_each_runs names : ∀ w out failed,
  RunScenarios.for_each run_scenario names (w, out, failed)
  = ((world_after run_scenario names w,
      (out ++ flat_map report (runs run_scenario names w))%list,
      (failed ++ omap failure (runs run_scenario names w))%list), None).
Proof.
  induction names as [|name names IH]; intros w out failed.
  { cbn. by rewrite !app_nil_r. }
  cbn [RunScenarios.for_each runs world_after].
  pose proof (raises_Exception name w) as Hexc.
  destruct (run_scenario name w) as [[w' printed] [u|e]]; cbn [fst snd] in *.
  - rewrite IH. cbn [flat_map report omap failure fst snd].
    by rewrite <-!app_assoc.
  - rewrite (Hexc e eq_refl), IH. cbn [flat_map report omap failure fst snd].
    by rewrite <-!app_assoc.
Qed.

Lemma runs_names names : ∀ w, (runs run_scenario names w).*1.*1 = names.
Proof.
  induction names as [|name names IH]; intros w; [done|].
  cbn [runs]. destruct (run_scenario name w) as [[w' printed] r].
  cbn. by rewrite IH.
Qed.

Lemma omap_cons_None {A B} (f : A → option B) x l :
  f x = None → omap f (x :: l) = omap f l.
Proof. intros Hx. cbn. by rewrite Hx. Qed.

Lemma no_verdict_in_printed (printed : list string) :
  omap verdict (map RunScenarios.FromRun printed) = [].
Proof. induction printed as [|p printed IH]; [done|]. cbn. by rewrite IH. Qed.

Lemma no_summary_in_printed (printed : list string) :
  omap summary (map RunScenarios.FromRun printed) = [].
Proof. induction printed as [|p printed IH]; [done|]. cbn. by rewrite IH. Qed.

Lemma verdict_report calls :
  omap verdict (flat_map report calls) = map (λ c, (c.1.1, is_Ok c.2)) calls.
Proof.
  induction calls as [|[[name printed] r] calls IH]; [done|].
  cbn [flat_map report map fst snd]. rewrite !omap_app, IH.
  cbn. rewrite no_verdict_in_printed. by destruct r.
Qed.

Lemma summary_report calls : omap summary (flat_map report calls) = [].
Proof.
  induction calls as [|[[name printed] r] calls IH]; [done|].
  cbn [flat_map report]. rewrite !omap_app, IH.
  cbn. rewrite no_summary_in_printed. by destruct r.
Qed.

Lemma failure_count (calls : list (string * list string * result unit)) :
  length (omap failure calls) = length (filter (λ c, is_Ok c.2 = false) calls).
Proof.
  induction calls as [|[[name printed] r] calls IH]; [done|].
  rewrite filter_cons. destruct r; cbn; [done|]. by rewrite IH.
Qed.

Lemma no_verdict_in_items (failed : list (string * string)) :
  omap verdict (RunScenarios.FailedScenarios
                :: map (λ f, RunScenarios.FailedItem f.1 f.2) failed) = [].
Proof.
  rewrite omap_cons_None by done.
  induction failed as [|f failed IH]; [done|]. cbn. by rewrite IH.
Qed.

Lemma no_summary_in_items (failed : list (string * string)) :
  omap summary (RunScenarios.FailedScenarios
                :: map (λ f, RunScenarios.FailedItem f.1 f.2) failed) = [].
Proof.
  rewrite omap_cons_None by done.
  induction failed as [|f failed IH]; [done|]. cbn. by rewrite IH.
Qed.

(** C3.  When the store loads and lists at least one scenario, and the
    runs raise nothing but [Exception]s, the driver returns normally,
    having called [run_scenario] on every listed name in order, each
    call in the world the one before left; its output has one success
    or failure line per scenario, matching how the call ended, and one
    summary line whose count is the number of scenarios minus the
    number that raised. *)
Theorem run_all_scenarios_isolates_failures (w : World) manager :
  ScenarioManager.init (clock w) (disk w) ScenarioManager.default_file
    = Ok manager →
  keys (ScenarioManager.list_scenarios manager) ≠ [] →
  let names := keys (ScenarioManager.list_scenarios manager) in
  let calls := runs run_scenario names w in
  ∃ out,
    RunScenarios.run_all_scenarios disk clock run_scenario w
      = (world_after run_scenario names w, out, Ok tt) ∧
    calls.*1.*1 = names ∧
    omap verdict out = map (λ c, (c.1.1, is_Ok c.2)) calls ∧
    omap summary out
      = [(Z.of_nat (length names)
          - Z.of_nat (length (filter (λ c, is_Ok c.2 = false) calls)),
          Z.of_nat (length names))].
Proof.
  intros Hinit Hne. cbv zeta. unfold RunScenarios.run_all_scenarios.
  rewrite Hinit.
  set (names := keys (ScenarioManager.list_scenarios manager)) in *.
  clearbody names. destruct names as [|name rest]; [done|].
  set (names := name :: rest). cbv beta iota.
  rewrite for_each_runs.
  set (calls := runs run_scenario names w). cbn [app].
  eexists. split; [reflexivity|].
  split; [apply runs_names|].
  rewrite <-failure_count.
  destruct (omap failure calls) as [|f failed] eqn:Hfailed.
  - split.
    + rewrite omap_cons_None by done.
      rewrite !omap_app, verdict_report. cbn. by rewrite !app_nil_r.
    + rewrite omap_cons_None by done.
      rewrite !omap_app, summary_report. by cbn.
  - split.
    + rewrite omap_cons_None by done.
      rewrite !omap_app, verdict_report, no_verdict_in_items.
      cbn. by rewrite !app_nil_r.
    + rewrite omap_cons_None by done.
      rewrite !omap_app, summary_report, no_summary_in_items. by cbn.
Qed.
End DriverProofs.

Lemma run_all_scenarios_isolates_failures_witness :
  ∃ out,
    RunScenarios.run_all_scenarios (H:=known_enums) id
      (λ _, "2025-06-02 08:00:00") example_run_scenario example_disk
    = (example_disk, out, Ok tt) ∧
    omap verdict out = [("base_case", true); ("bad", false)] ∧
    omap summary out = [(1, 2)].
Proof.
  destruct (@run_all_scenarios_isolates_failures known_enums _ id
              (λ _, "2025-06-02 08:00:00") example_run_scenario) with
    (w := example_disk) (manager := example_manager)
    as (out & Hrun & _ & Hverdict & Hsummary).
  - intros name w e. unfold example_run_scenario. cbn [snd].
    destruct (String.eqb name "bad"); [|discriminate].
    intros [= <-]. reflexivity.
  - vm_compute. reflexivity.
  - vm_compute. discriminate.
  - exists out. split; [exact Hrun|]. split.
    + rewrite Hverdict. vm_compute. reflexivity.
    + rewrite Hsummary. vm_compute. reflexivity.
Defined.

(** ** The scenario store *)

Lemma mapM_Ok_Forall2 {A B} (f : A → result B) (l : list A) (l' : list B) :
  mapM f l = Ok l' → Forall2 (λ a b, f a = Ok b) l l'.
Proof.
  revert l'. induction l as [|a l IH]; intros l' Hl.
  { apply Ok_inj in Hl as <-. constructor. }
  cbn [mapM] in Hl.
  apply bind_Ok_inv in Hl as (b & Hb & Hl).
  apply bind_Ok_inv in Hl as (k & Hk & Hl).
  apply Ok_inj in Hl as <-. constructor; [done|]. by apply IH.
Qed.

Lemma mapM_Raise {A B} (f : A → result B) (l : list A) e :
  mapM f l = Raise e → ∃ a, a ∈ l ∧ f a = Raise e.
Proof.
  induction l as [|a l IH]; [done|]. cbn [mapM].
  destruct (f a) as [b|e'] eqn:Hfa.
  - rewrite bind_Ok. destruct (mapM f l) as [k|e'']; [done|].
    intros [= ->]. destruct (IH eq_refl) as (a' & Hin & Ha').
    exists a'. split; [by apply elem_of_cons; right|done].
  - intros [= ->]. exists a. split; [by apply elem_of_cons; left|done].
Qed.

Lemma mapM_total {A B} (f : A → result B) (l : list A) :
  Forall (λ a, is_Ok (f a) = true) l → is_Ok (mapM f l) = true.
Proof.
  induction 1 as [|a l Ha _ IH]; [done|]. cbn [mapM].
  destruct (f a); [|done]. rewrite bind_Ok.
  by destruct (mapM f l).
Qed.

(** A comprehension that returns has, under each key, the value its
    body gave for the entry under that key, and no other key. *)
Lemma dict_mapM_lookup {A B} (f : A → result B) (d : gmap string A) d' k :
  dict_mapM f d = Ok d' →
  match d !! k with
  | Some a => ∃ b, f a = Ok b ∧ d' !! k = Some b
  | None => d' !! k = None
  end.
Proof.
  unfold dict_mapM. intros Hd.
  apply bind_Ok_inv in Hd as (l & Hl & Hd). apply Ok_inj in Hd as <-.
  apply mapM_Ok_Forall2 in Hl.
  assert (Forall2 (λ kv kv', kv'.1 = kv.1 ∧ f kv.2 = Ok kv'.2) (map_to_list d) l)
    as Hrel.
  { eapply Forall2_impl; [exact Hl|]. intros [k1 a] [k2 b] Hkv. cbn in *.
    destruct (f a); [|done]. by apply Ok_inj in Hkv as [= -> ->]. }
  clear Hl.
  assert (l.*1 = (map_to_list d).*1) as Hkeys.
  { induction Hrel as [|kv kv' ?? [Hk _] _ IH]; [done|]. cbn. by rewrite Hk, IH. }
  assert (NoDup l.*1) as Hnd by (rewrite Hkeys; apply NoDup_fst_map_to_list).
  destruct (d !! k) as [a|] eqn:Hdk.
  - apply elem_of_map_to_list in Hdk.
    apply list_elem_of_lookup in Hdk as (i & Hi).
    destruct (Forall2_lookup_l _ _ _ _ _ Hrel Hi) as ([k' b] & Hi' & Hk' & Hb).
    cbn in *. subst k'. exists b. split; [done|].
    apply elem_of_list_to_map; [done|]. by eapply list_elem_of_lookup_2.
  - apply not_elem_of_list_to_map. rewrite Hkeys.
    intros Hin. apply list_elem_of_fmap in Hin as ([k' a] & -> & Hin).
    apply elem_of_map_to_list in Hin. cbn in *. congruence.
Qed.

Lemma dict_mapM_Raise {A B} (f : A → result B) (d : gmap string A) e :
  dict_mapM f d = Raise e → ∃ k a, d !! k = Some a ∧ f a = Raise e.
Proof.
  unfold dict_mapM. intros Hd.
  destruct (mapM _ (map_to_list d)) as [l|e'] eqn:Hl; [done|].
  injection Hd as ->. apply mapM_Raise in Hl as ([k a] & Hin & Hfa).
  exists k, a. split; [by apply elem_of_map_to_list|].
  cbn in Hfa. destruct (f a) as [b|e'']; [done|]. by injection Hfa as ->.
Qed.

Lemma dict_mapM_total {A B} (f : A → result B) (d : gmap string A) :
  (∀ k a, d !! k = Some a → is_Ok (f a) = true) → is_Ok (dict_mapM f d) = true.
Proof.
  intros Hall. unfold dict_mapM.
  assert (is_Ok (mapM (λ kv, b ← f kv.2; mret (kv.1, b)) (map_to_list d)) = true) as Hok.
  { apply mapM_total, Forall_forall. intros [k a] Hin%elem_of_map_to_list.
    specialize (Hall k a Hin). cbn. by destruct (f a). }
  by destruct (mapM _ (map_to_list d)).
Qed.

Lemma enum_value_raises v e :
  enum_value v = Raise e → exn_cls e = AttributeError.
Proof. destruct v; intros [= <-]; reflexivity. Qed.

Lemma mret_not_Raise {A} (a : A) e : mret a ≠ Raise e.
Proof. discriminate. Qed.

Lemma to_dict_raises (S : Scenario.t) e :
  Scenario.to_dict S = Raise e → exn_cls e = AttributeError.
Proof.
  unfold Scenario.to_dict.
  destruct (enum_value (Scenario.builder_type S)) as [b|e1] eqn:H1.
  2: { rewrite bind_Raise. intros [= <-]. by apply enum_value_raises in H1. }
  rewrite bind_Ok.
  destruct (enum_value (Scenario.solver S)) as [s|e2] eqn:H2.
  2: { rewrite bind_Raise. intros [= <-]. by apply enum_value_raises in H2. }
  rewrite bind_Ok.
  destruct (enum_value (Scenario.dispatch_type S)) as [dt|e3] eqn:H3.
  2: { rewrite bind_Raise. intros [= <-]. by apply enum_value_raises in H3. }
  rewrite bind_Ok. intros Hd. by apply mret_not_Raise in Hd.
Qed.

Lemma save_scenarios_Ok `{Files} fs self fs' :
  ScenarioManager.save_scenarios fs self = Ok fs' →
  holds_collection fs' self ∧
  ∀ path, path ≠ ScenarioManager.scenarios_file self → fs' !! path = fs !! path.
Proof.
  unfold ScenarioManager.save_scenarios, ScenarioManager.document. intros Hs.
  apply bind_Ok_inv in Hs as (doc & Hdoc & Hs).
  apply bind_Ok_inv in Hs as (? & _ & Hs).
  apply bind_Ok_inv in Hs as (? & _ & Hs). apply Ok_inj in Hs as <-.
  apply bind_Ok_inv in Hdoc as (data & Hdata & Hdoc). apply Ok_inj in Hdoc as <-.
  split.
  - exists (VDict <$> data). split; [apply lookup_insert_eq|].
    intros name. pose proof (dict_mapM_lookup _ _ _ name Hdata) as Hn.
    rewrite lookup_fmap.
    destruct (ScenarioManager.scenarios self !! name).
    + destruct Hn as (d & Hd & ->). by exists d.
    + by rewrite Hn.
  - intros path Hne. by apply lookup_insert_ne.
Qed.

Lemma elem_of_keys {A} (d : gmap string A) k : k ∈ keys d ↔ is_Some (d !! k).
Proof.
  unfold keys. rewrite list_elem_of_fmap. split.
  - intros ([k' a] & -> & Hin%elem_of_map_to_list). by exists a.
  - intros [a Ha]. exists (k, a). split; [done|]. by apply elem_of_map_to_list.
Qed.

(** C9.  [get_scenario] returns [None] exactly for the names that the
    manager does not list, and the stored scenario for every name it
    holds; it has no failing case. *)
Theorem get_scenario_absent_is_None (self : ScenarioManager.t) (name : string) :
  (ScenarioManager.get_scenario self name = None
   ↔ name ∉ keys (ScenarioManager.list_scenarios self)) ∧
  (∀ scenario,
     ScenarioManager.scenarios self !! name = Some scenario
     ↔ ScenarioManager.get_scenario self name = Some scenario).
Proof.
  unfold ScenarioManager.get_scenario, ScenarioManager.list_scenarios. split; [|done].
  rewrite elem_of_keys, lookup_fmap, fmap_is_Some.
  by rewrite eq_None_not_Some.
Qed.

Lemma get_scenario_absent_is_None_witness :
  ScenarioManager.get_scenario example_manager "Flex_9" = None ∧
  ScenarioManager.get_scenario example_manager "base_case" = Some base_case.
Proof.
  split.
  - apply (get_scenario_absent_is_None example_manager "Flex_9").
    apply (bool_decide_unpack _). vm_compute. exact I.
  - apply (get_scenario_absent_is_None example_manager "base_case").
    vm_compute. reflexivity.
Defined.

Lemma document_raises self e :
  ScenarioManager.document self = Raise e →
  ∃ k s, ScenarioManager.scenarios self !! k = Some s ∧
         Scenario.to_dict s = Raise e ∧ exn_cls e = AttributeError.
Proof.
  unfold ScenarioManager.document.
  destruct (dict_mapM Scenario.to_dict (ScenarioManager.scenarios self))
    as [data|e'] eqn:Hdata; [done|].
  intros [= <-]. apply dict_mapM_Raise in Hdata as (k & s & Hk & Hs).
  exists k, s. split; [done|]. split; [done|]. by apply to_dict_raises in Hs.
Qed.

Lemma document_total self :
  (∀ name scenario, ScenarioManager.scenarios self !! name = Some scenario →
                    is_Ok (Scenario.to_dict scenario) = true) →
  ∃ doc, ScenarioManager.document self = Ok doc.
Proof.
  intros Hall. unfold ScenarioManager.document.
  pose proof (dict_mapM_total Scenario.to_dict _ Hall) as Hok.
  destruct (dict_mapM Scenario.to_dict (ScenarioManager.scenarios self));
    [by eexists|done].
Qed.

(** An exception of [save_scenarios] is the one of a [to_dict], of
    opening the file, or of dumping the document. *)
Lemma save_scenarios_raises `{Files} fs self e :
  ScenarioManager.save_scenarios fs self = Raise e →
  (∃ k s, ScenarioManager.scenarios self !! k = Some s ∧
          Scenario.to_dict s = Raise e ∧ exn_cls e = AttributeError) ∨
  open_for_writing (ScenarioManager.scenarios_file self) = Raise e ∨
  (∃ doc, ScenarioManager.document self = Ok doc ∧ json_dump doc = Raise e).
Proof.
  unfold ScenarioManager.save_scenarios.
  destruct (ScenarioManager.document self) as [doc|e'] eqn:Hdoc.
  2: { intros [= <-]. left. by apply document_raises. }
  rewrite bind_Ok.
  destruct (open_for_writing _) as [[]|e'] eqn:Hopen.
  2: { intros [= <-]. right. by left. }
  rewrite bind_Ok.
  destruct (json_dump doc) as [[]|e'] eqn:Hdump; [done|].
  intros [= <-]. right. right. by exists doc.
Qed.

Lemma save_scenarios_total `{Files} fs self :
  (∀ name scenario, ScenarioManager.scenarios self !! name = Some scenario →
                    is_Ok (Scenario.to_dict scenario) = true) →
  open_for_writing (ScenarioManager.scenarios_file self) = Ok tt →
  (∀ doc, ScenarioManager.document self = Ok doc → json_dump doc = Ok tt) →
  ∃ fs', ScenarioManager.save_scenarios fs self = Ok fs'.
Proof.
  intros Hall Hopen Hdump. unfold ScenarioManager.save_scenarios.
  destruct (document_total self Hall) as [doc Hdoc].
  rewrite Hdoc, bind_Ok, Hopen, bind_Ok, (Hdump doc Hdoc), bind_Ok.
  by eexists.
Qed.

(** C10.  Adding a scenario under a name the manager already holds
    replaces the record.  If the call returns, the collection has the
    new scenario under that name and is otherwise unchanged, with the
    same names, and the store holds the new collection.  There is no
    check for a duplicate name: the call does exactly what it does on
    the collection without the name, and an exception it raises is
    the [AttributeError] of a [to_dict], or the one of opening the
    file, or the one of dumping the document.  The call returns when
    every scenario of the new collection serializes, the file opens
    and the document can be dumped. *)
Theorem add_scenario_replaces_existing `{Files} fs (self : ScenarioManager.t)
    (scenario old : Scenario.t) (name : string) :
  Scenario.name scenario = VStr name →
  ScenarioManager.scenarios self !! name = Some old →
  let replaced :=
    ScenarioManager.mk (ScenarioManager.scenarios_file self)
      (<[name:=scenario]> (ScenarioManager.scenarios self)) in
  (∀ self' fs',
     ScenarioManager.add_scenario fs self scenario = Ok (self', fs') →
     self' = replaced ∧
     ScenarioManager.get_scenario self' name = Some scenario ∧
     (∀ other, other ≠ name →
        ScenarioManager.get_scenario self' other
        = ScenarioManager.get_scenario self other) ∧
     dom (ScenarioManager.scenarios self') = dom (ScenarioManager.scenarios self) ∧
     holds_collection fs' self') ∧
  ScenarioManager.add_scenario fs self scenario
  = ScenarioManager.add_scenario fs
      (ScenarioManager.mk (ScenarioManager.scenarios_file self)
         (delete name (ScenarioManager.scenarios self))) scenario ∧
  (∀ e, ScenarioManager.add_scenario fs self scenario = Raise e →
     (∃ k s, ScenarioManager.scenarios replaced !! k = Some s ∧
             Scenario.to_dict s = Raise e ∧ exn_cls e = AttributeError) ∨
     open_for_writing (ScenarioManager.scenarios_file self) = Raise e ∨
     (∃ doc, ScenarioManager.document replaced = Ok doc ∧
             json_dump doc = Raise e)) ∧
  ((∀ k s, ScenarioManager.scenarios replaced !! k = Some s →
           is_Ok (Scenario.to_dict s) = true) →
   open_for_writing (ScenarioManager.scenarios_file self) = Ok tt →
   (∀ doc, ScenarioManager.document replaced = Ok doc → json_dump doc = Ok tt) →
   ∃ fs', ScenarioManager.add_scenario fs self scenario = Ok (replaced, fs')).
Proof.
  intros Hname Hold replaced. unfold ScenarioManager.add_scenario. rewrite Hname.
  cbn [ScenarioManager.scenarios_file ScenarioManager.scenarios].
  rewrite insert_delete_eq. fold replaced.
  split; [|split; [|split]].
  - intros self' fs' Hadd.
    apply bind_Ok_inv in Hadd as (fs1 & Hsave & Hadd).
    apply Ok_inj in Hadd as [= <- <-].
    split; [done|]. split; [apply lookup_insert_eq|]. split; [|split].
    + intros other Hother. by apply lookup_insert_ne.
    + cbn. by apply dom_insert_lookup_L.
    + by apply save_scenarios_Ok in Hsave as [? _].
  - reflexivity.
  - intros e Hadd.
    destruct (ScenarioManager.save_scenarios fs replaced) as [fs1|e'] eqn:Hsave;
      [done|].
    injection Hadd as <-. by apply save_scenarios_raises in Hsave.
  - intros Hall Hopen Hdump.
    destruct (save_scenarios_total fs replaced Hall Hopen Hdump) as [fs' Hsave].
    exists fs'. by rewrite Hsave.
Qed.

(** C7, as the code has it.  [add_scenario] always, and
    [update_scenario] and [delete_scenario] when the name is present,
    end by writing the whole collection: if the call returns, the file
    at the manager's path holds one entry per scenario of the
    collection as it then is, each the [to_dict] of the scenario, and
    no other file has changed.  With an absent name, [update_scenario]
    and [delete_scenario] change neither the collection nor the
    disk. *)
Theorem mutation_rewrites_store `{Files} fs (self : ScenarioManager.t) :
  (∀ scenario self' fs',
     ScenarioManager.add_scenario fs self scenario = Ok (self', fs') →
     holds_collection fs' self' ∧
     ∀ path, path ≠ ScenarioManager.scenarios_file self →
             fs' !! path = fs !! path) ∧
  (∀ name kwargs self' fs',
     is_Some (ScenarioManager.scenarios self !! name) →
     ScenarioManager.update_scenario fs self name kwargs = Ok (self', fs') →
     holds_collection fs' self' ∧
     ∀ path, path ≠ ScenarioManager.scenarios_file self →
             fs' !! path = fs !! path) ∧
  (∀ name self' fs',
     is_Some (ScenarioManager.scenarios self !! name) →
     ScenarioManager.delete_scenario fs self name = Ok (self', fs') →
     ScenarioManager.scenarios self' = delete name (ScenarioManager.scenarios self) ∧
     holds_collection fs' self' ∧
     ∀ path, path ≠ ScenarioManager.scenarios_file self →
             fs' !! path = fs !! path) ∧
  (∀ name kwargs,
     ScenarioManager.scenarios self !! name = None →
     ScenarioManager.update_scenario fs self name kwargs = Ok (self, fs) ∧
     ScenarioManager.delete_scenario fs self name = Ok (self, fs)).
Proof.
  split; [|split; [|split]].
  - intros scenario self' fs' Hadd.
    unfold ScenarioManager.add_scenario in Hadd.
    destruct (Scenario.name scenario); try done.
    apply bind_Ok_inv in Hadd as (fs1 & Hsave & Hadd).
    apply Ok_inj in Hadd as [= <- <-].
    by apply save_scenarios_Ok in Hsave.
  - intros name kwargs self' fs' [s Hs] Hupd.
    unfold ScenarioManager.update_scenario in Hupd. rewrite Hs in Hupd.
    apply bind_Ok_inv in Hupd as (fs1 & Hsave & Hupd).
    apply Ok_inj in Hupd as [= <- <-].
    by apply save_scenarios_Ok in Hsave.
  - intros name self' fs' [s Hs] Hdel.
    unfold ScenarioManager.delete_scenario in Hdel. rewrite Hs in Hdel.
    apply bind_Ok_inv in Hdel as (fs1 & Hsave & Hdel).
    apply Ok_inj in Hdel as [= <- <-].
    split; [done|]. by apply save_scenarios_Ok in Hsave.
  - intros name kwargs Hnone.
    unfold ScenarioManager.update_scenario, ScenarioManager.delete_scenario.
    by rewrite Hnone.
Qed.

(** C7: with a name that is absent, [delete_scenario] and
    [update_scenario] return without writing; on a manager built where
    no store file exists yet, the store then still does not hold the
    collection. *)
Lemma absent_name_leaves_store_unwritten :
  ∃ self,
    ScenarioManager.init (H:=known_enums) "2025-06-02 08:00:00" ∅
      ScenarioManager.default_file = Ok self ∧
    ScenarioManager.delete_scenario (H:=writable) ∅ self "Flex_9" = Ok (self, ∅) ∧
    ScenarioManager.update_scenario (H:=writable) ∅ self "Flex_9"
      [("results_path", VStr "results/Flex_9/results_20250602_080000")]
      = Ok (self, ∅) ∧
    ¬ holds_collection ∅ self.
Proof.
  exists (ScenarioManager.mk ScenarioManager.default_file ∅).
  repeat split.
  intros (docs & Hfile & _). by rewrite lookup_empty in Hfile.
Qed.

Lemma mutation_rewrites_store_witness :
  ScenarioManager.delete_scenario (H:=writable) ∅ single_manager "base_case"
    = Ok (ScenarioManager.mk ScenarioManager.default_file ∅,
          {[ ScenarioManager.default_file := VDict ∅ ]}) ∧
  holds_collection {[ ScenarioManager.default_file := VDict ∅ ]}
    (ScenarioManager.mk ScenarioManager.default_file ∅).
Proof.
  assert (ScenarioManager.delete_scenario (H:=writable) ∅ single_manager "base_case"
          = Ok (ScenarioManager.mk ScenarioManager.default_file ∅,
                {[ ScenarioManager.default_file := VDict ∅ ]})) as Hdel.
  { vm_compute. reflexivity. }
  split; [exact Hdel|].
  destruct (mutation_rewrites_store (H:=writable) ∅ single_manager)
    as (_ & _ & Hdelete & _).
  eapply Hdelete; [|exact Hdel]. vm_compute. eauto.
Defined.

Lemma add_scenario_replaces_existing_witness :
  ScenarioManager.get_scenario single_manager "base_case" = Some base_case ∧
  revised_case ≠ base_case ∧
  ∃ fs',
    ScenarioManager.add_scenario (H:=writable) ∅ single_manager revised_case
      = Ok (ScenarioManager.mk ScenarioManager.default_file
              {[ "base_case" := revised_case ]}, fs') ∧
    holds_collection fs'
      (ScenarioManager.mk ScenarioManager.default_file
         {[ "base_case" := revised_case ]}).
Proof.
  split; [reflexivity|]. split; [discriminate|].
  destruct (add_scenario_replaces_existing (H:=writable) ∅ single_manager
              revised_case base_case "base_case") as (Hok & _ & _ & Htotal).
  - reflexivity.
  - reflexivity.
  - destruct Htotal as [fs' Hadd].
    + intros k s Hks. cbn in Hks. rewrite insert_singleton_eq in Hks.
      apply lookup_singleton_Some in Hks as [_ <-]. reflexivity.
    + reflexivity.
    + reflexivity.
    + cbn in Hadd. rewrite insert_singleton_eq in Hadd.
      exists fs'. split; [exact Hadd|].
      destruct (Hok _ _ Hadd) as (_ & _ & _ & _ & Hfile). exact Hfile.
Defined.

(** On a machine where the directory of the store is missing, the
    same call raises the [FileNotFoundError] of [open]. *)
Lemma add_scenario_missing_directory :
  ScenarioManager.add_scenario (H:=no_directory) ∅
    (ScenarioManager.mk "nodir/scenarios.json" {[ "base_case" := base_case ]})
    revised_case
  = raise FileNotFoundError "No such file or directory".
Proof. vm_compute. reflexivity. Qed.

(** ** Importing [run_scenarios] *)

(** C5.  Whatever else can be imported, and whether the file is run
    as a script or imported, executing [run_scenarios.py] stops at its
    second statement with [NameError: name 'Path' is not defined]: only
    [os] has been bound by then, so neither [ScenarioManager] nor
    [run_scenario] nor [run_all_scenarios] exists in the module. *)
Theorem run_scenarios_import_fails (importable : string → bool) (as_main : bool) :
  importable "os" = true →
  PyModule.run importable as_main RunScenarios.top_level
    = ("os" :: PyModule.module_globals,
       Some (Exn NameError "name 'Path' is not defined")) ∧
  Forall (λ x, x ∉ "os" :: PyModule.module_globals)
         ["Path"; "ScenarioManager"; "get_data"; "get_model"; "dispatch";
          "run_scenario"; "run_all_scenarios"].
Proof.
  intros Hos. split.
  - unfold PyModule.run, RunScenarios.top_level.
    cbn [PyModule.exec PyModule.exec_stmt]. rewrite Hos.
    cbn [PyModule.top_package]. vm_compute. reflexivity.
  - repeat (apply Forall_cons; split; [apply (bool_decide_unpack _); by vm_compute|]).
    apply Forall_nil_2.
Qed.

Lemma run_scenarios_import_fails_witness :
  PyModule.run (λ _, true) false RunScenarios.top_level
    = ("os" :: PyModule.module_globals,
       Some (Exn NameError "name 'Path' is not defined")).
Proof. apply (run_scenarios_import_fails (λ _, true) false). reflexivity. Defined.

(** ** The wiring of the model files *)

Section Connect.
Context {C : Type} `{Named C}.

Lemma connect_Ok (m m' : Model.t C) source destination :
  Model.connect source destination m = Ok m' →
  has_key source.1 (Model.components m) = true ∧
  has_key destination.1 (Model.components m) = true ∧
  (destination ∉ (Model.connections m).*2) ∧
  m' = Model.mk (Model.components m)
         (Model.connections m ++ [(source, destination)]).
Proof.
  unfold Model.connect, Model.is_destination.
  destruct (has_key source.1 _); [|done].
  destruct (has_key destination.1 _); [|done]. cbn [andb negb].
  case_bool_decide as Hdest; [done|].
  intros [= <-]. done.
Qed.

(** A second connection into a port that has one is refused. *)
Lemma connect_twice (m m' : Model.t C) source source' destination :
  Model.connect source destination m = Ok m' →
  ∃ e, Model.connect source' destination m' = Raise e ∧
       (has_key source'.1 (Model.components m) = true →
        exn_cls e = MultipleWriterError).
Proof.
  intros (_ & Hd & _ & ->)%connect_Ok.
  unfold Model.connect, Model.is_destination. cbn [Model.components Model.connections].
  rewrite Hd. destruct (has_key source'.1 _); cbn [andb negb].
  - rewrite bool_decide_eq_true_2.
    + eexists. split; [reflexivity|done].
    + rewrite fmap_app. apply elem_of_app. right. cbn. apply list_elem_of_singleton. done.
  - eexists. split; [reflexivity|done].
Qed.

(** Connections into distinct free ports of registered components all
    succeed, and are recorded in call order. *)
Lemma connect_distinct edges : ∀ m : Model.t C,
  Forall (endpoints_registered m) edges →
  NoDup edges.*2 →
  Forall (λ e, e.2 ∉ (Model.connections m).*2) edges →
  foldl (λ r e, m ← r; Model.connect e.1 e.2 m) (Ok m) edges
  = Ok (Model.mk (Model.components m) (Model.connections m ++ edges)).
Proof.
  induction edges as [|[s d] edges IH]; intros m Hreg Hnd Hfree.
  { cbn. rewrite app_nil_r. by destruct m. }
  apply Forall_cons in Hreg as [[Hs Hd] Hreg].
  apply Forall_cons in Hfree as [Hdfree Hfree].
  rewrite fmap_cons in Hnd. apply NoDup_cons in Hnd as [Hdnew Hnd].
  cbn [foldl fst snd] in *. rewrite bind_Ok.
  unfold Model.connect at 2, Model.is_destination. rewrite Hs, Hd. cbn [andb negb].
  rewrite bool_decide_eq_false_2 by done.
  rewrite IH; cbn [Model.components Model.connections].
  - by rewrite <-app_assoc.
  - done.
  - done.
  - apply Forall_forall. intros e He. rewrite fmap_app, elem_of_app.
    intros [Hin|Hin].
    + by eapply Forall_forall in Hfree.
    + cbn in Hin. apply list_elem_of_singleton in Hin.
      apply Hdnew. rewrite <-Hin. apply list_elem_of_fmap. by exists e.
Qed.
End Connect.

(** C6.  The module-level calls of [model.py] and of [model_bis.py]
    assemble without error, and in the assembled graph every port is
    the destination of at most one connection, while the quantities of
    the gas market, for one, feed two.  For any model, a second
    [connect] into a port that already has a connection raises (a
    [MultipleWriterError] when the source's component is registered),
    and any list of connections into distinct free ports of registered
    components succeeds. *)
Theorem single_writer_wiring :
  (∃ m, ModelPy.m = Ok m ∧ Model.connections m = ModelPy.connections) ∧
  NoDup ModelPy.connections.*2 ∧
  (("Gas offtake", "quantities"), ("gas_consumption", "input")) ∈ ModelPy.connections ∧
  (("Gas offtake", "quantities"), ("CO2_emission", "input")) ∈ ModelPy.connections ∧
  (∃ m, ModelBis.m = Ok m ∧ Model.connections m = ModelBis.connections) ∧
  NoDup ModelBis.connections.*2 ∧
  (("Gas offtake", "quantities"), ("gas_consumption", "input")) ∈ ModelBis.connections ∧
  (("Gas offtake", "quantities"), ("CO2_emission", "input")) ∈ ModelBis.connections ∧
  (∀ (m m' : Model.t component_decl) source source' destination,
     Model.connect source destination m = Ok m' →
     ∃ e, Model.connect source' destination m' = Raise e ∧
          (has_key source'.1 (Model.components m) = true →
           exn_cls e = MultipleWriterError)) ∧
  (∀ (m : Model.t component_decl) edges,
     Forall (endpoints_registered m) edges →
     NoDup edges.*2 →
     Forall (λ e, e.2 ∉ (Model.connections m).*2) edges →
     foldl (λ r e, m ← r; Model.connect e.1 e.2 m) (Ok m) edges
     = Ok (Model.mk (Model.components m) (Model.connections m ++ edges))).
Proof.
  repeat split.
  - eexists. split; vm_compute; reflexivity.
  - apply (bool_decide_unpack _). by vm_compute.
  - apply (bool_decide_unpack _). by vm_compute.
  - apply (bool_decide_unpack _). by vm_compute.
  - eexists. split; vm_compute; reflexivity.
  - apply (bool_decide_unpack _). by vm_compute.
  - apply (bool_decide_unpack _). by vm_compute.
  - apply (bool_decide_unpack _). by vm_compute.
  - intros m m' source source' destination. apply connect_twice.
  - intros m edges. apply connect_distinct.
Qed.

Lemma single_writer_wiring_witness :
  (∃ e, (m ← Model.connect ("gas_boiler", "output") ("hrsg", "input") three_conversions;
         Model.connect ("e_boiler", "output") ("hrsg", "input") m) = Raise e ∧
        exn_cls e = MultipleWriterError) ∧
  is_Ok (foldl (λ r e, m ← r; Model.connect e.1 e.2 m) (Ok three_conversions)
           [(("gas_boiler", "output"), ("hrsg", "input"));
            (("gas_boiler", "output"), ("e_boiler", "input"))]) = true.
Proof.
  destruct single_writer_wiring as (_ & _ & _ & _ & _ & _ & _ & _ & Htwice & Hdistinct).
  split.
  - destruct (Model.connect ("gas_boiler", "output") ("hrsg", "input") three_conversions)
      as [m|e] eqn:Hfirst; [|by vm_compute in Hfirst].
    destruct (Htwice three_conversions m ("gas_boiler", "output")
                ("e_boiler", "output") ("hrsg", "input") Hfirst) as (e & He & Hcls).
    exists e. split; [exact He|]. apply Hcls. vm_compute. reflexivity.
  - rewrite Hdistinct; [reflexivity|..].
    + repeat (apply Forall_cons; split; [split; vm_compute; reflexivity|]).
      apply Forall_nil_2.
    + apply (bool_decide_unpack _). vm_compute. exact I.
    + repeat (apply Forall_cons; split; [apply (bool_decide_unpack _); vm_compute; exact I|]).
      apply Forall_nil_2.
Defined.

(** ** The additional grid cost *)

Lemma int_to_float_raises z e :
  int_to_float z = Raise e → is_Exception e = true.
Proof. unfold int_to_float. destruct (Z2F z); by intros [= <-]. Qed.

Lemma py_mul_raises a b e : py_mul a b = Raise e → is_Exception e = true.
Proof.
  unfold py_mul.
  destruct a, b; try (by intros [= <-]);
    match goal with
    | |- context [int_to_float ?z] =>
        destruct (int_to_float z) eqn:Hz; [done|];
        intros [= <-]; by apply int_to_float_raises in Hz
    end.
Qed.

Lemma py_round_raises x e : py_round x = Raise e → is_Exception e = true.
Proof.
  unfold py_round. destruct x as [| | |f| | | |]; try (by intros [= <-]).
  destruct f; by intros [= <-].
Qed.

(** Whatever the two cells hold, the product either rounds or raises
    an exception that the [except] clause catches. *)
Lemma rounded_product_raises a b e :
  rounded_product a b = Raise e → is_Exception e = true.
Proof.
  unfold rounded_product.
  destruct (py_mul a b) as [x|e1] eqn:H1.
  2: { intros [= <-]. by apply py_mul_raises in H1. }
  rewrite bind_Ok.
  destruct (py_mul x (VInt 1000)) as [y|e2] eqn:H2.
  2: { intros [= <-]. by apply py_mul_raises in H2. }
  rewrite bind_Ok.
  destruct (py_mul y (VInt 12)) as [z|e3] eqn:H3.
  2: { intros [= <-]. by apply py_mul_raises in H3. }
  rewrite bind_Ok. apply py_round_raises.
Qed.

(** A product with the integer [0] (the default of a missing cell)
    rounds to [0] when it rounds at all. *)
Lemma rounded_product_zero a z :
  (rounded_product a (VInt 0) = Ok z → z = 0) ∧
  (rounded_product (VInt 0) a = Ok z → z = 0).
Proof.
  destruct a as [|b|z'|f|s|l|d|c v].
  - split; intros Hz; by vm_compute in Hz.
  - split; destruct b; intros Hz; vm_compute in Hz; by injection Hz.
  - split; intros Hz; apply Ok_inj in Hz; cbn in Hz; lia.
  - split; destruct f; intros Hz; vm_compute in Hz; try done; by injection Hz.
  - split; intros Hz; by vm_compute in Hz.
  - split; intros Hz; by vm_compute in Hz.
  - split; intros Hz; by vm_compute in Hz.
  - split; intros Hz; by vm_compute in Hz.
Qed.

Lemma cost_of_matching_row df scenario_name first rest :
  "Name" ∈ AnalyseResults.columns df →
  matching_rows df scenario_name = first :: rest →
  AnalyseResults.cost_of_sheet (Ok df) scenario_name
  = let a := AnalyseResults.get first "elec_grid_cost_power_fixed" (VInt 0) in
    let b := AnalyseResults.get first "e_boiler_capacity" (VInt 0) in
    if AnalyseResults.isna a || AnalyseResults.isna b then Ok 0
    else rounded_product a b.
Proof.
  unfold matching_rows, AnalyseResults.cost_of_sheet. intros Hname Hrows.
  rewrite bind_Ok, bool_decide_eq_true_2 by done. cbn [negb].
  by rewrite Hrows.
Qed.

(** C8.  With a fixed grid cost of [2.0] and an e-boiler capacity of
    [5] in the scenario's row, the cost is [120000].  The cost is [0]
    when the sheet does not exist, when reading it raises, when no row
    carries the scenario's name, and when either input of the row is
    missing or [NaN]. *)
Theorem toegangsvermogen_cost (scenario_name : string) :
  (∀ df first rest,
     "Name" ∈ AnalyseResults.columns df →
     matching_rows df scenario_name = first :: rest →
     first !! "elec_grid_cost_power_fixed" = Some (VFloat (Z2F 2)) →
     first !! "e_boiler_capacity" = Some (VInt 5) →
     AnalyseResults.get_toegangsvermogen_cost (Some (Ok df)) scenario_name
     = Ok 120000) ∧
  AnalyseResults.get_toegangsvermogen_cost None scenario_name = Ok 0 ∧
  (∀ e, is_Exception e = true →
     AnalyseResults.get_toegangsvermogen_cost (Some (Raise e)) scenario_name
     = Ok 0) ∧
  (∀ df, matching_rows df scenario_name = [] →
     AnalyseResults.get_toegangsvermogen_cost (Some (Ok df)) scenario_name
     = Ok 0) ∧
  (∀ df first rest,
     matching_rows df scenario_name = first :: rest →
     first !! "elec_grid_cost_power_fixed" = None ∨
     first !! "e_boiler_capacity" = None ∨
     AnalyseResults.isna
       (AnalyseResults.get first "elec_grid_cost_power_fixed" (VInt 0)) = true ∨
     AnalyseResults.isna
       (AnalyseResults.get first "e_boiler_capacity" (VInt 0)) = true →
     AnalyseResults.get_toegangsvermogen_cost (Some (Ok df)) scenario_name
     = Ok 0).
Proof.
  split; [|split; [|split; [|split]]].
  - intros df first rest Hname Hrows Ha Hb.
    unfold AnalyseResults.get_toegangsvermogen_cost.
    rewrite (cost_of_matching_row df scenario_name first rest Hname Hrows).
    unfold AnalyseResults.get. rewrite Ha, Hb. vm_compute. reflexivity.
  - reflexivity.
  - intros e He. unfold AnalyseResults.get_toegangsvermogen_cost.
    unfold AnalyseResults.cost_of_sheet. rewrite bind_Raise. by rewrite He.
  - intros df Hrows. unfold AnalyseResults.get_toegangsvermogen_cost.
    unfold AnalyseResults.cost_of_sheet. rewrite bind_Ok.
    case_bool_decide; cbn [negb]; [|done].
    unfold matching_rows in Hrows. by rewrite Hrows.
  - intros df first rest Hrows Hmissing.
    unfold AnalyseResults.get_toegangsvermogen_cost.
    destruct (decide ("Name" ∈ AnalyseResults.columns df)) as [Hname|Hname].
    2: { unfold AnalyseResults.cost_of_sheet. rewrite bind_Ok.
         by rewrite bool_decide_eq_false_2. }
    rewrite (cost_of_matching_row df scenario_name first rest Hname Hrows).
    cbv zeta.
    set (a := AnalyseResults.get first "elec_grid_cost_power_fixed" (VInt 0)) in *.
    set (b := AnalyseResults.get first "e_boiler_capacity" (VInt 0)) in *.
    destruct (AnalyseResults.isna a) eqn:Hna; [done|].
    destruct (AnalyseResults.isna b) eqn:Hnb; [done|]. cbn [orb].
    assert (a = VInt 0 ∨ b = VInt 0) as Hzero.
    { destruct Hmissing as [Ha|[Hb|[?|?]]]; try done.
      - left. subst a. unfold AnalyseResults.get. by rewrite Ha.
      - right. subst b. unfold AnalyseResults.get. by rewrite Hb. }
    destruct (rounded_product a b) as [z|e] eqn:Hprod.
    + f_equal. destruct Hzero as [Hz|Hz]; rewrite Hz in Hprod.
      * exact (proj2 (rounded_product_zero b z) Hprod).
      * exact (proj1 (rounded_product_zero a z) Hprod).
    + by rewrite (rounded_product_raises a b e Hprod).
Qed.

Lemma toegangsvermogen_cost_witness :
  AnalyseResults.get_toegangsvermogen_cost (Some (Ok example_sheet)) "Flex_1.1"
    = Ok 120000 ∧
  AnalyseResults.get_toegangsvermogen_cost (Some (Ok example_sheet)) "Flex_9"
    = Ok 0.
Proof.
  destruct (toegangsvermogen_cost "Flex_1.1") as (Hcost & _).
  destruct (toegangsvermogen_cost "Flex_9") as (_ & _ & _ & Hnone & _).
  split.
  - eapply Hcost.
    + apply (bool_decide_unpack _). vm_compute. exact I.
    + vm_compute. reflexivity.
    + vm_compute. reflexivity.
    + vm_compute. reflexivity.
  - apply Hnone. vm_compute. reflexivity.
Defined.

(* ------------------------------------------------------------------ *)
(** ** The binding callbacks *)

Section Bindings.
Context `{ComponentLibrary}.

Lemma if_present_absent {A M} k (table : gmap string A)
    (body : A → M → result M) (model : M) :
  table !! k = None → if_present k table body model = Ok model.
Proof. unfold if_present. by intros ->. Qed.

Lemma fmap_result_Ok {A B} (f : A → B) (a : A) : f <$> Ok a = Ok (f a).
Proof. reflexivity. Qed.

Lemma update_component_inv {C} `{Named C} name (meth : C → result C)
    (m m' : Model.t C) :
  Model.update_component name meth m = Ok m' →
  ∃ c c', Model.components m !! name = Some c ∧ meth c = Ok c' ∧
          m' = Model.mk (<[name:=c']> (Model.components m)) (Model.connections m).
Proof.
  unfold Model.update_component, Model.get_component.
  destruct (Model.components m !! name) as [c|]; [|discriminate].
  rewrite bind_Ok. destruct (meth c) as [c'|e] eqn:Hmeth; [|discriminate].
  rewrite bind_Ok. intros <-%Ok_inj. by eexists _, _.
Qed.

(** *** Steps that keep an observation *)

Lemma keeps_bind {M X} (obs : M → X) (f g : M → result M) :
  keeps obs f → keeps obs g → keeps obs (λ m, f m ≫= g).
Proof.
  intros Hf Hg m m' (m1 & H1 & H2)%bind_Ok_inv.
  rewrite (Hg _ _ H2). by apply Hf.
Qed.

Lemma keeps_if_present {A M X} (obs : M → X) k (table : gmap string A)
    (body : A → M → result M) :
  (∀ x, table !! k = Some x → keeps obs (body x)) →
  keeps obs (if_present k table body).
Proof.
  intros Hbody m m'. unfold if_present.
  destruct (table !! k) as [x|]; [by apply Hbody|]. by intros [= <-].
Qed.

Lemma keeps_component_update {C} `{Named C} c target (meth : C → result C) :
  c ≠ target →
  keeps (λ m, Model.components m !! c) (Model.update_component target meth).
Proof.
  intros Hne m m' (c0 & c' & _ & _ & ->)%update_component_inv.
  cbn [Model.components]. by apply lookup_insert_ne.
Qed.

Lemma keeps_value_update c p target meth :
  (c = target → ∀ comp comp', meth comp = Ok comp' →
                  port_values comp' p = port_values comp p) →
  keeps (λ m, values_at m c p) (Model.update_component target meth).
Proof.
  intros Hmeth m m' (c0 & c' & Hc0 & Hm & ->)%update_component_inv.
  unfold values_at. cbn [Model.components].
  destruct (decide (c = target)) as [->|Hne].
  - rewrite lookup_insert_eq, Hc0. cbn. by eapply Hmeth.
  - by rewrite lookup_insert_ne.
Qed.

(** *** Steps that do not look at a component *)

Lemma commutes_bind {M} (W : M → M) (f g : M → result M) :
  commutes W f → commutes W g → commutes W (λ m, f m ≫= g).
Proof.
  intros Hf Hg m. cbn beta. rewrite Hf. destruct (f m) as [m1|e]; [|done].
  rewrite fmap_result_Ok, !bind_Ok. apply Hg.
Qed.

Lemma commutes_if_present {A M} (W : M → M) k (table : gmap string A)
    (body : A → M → result M) :
  (∀ x, table !! k = Some x → commutes W (body x)) →
  commutes W (if_present k table body).
Proof.
  intros Hbody m. unfold if_present.
  destruct (table !! k) as [x|]; [by apply Hbody|done].
Qed.

Lemma commutes_update {C} `{Named C} c target (meth : C → result C) :
  c ≠ target → commutes (without c) (Model.update_component target meth).
Proof.
  intros Hne m. unfold Model.update_component, Model.get_component, without.
  cbn [Model.components Model.connections].
  rewrite lookup_delete_ne by done.
  destruct (Model.components m !! target) as [c0|]; [|done].
  rewrite !bind_Ok. destruct (meth c0) as [c'|e]; [|done].
  rewrite !bind_Ok. cbn. by rewrite delete_insert_ne.
Qed.

(** *** Steps that do nothing *)

Lemma idle_bind {M} (f g : M → result M) :
  idle f → idle g → idle (λ m, f m ≫= g).
Proof. intros Hf Hg m. cbn beta. by rewrite Hf, bind_Ok. Qed.

Lemma idle_if_present {A M} k (table : gmap string A) (body : A → M → result M) :
  table !! k = None → idle (if_present k table body).
Proof. intros Hk m. by apply if_present_absent. Qed.

End Bindings.

Ltac in_table := apply (bool_decide_unpack _); vm_compute; exact I.

(** The block of a key that is present cannot be the block of a
    component all of whose keys are absent. *)
Ltac key_absent Hall :=
  match goal with
  | Hx : _ !! _ = Some _ |- _ => rewrite Hall in Hx by in_table; discriminate Hx
  end.

(** Walk down the blocks of a callback. *)
Ltac steps bindL ifL leaf :=
  cbn beta;
  first
  [ leaf
  | apply ifL; intros ? ?; steps bindL ifL leaf
  | apply bindL; steps bindL ifL leaf ].

Ltac idle_steps Hall :=
  cbn beta;
  first
  [ apply idle_if_present; apply Hall; in_table
  | apply idle_bind; idle_steps Hall ].

Ltac port_law Hm :=
  cbn beta in Hm;
  first
  [ eapply var_set_values_other; [exact Hm | discriminate]
  | eapply set_values_other; [exact Hm | discriminate]
  | eapply set_bounds_other; [exact Hm | discriminate]
  | apply bind_Ok_inv in Hm as (? & _ & Hm); port_law Hm ].

Ltac value_leaf :=
  apply keeps_value_update;
  let Heq := fresh "Heq" in
  intros Heq;
  first
  [ discriminate Heq
  | let Hm := fresh "Hm" in intros ? ? Hm; port_law Hm
  | exfalso; congruence ].

Ltac skips_absent_proof callback :=
  let Hall := fresh "Hall" in
  let model := fresh "model" in
  let table := fresh "table" in
  let c := fresh "c" in
  let m' := fresh "m'" in
  intros model table; split; [intros Hall|intros c Hall; split];
  [ revert model; change (idle (λ m, callback m table));
    lazymatch callback with ?f _ => unfold f end; idle_steps Hall
  | revert model; change (commutes (without c) (λ m, callback m table));
    lazymatch callback with ?f _ => unfold f end;
    steps (@commutes_bind) (@commutes_if_present)
      ltac:(apply commutes_update; intros ->; key_absent Hall)
  | intros m'; revert model m';
    change (keeps (λ m, Model.components m !! c) (λ m, callback m table));
    lazymatch callback with ?f _ => unfold f end;
    steps (@keeps_bind) (@keeps_if_present)
      ltac:(apply keeps_component_update; intros ->; key_absent Hall) ].

Ltac keeps_values_proof callback bindings :=
  let Hin := fresh "Hin" in
  let Hk := fresh "Hk" in
  let model := fresh "model" in
  let table := fresh "table" in
  let k := fresh "k" in
  let c := fresh "c" in
  let p := fresh "p" in
  let m' := fresh "m'" in
  intros model table k c p m' Hin Hk; revert model m';
  change (keeps (λ m, values_at m c p) (λ m, callback m table));
  unfold bindings in Hin; rewrite !elem_of_cons, elem_of_nil in Hin;
  repeat (destruct Hin as [[= -> -> ->]|Hin]);
  [ lazymatch callback with ?f _ => unfold f end; steps (@keeps_bind) (@keeps_if_present) value_leaf ..
  | done ].

Section Callbacks.
Context `{ComponentLibrary}.








End Callbacks.

(** *** Blocks that return *)

Section Present.
Context `{ComponentLibrary}.

Lemma succeeds_bind {M} (I : M → Prop) (f g : M → result M) :
  succeeds I f → succeeds I g → succeeds I (λ m, f m ≫= g).
Proof.
  intros Hf Hg m Hm. destruct (Hf m Hm) as (m1 & H1 & HI1).
  cbn beta. rewrite H1, bind_Ok. by apply Hg.
Qed.

Lemma succeeds_if_present {A M} (I : M → Prop) k (table : gmap string A)
    (body : A → M → result M) :
  (∀ x, table !! k = Some x → succeeds I (body x)) →
  succeeds I (if_present k table body).
Proof.
  intros Hbody m Hm. unfold if_present.
  destruct (table !! k) as [x|] eqn:Hk; [by apply (Hbody x)|]. by exists m.
Qed.

Lemma port_ok_ext port (c c' : Component) :
  (∀ q, has_port c' q = has_port c q) → port_ok port c' = port_ok port c.
Proof. intros Hq. destruct port as [p|]; [apply Hq|done]. Qed.

Lemma succeeds_update {A} requirements (table : gmap string A) k c port method :
  (k, c, port) ∈ requirements → is_Some (table !! k) →
  dependable_method port method →
  succeeds (λ m, ready requirements table m = true)
           (Model.update_component c method).
Proof.
  intros Hin [x Hx] Hmeth m Hm.
  pose proof Hm as Hall. unfold ready in Hall.
  rewrite forallb_forall in Hall.
  pose proof (Hall _ (proj1 (list_elem_of_In _ _) Hin)) as Hc.
  cbn [fst snd] in Hc. unfold has_key in Hc. rewrite Hx in Hc.
  destruct (Model.components m !! c) as [comp|] eqn:Hcomp; [|done].
  destruct (Hmeth comp Hc) as (comp' & Hcomp' & Hports).
  unfold Model.update_component, Model.get_component.
  rewrite Hcomp, bind_Ok, Hcomp', bind_Ok. eexists. split; [reflexivity|].
  unfold ready. rewrite forallb_forall. intros [[k0 c0] port0] Hin0.
  specialize (Hall _ Hin0). cbn [fst snd] in *.
  destruct (has_key k0 table); [|done]. cbn [Model.components].
  destruct (decide (c0 = c)) as [->|Hne].
  - rewrite lookup_insert_eq. rewrite Hcomp in Hall.
    by rewrite (port_ok_ext _ _ _ Hports).
  - by rewrite lookup_insert_ne.
Qed.
End Present.

(** The port a method call addresses and the component it is made on,
    read off the block. *)
Ltac present_leaf Hvar Hset Hbounds Hconv Hcharge Hmul Hadd :=
  match goal with
  | Hx : _ !! ?k = Some _ |- succeeds _ ?f =>
      let port := lazymatch f with
                  | context [var_set_values ?p] => constr:(Some p)
                  | context [set_values ?p] => constr:(Some p)
                  | context [set_bounds ?p] => constr:(Some p)
                  | _ => constr:(@None string)
                  end in
      let c := lazymatch f with context [Model.update_component ?c] => c end in
      apply (succeeds_update _ _ k c port);
      [ in_table
      | by rewrite Hx
      | first
        [ apply Hvar | apply Hset | apply Hbounds | apply Hconv | apply Hcharge
        | let comp := fresh "comp" in let Hok := fresh "Hok" in
          intros comp Hok;
          first
          [ match goal with
            | |- context [series_mul ?s ?x] =>
                let s' := fresh "s" in let Hs := fresh "Hs" in
                destruct (Hmul s x) as [s' Hs]; rewrite Hs, bind_Ok
            end
          | match goal with
            | |- context [series_add ?a ?b] =>
                let s' := fresh "s" in let Hs := fresh "Hs" in
                destruct (Hadd a b) as [s' Hs]; rewrite Hs, bind_Ok
            end ];
          first [ by apply Hvar | by apply Hset ] ] ]
  end.

Ltac binds_present_proof callback reqs :=
  let Hvar := fresh "Hvar" in let Hset := fresh "Hset" in
  let Hbounds := fresh "Hbounds" in let Hconv := fresh "Hconv" in
  let Hcharge := fresh "Hcharge" in let Hmul := fresh "Hmul" in
  let Hadd := fresh "Hadd" in
  let model := fresh "model" in let table := fresh "table" in
  intros (Hvar & Hset & Hbounds & Hconv & Hcharge & Hmul & Hadd) model table;
  revert model;
  change (succeeds (λ m, ready reqs table m = true) (λ m, callback m table));
  lazymatch callback with ?f _ => unfold f end;
  steps (@succeeds_bind) (@succeeds_if_present)
    ltac:(idtac; present_leaf Hvar Hset Hbounds Hconv Hcharge Hmul Hadd).

Section CallbacksReturn.
Context `{ComponentLibrary}.





End CallbacksReturn.

Lemma simple_library_dependable : dependable (H:=simple_library).
Proof.
  assert (∀ e p v, dependable_method (H:=simple_library) (Some p)
                     (simple_set_values e p v)) as Hset.
  { intros e p v c Hc. unfold port_ok, has_port in *.
    cbn [port_values simple_library] in *. unfold simple_set_values, has_key.
    destruct (sc_values c !! p) as [x|] eqn:Hp; [|done].
    eexists. split; [reflexivity|].
    intros q. cbn [sc_values]. destruct (decide (q = p)) as [->|Hne].
    - by rewrite lookup_insert_eq, Hp.
    - by rewrite lookup_insert_ne. }
  split; [|split; [|split; [|split; [|split; [|split]]]]].
  - intros p v. apply Hset.
  - intros p v. apply Hset.
  - intros p lb ub c Hc. unfold port_ok, has_port in *.
    cbn [port_values set_bounds simple_library] in *.
    unfold simple_set_bounds, has_key.
    destruct (sc_values c !! p) as [x|] eqn:Hp; [|done].
    eexists. split; [reflexivity|]. done.
  - intros v c _. eexists. split; [reflexivity|]. done.
  - intros v c _. eexists. split; [reflexivity|]. done.
  - intros s x. by eexists.
  - intros a b. by eexists.
Qed.


(* ------------------------------------------------------------------ *)
(** ** More on the scenario record *)

Section MoreScenario.
Context `{Enums}.

(** X1.  A document of the old shape, with the equipment parameters nested
    under ["equipment_params"], loads as the flat document with those
    parameters at the top level. *)
Theorem from_dict_migrates_equipment_params now data ep :
  data !! "equipment_params" = Some (VDict ep) →
  ep !! "dispatch_options" = None → ep !! "metadata" = None →
  ep !! "equipment_params" = None →
  Scenario.from_dict now data
  = Scenario.from_dict now (ep ∪ delete "equipment_params" data).
Proof.
  intros He H1 H2 H3.
  set (flat := ep ∪ delete "equipment_params" data).
  assert (flat !! "dispatch_options" = data !! "dispatch_options") as Hd.
  { subst flat. rewrite lookup_union_r by done. by rewrite lookup_delete_ne. }
  assert (delete "dispatch_options" flat !! "metadata" = data !! "metadata") as Hm.
  { subst flat. rewrite lookup_delete_ne by done.
    rewrite lookup_union_r by done. by rewrite lookup_delete_ne. }
  assert (delete "metadata" (delete "dispatch_options" flat) !! "equipment_params"
          = None) as Hnone.
  { subst flat. rewrite !lookup_delete_ne by done.
    rewrite lookup_union_r by done. apply lookup_delete_eq. }
  assert (delete "equipment_params"
            (delete "metadata" (delete "dispatch_options" flat))
          = ep ∪ delete "equipment_params"
                   (delete "metadata" (delete "dispatch_options" data))) as Hrest.
  { subst flat. apply map_eq. intros k.
    destruct (decide (k = "equipment_params")) as [->|Hk3].
    { rewrite lookup_delete_eq, lookup_union_r by done.
      by rewrite lookup_delete_eq. }
    rewrite (lookup_delete_ne _ "equipment_params" k) by done.
    destruct (decide (k = "metadata")) as [->|Hk2].
    { rewrite lookup_delete_eq, lookup_union_r by done.
      rewrite lookup_delete_ne by done. by rewrite lookup_delete_eq. }
    rewrite (lookup_delete_ne _ "metadata" k) by done.
    destruct (decide (k = "dispatch_options")) as [->|Hk1].
    { rewrite lookup_delete_eq, lookup_union_r by done.
      rewrite !lookup_delete_ne by done. by rewrite lookup_delete_eq. }
    rewrite (lookup_delete_ne _ "dispatch_options" k) by done.
    rewrite !lookup_union. by rewrite !lookup_delete_ne. }
  unfold Scenario.from_dict, pop.
  rewrite Hd, Hm, Hnone, Hrest.
  rewrite (lookup_delete_ne data "dispatch_options" "metadata") by done.
  rewrite !(lookup_delete_ne _ _ "equipment_params") by done.
  rewrite He.
  set (rest := delete "equipment_params"
                 (delete "metadata" (delete "dispatch_options" data))).
  assert (truthy (VDict ∅) = false) as -> by (cbn; by rewrite map_to_list_empty).
  destruct (truthy (VDict ep)) eqn:Hep.
  - reflexivity.
  - assert (ep = ∅) as ->.
    { cbn in Hep. destruct (map_to_list ep) eqn:Hl; [|done].
      by apply map_to_list_empty_iff. }
    by rewrite (left_id ∅ _).
Qed.

Lemma convert_enum_bad c k opts s :
  opts !! k = Some (VStr s) → is_member c s = false →
  Scenario.convert_enum c k (VDict opts) = raise ValueError "not a valid member".
Proof.
  intros Hk Hm. unfold Scenario.convert_enum, getitem. rewrite Hk.
  cbn. rewrite Hm. reflexivity.
Qed.

(** X2.  Without ["dispatch_options"] the load fails on the first option it
    looks up; with an option value that names no member of its enum,
    it fails in the enum's constructor. *)
Theorem from_dict_rejects_bad_options now data :
  data !! "equipment_params" = None →
  (data !! "dispatch_options" = None →
   Scenario.from_dict now data = raise KeyError "builder_type") ∧
  (∀ opts b,
     data !! "dispatch_options" = Some (VDict opts) →
     opts !! "builder_type" = Some (VStr b) → is_member BuilderType b = false →
     Scenario.from_dict now data = raise ValueError "not a valid member") ∧
  (∀ opts b s,
     data !! "dispatch_options" = Some (VDict opts) →
     opts !! "builder_type" = Some (VStr b) → is_member BuilderType b = true →
     opts !! "solver" = Some (VStr s) → is_member SolverType s = false →
     Scenario.from_dict now data = raise ValueError "not a valid member") ∧
  (∀ opts b s d,
     data !! "dispatch_options" = Some (VDict opts) →
     opts !! "builder_type" = Some (VStr b) → is_member BuilderType b = true →
     opts !! "solver" = Some (VStr s) → is_member SolverType s = true →
     opts !! "dispatch_type" = Some (VStr d) → is_member DispatchType d = false →
     Scenario.from_dict now data = raise ValueError "not a valid member").
Proof.
  intros Hep.
  assert (truthy (VDict ∅) = false) as Hfalse
    by (cbn; by rewrite map_to_list_empty).
  split; [|split; [|split]].
  - intros Hdo. unfold Scenario.from_dict, pop. rewrite Hdo.
    rewrite !lookup_delete_ne, Hep by done. rewrite Hfalse.
    destruct (delete "dispatch_options" data !! "metadata"); reflexivity.
  - intros opts b Hdo Hb Hbm. unfold Scenario.from_dict, pop. rewrite Hdo.
    rewrite !lookup_delete_ne, Hep by done. rewrite Hfalse, bind_Ok.
    rewrite (convert_enum_bad _ _ _ b) by done.
    destruct (delete "dispatch_options" data !! "metadata"); reflexivity.
  - intros opts b s Hdo Hb Hbm Hs Hsm. unfold Scenario.from_dict, pop. rewrite Hdo.
    rewrite !lookup_delete_ne, Hep by done. rewrite Hfalse, bind_Ok.
    rewrite (convert_enum_ok _ _ _ b) by done. rewrite bind_Ok.
    rewrite (convert_enum_bad _ _ _ s); [|by rewrite lookup_insert_ne|done].
    destruct (delete "dispatch_options" data !! "metadata"); reflexivity.
  - intros opts b s d Hdo Hb Hbm Hs Hsm Hd Hdm.
    unfold Scenario.from_dict, pop. rewrite Hdo.
    rewrite !lookup_delete_ne, Hep by done. rewrite Hfalse, bind_Ok.
    rewrite (convert_enum_ok _ _ _ b) by done. rewrite bind_Ok.
    rewrite (convert_enum_ok _ _ _ s); [|by rewrite lookup_insert_ne|done].
    rewrite bind_Ok.
    rewrite (convert_enum_bad _ _ _ d); [|by rewrite !lookup_insert_ne|done].
    destruct (delete "dispatch_options" data !! "metadata"); reflexivity.
Qed.

(** X3.  [to_dict] returns exactly when the three option fields hold enum
    members, whose [.value] it reads; otherwise it raises an
    [AttributeError]. *)
Theorem to_dict_needs_enum_members (S : Scenario.t) :
  ((∃ d, Scenario.to_dict S = Ok d) ↔
   ∃ c1 b c2 s c3 dt, Scenario.builder_type S = VEnum c1 b ∧
     Scenario.solver S = VEnum c2 s ∧ Scenario.dispatch_type S = VEnum c3 dt) ∧
  (∀ e, Scenario.to_dict S = Raise e → exn_cls e = AttributeError).
Proof.
  split; [split|].
  - intros [d Hd]. by eapply to_dict_Ok_inv.
  - intros (c1 & b & c2 & s & c3 & dt & Hb & Hs & Hdt).
    unfold Scenario.to_dict. rewrite Hb, Hs, Hdt. eexists. reflexivity.
  - apply to_dict_raises.
Qed.

(** X4.  The constructor leaves no scenario without a creation time: a
    time that is given is kept, a missing one is the time of the
    call. *)
Theorem init_sets_created_at now kw (S : Scenario.t) :
  Scenario.init now kw = Ok S →
  Scenario.created_at S
  = match kw !! "created_at" with
    | Some VNone | None => VStr now
    | Some v => v
    end.
Proof.
  unfold Scenario.init.
  destruct (negb (forallb Scenario.is_field (keys kw))); [discriminate|].
  destruct (negb (forallb _ Scenario.required_fields)); [discriminate|].
  intros <-%Ok_inj. unfold Scenario.post_init.
  cbn [Scenario.created_at].
  destruct (kw !! "created_at") as [[]|]; reflexivity.
Qed.

(** X5.  A stored document that lacks a field for which [from_dict] has no
    default does not load: the constructor raises a [TypeError]. *)
Theorem from_dict_requires_field now (S : Scenario.t) d k :
  Scenario.options_typed S → Scenario.to_dict S = Ok d →
  k ∈ fields_without_default →
  ∃ e, Scenario.from_dict now (delete k d) = Raise e ∧ exn_cls e = TypeError.
Proof.
  intros (Hb & Hs & Hd) Hdict Hk.
  apply isinstance_inv in Hb as (b & Hb & Hbm).
  apply isinstance_inv in Hs as (s & Hs & Hsm).
  apply isinstance_inv in Hd as (dt & Hd & Hdm).
  destruct S; cbn [Scenario.builder_type Scenario.solver Scenario.dispatch_type] in *.
  subst. apply Ok_inj in Hdict. subst d.
  let l := eval vm_compute in fields_without_default in
  change fields_without_default with l in Hk.
  repeat (apply elem_of_cons in Hk as [->|Hk]); [..| by apply elem_of_nil in Hk].
  all: erewrite (from_dict_flat now _ _ _ b s dt);
    [| vm_compute; reflexivity ..| assumption | vm_compute; reflexivity
     | assumption | vm_compute; reflexivity | assumption ].
  all: eexists; split; [vm_compute; reflexivity|reflexivity].
Qed.
End MoreScenario.

Lemma from_dict_migrates_equipment_params_witness :
  Scenario.from_dict (H:=known_enums) "2025-06-02 08:00:00" old_document
  = Ok base_case.
Proof.
  rewrite (from_dict_migrates_equipment_params (H:=known_enums) _ _
             (list_to_map [("gas_boiler_capacity", VInt 26);
                           ("e_boiler_capacity", VInt 10)])).
  - vm_compute. reflexivity.
  - vm_compute. reflexivity.
  - vm_compute. reflexivity.
  - vm_compute. reflexivity.
  - vm_compute. reflexivity.
Defined.

Lemma from_dict_rejects_bad_options_witness :
  Scenario.from_dict (H:=known_enums) "2025-06-02 08:00:00"
    (delete "dispatch_options" base_case_dict)
  = raise KeyError "builder_type".
Proof.
  apply (from_dict_rejects_bad_options (H:=known_enums)).
  - vm_compute. reflexivity.
  - vm_compute. reflexivity.
Defined.

Lemma init_sets_created_at_witness :
  Scenario.created_at base_case = VStr "2025-06-01 12:00:00".
Proof.
  apply (init_sets_created_at (H:=known_enums) "2025-06-01 12:00:00"
           base_case_kwargs base_case).
  vm_compute. reflexivity.
Defined.

Lemma from_dict_requires_field_witness :
  ∃ e, Scenario.from_dict (H:=known_enums) "2025-06-02 08:00:00"
         (delete "hrsg_capacity" base_case_dict) = Raise e ∧
       exn_cls e = TypeError.
Proof.
  apply (from_dict_requires_field (H:=known_enums) _ base_case).
  - repeat split; reflexivity.
  - reflexivity.
  - apply (bool_decide_unpack _). vm_compute. exact I.
Defined.
(* ------------------------------------------------------------------ *)
(** ** More on the scenario store *)

Lemma dict_mapM_Ok_intro {A B} (f : A → result B) (d : gmap string A)
    (d' : gmap string B) :
  (∀ k, match d !! k with
        | Some a => ∃ b, f a = Ok b ∧ d' !! k = Some b
        | None => d' !! k = None
        end) →
  dict_mapM f d = Ok d'.
Proof.
  intros Hall.
  assert (is_Ok (dict_mapM f d) = true) as Hok.
  { apply dict_mapM_total. intros k a Hk. specialize (Hall k). rewrite Hk in Hall.
    destruct Hall as (b & -> & _). reflexivity. }
  destruct (dict_mapM f d) as [d''|e] eqn:Hd; [|done]. f_equal.
  apply map_eq. intros k. pose proof (dict_mapM_lookup f d d'' k Hd) as Hk.
  specialize (Hall k). destruct (d !! k) as [a|].
  - destruct Hk as (b & Hb & ->). destruct Hall as (b' & Hb' & ->). congruence.
  - congruence.
Qed.

Lemma dict_mapM_raises {A B} (f : A → result B) (d : gmap string A) k a e :
  d !! k = Some a → f a = Raise e → ∃ e', dict_mapM f d = Raise e'.
Proof.
  intros Hk Ha. destruct (dict_mapM f d) as [d'|e'] eqn:Hd; [|by eexists].
  pose proof (dict_mapM_lookup f d d' k Hd) as Hl. rewrite Hk in Hl.
  destruct Hl as (b & Hb & _). congruence.
Qed.

Lemma from_dict_no_options `{Enums} now data :
  data !! "equipment_params" = None → data !! "dispatch_options" = None →
  Scenario.from_dict now data = raise KeyError "builder_type".
Proof.
  intros Hep Hdo. unfold Scenario.from_dict, pop. rewrite Hdo.
  rewrite !lookup_delete_ne, Hep by done.
  assert (truthy (VDict ∅) = false) as -> by (cbn; by rewrite map_to_list_empty).
  destruct (delete "dispatch_options" data !! "metadata"); reflexivity.
Qed.

Section Store.
Context `{Enums} `{Files}.

(** X6.  What [save_scenarios] writes, a new manager loads: when every
    scenario of the collection has enum members in its option fields
    and a creation time, and the file can be written, the save
    returns and [ScenarioManager(path)] over the resulting file
    system is the manager that was saved. *)
Theorem store_round_trip now fs (self : ScenarioManager.t) :
  (∀ name scenario,
     ScenarioManager.scenarios self !! name = Some scenario →
     Scenario.options_typed scenario ∧ Scenario.created_at scenario ≠ VNone) →
  open_for_writing (ScenarioManager.scenarios_file self) = Ok tt →
  (∀ doc, ScenarioManager.document self = Ok doc → json_dump doc = Ok tt) →
  ∃ fs', ScenarioManager.save_scenarios fs self = Ok fs' ∧
         ScenarioManager.init now fs' (ScenarioManager.scenarios_file self)
         = Ok self.
Proof.
  intros Htyped Hopen Hdump.
  destruct (save_scenarios_total fs self) as [fs' Hsave]; [|done|done|].
  { intros name s Hs. destruct (Htyped name s Hs) as [Hty _].
    destruct (from_dict_to_dict now s Hty) as (d & -> & _). reflexivity. }
  exists fs'. split; [done|].
  apply save_scenarios_Ok in Hsave as [(docs & Hfile & Hdocs) _].
  unfold ScenarioManager.init, ScenarioManager.load_scenarios.
  cbn [ScenarioManager.scenarios_file]. rewrite Hfile.
  rewrite (dict_mapM_Ok_intro _ docs (ScenarioManager.scenarios self)).
  { rewrite bind_Ok. by destruct self. }
  intros k. specialize (Hdocs k).
  destruct (ScenarioManager.scenarios self !! k) as [s|] eqn:Hs.
  - destruct Hdocs as (d & Hd & ->). exists s. split; [|done].
    destruct (Htyped k s Hs) as [Hty Hcreated].
    destruct (from_dict_to_dict now s Hty) as (d' & Hd' & Hfrom).
    rewrite Hd in Hd'. apply Ok_inj in Hd' as <-.
    by rewrite Hfrom, post_init_set.
  - by rewrite Hdocs.
Qed.

(** X7.  When [delete_scenario] returns, the name is gone and every
    other name has the scenario it had; deleting the same name again
    changes nothing and writes nothing. *)
Theorem delete_scenario_removes fs (self self' : ScenarioManager.t) name fs' :
  ScenarioManager.delete_scenario fs self name = Ok (self', fs') →
  ScenarioManager.get_scenario self' name = None ∧
  (∀ other, other ≠ name →
     ScenarioManager.get_scenario self' other
     = ScenarioManager.get_scenario self other) ∧
  ScenarioManager.delete_scenario fs' self' name = Ok (self', fs').
Proof.
  unfold ScenarioManager.delete_scenario, ScenarioManager.get_scenario.
  destruct (ScenarioManager.scenarios self !! name) as [s|] eqn:Hs.
  - intros Hdel. apply bind_Ok_inv in Hdel as (fs1 & _ & Hdel).
    apply Ok_inj in Hdel as [= <- <-].
    cbn [ScenarioManager.scenarios].
    rewrite lookup_delete_eq. split; [done|]. split; [|done].
    intros other Hother. by apply lookup_delete_ne.
  - intros [= <- <-]%Ok_inj. rewrite Hs. done.
Qed.

(** X8.  A store with a record that has no dispatch options (and no
    nested equipment parameters) cannot be loaded: [ScenarioManager()]
    raises, whatever the other records are. *)
Theorem damaged_record_blocks_load now fs file data name d :
  fs !! file = Some (VDict data) → data !! name = Some (VDict d) →
  d !! "dispatch_options" = None → d !! "equipment_params" = None →
  ∃ e, ScenarioManager.init now fs file = Raise e.
Proof.
  intros Hfile Hname Hdo Hep.
  unfold ScenarioManager.init, ScenarioManager.load_scenarios.
  cbn [ScenarioManager.scenarios_file]. rewrite Hfile.
  edestruct (dict_mapM_raises
               (λ scenario_data,
                  match scenario_data with
                  | VDict d => Scenario.from_dict now d
                  | _ => raise AttributeError "pop"
                  end) data name (VDict d)) as [e He]; [done|..].
  { by apply from_dict_no_options. }
  exists e. by rewrite He.
Qed.
End Store.

Section MoreDriver.
Context `{Enums} {World : Type}.
Variable disk : World → gmap string pyval.
Variable clock : World → string.
Variable run_scenario : string → World → World * list string * result unit.

Lemma for_each_caught names : ∀ w out failed,
  Forall (λ c, ∀ e, c.2 = Raise e → is_Exception e = true)
         (runs run_scenario names w) →
  RunScenarios.for_each run_scenario names (w, out, failed)
  = ((world_after run_scenario names w,
      (out ++ flat_map report (runs run_scenario names w))%list,
      (failed ++ omap failure (runs run_scenario names w))%list), None).
Proof.
  induction names as [|name names IH]; intros w out failed Hcaught.
  { cbn. by rewrite !app_nil_r. }
  cbn [RunScenarios.for_each runs world_after] in *.
  destruct (run_scenario name w) as [[w' printed] [u|e]]; cbn [fst snd] in *;
    apply Forall_cons in Hcaught as [Hexc Hcaught].
  - rewrite IH by done. cbn [flat_map report omap failure fst snd].
    by rewrite <-!app_assoc.
  - rewrite (Hexc e eq_refl), IH by done.
    cbn [flat_map report omap failure fst snd]. by rewrite <-!app_assoc.
Qed.

Lemma for_each_app pre post : ∀ st,
  RunScenarios.for_each run_scenario (pre ++ post) st
  = match RunScenarios.for_each run_scenario pre st with
    | (st', None) => RunScenarios.for_each run_scenario post st'
    | stopped => stopped
    end.
Proof.
  induction pre as [|name pre IH]; intros [[w out] failed]; [done|].
  cbn [app RunScenarios.for_each].
  destruct (run_scenario name w) as [[w' printed] [u|e]].
  - apply IH.
  - destruct (is_Exception e); [apply IH|done].
Qed.

(** X9.  With no store file, or an empty store, [run_all_scenarios]
    prints that no scenarios are defined and returns: [run_scenario]
    is not called and the world is what it was. *)
Theorem run_all_scenarios_empty_store (w : World) :
  disk w !! ScenarioManager.default_file = None ∨
  disk w !! ScenarioManager.default_file = Some (VDict ∅) →
  RunScenarios.run_all_scenarios disk clock run_scenario w
  = (w, [RunScenarios.NoScenariosDefined], Ok tt).
Proof.
  unfold RunScenarios.run_all_scenarios, ScenarioManager.init,
    ScenarioManager.load_scenarios.
  cbn [ScenarioManager.scenarios_file].
  intros [-> | ->].
  - unfold ScenarioManager.list_scenarios, keys.
    cbn [ScenarioManager.scenarios]. by rewrite fmap_empty, map_to_list_empty.
  - unfold dict_mapM. rewrite map_to_list_empty.
    cbn [mapM mret result_ret mbind result_bind].
    unfold ScenarioManager.list_scenarios, keys.
    cbn [ScenarioManager.scenarios].
    by rewrite list_to_map_nil, fmap_empty, map_to_list_empty.
Qed.

(** X10.  An exception that is not an [Exception] (a keyboard
    interrupt, a [SystemExit]) is not caught: it leaves
    [run_all_scenarios] from the scenario that raised it, after the
    lines of the scenarios before it; no later scenario is run and no
    summary is printed. *)
Theorem run_all_scenarios_stops_on_interrupt (w w1 : World) manager
    pre name post printed e :
  ScenarioManager.init (clock w) (disk w) ScenarioManager.default_file
    = Ok manager →
  keys (ScenarioManager.list_scenarios manager) = (pre ++ name :: post)%list →
  Forall (λ c, ∀ e, c.2 = Raise e → is_Exception e = true)
         (runs run_scenario pre w) →
  run_scenario name (world_after run_scenario pre w) = (w1, printed, Raise e) →
  is_Exception e = false →
  RunScenarios.run_all_scenarios disk clock run_scenario w
  = (w1,
     (RunScenarios.RunningAll :: flat_map report (runs run_scenario pre w)
      ++ RunScenarios.RunningScenario name
         :: map RunScenarios.FromRun printed)%list,
     Raise e).
Proof.
  intros Hinit Hnames Hcaught Hrun Hexc.
  unfold RunScenarios.run_all_scenarios. rewrite Hinit, Hnames.
  assert (∃ first rest, (pre ++ name :: post)%list = first :: rest)
    as (first & rest & Hcons).
  { destruct pre; cbn; eauto. }
  rewrite Hcons at 1. cbv beta iota.
  rewrite for_each_app, for_each_caught by done.
  cbn [RunScenarios.for_each]. rewrite Hrun, Hexc.
  cbn [app]. by rewrite <-app_assoc.
Qed.
End MoreDriver.

(** X11.  The penalties [run_scenario] passes on are [0] or [-100000];
    both are set at once for the scenario ["Flex_0"] only. *)
Theorem penalties_by_name (name : string) :
  (RunScenarios.penalty_for_gas_to_turbine name = -100000 ∨
   RunScenarios.penalty_for_gas_to_turbine name = 0) ∧
  (RunScenarios.penalty_turbine_no_shutdown name = -100000 ∨
   RunScenarios.penalty_turbine_no_shutdown name = 0) ∧
  (RunScenarios.penalty_for_gas_to_turbine name ≠ 0 ∧
   RunScenarios.penalty_turbine_no_shutdown name ≠ 0 ↔ name = "Flex_0").
Proof.
  unfold RunScenarios.penalty_for_gas_to_turbine,
    RunScenarios.penalty_turbine_no_shutdown.
  split; [case_bool_decide; auto|]. split; [case_bool_decide; auto|].
  split.
  - intros [H1 H2].
    destruct (bool_decide_reflect (name ∈ RunScenarios.no_chp_scenarios))
      as [Hin1|]; [|done].
    destruct (bool_decide_reflect (name ∈ RunScenarios.no_shutdown_scenarios))
      as [Hin2|]; [|done].
    unfold RunScenarios.no_chp_scenarios in Hin1.
    unfold RunScenarios.no_shutdown_scenarios in Hin2.
    rewrite !elem_of_cons, elem_of_nil in Hin1.
    destruct Hin1 as [->|[->|[->|[->|[->|[->|[]]]]]]]; [done|..];
      exfalso; revert Hin2; apply (bool_decide_eq_false_1 _); by vm_compute.
  - intros ->. split; by vm_compute.
Qed.

Lemma store_round_trip_witness :
  ∃ fs', ScenarioManager.save_scenarios (H:=writable) ∅ single_manager = Ok fs' ∧
         ScenarioManager.init (H:=known_enums) "2025-06-02 08:00:00" fs'
           ScenarioManager.default_file = Ok single_manager.
Proof.
  apply (@store_round_trip known_enums writable
           "2025-06-02 08:00:00" ∅ single_manager).
  - intros name s Hs. cbn in Hs.
    apply lookup_singleton_Some in Hs as [_ <-].
    split; [repeat split; reflexivity|discriminate].
  - reflexivity.
  - reflexivity.
Defined.

Lemma delete_scenario_removes_witness :
  ScenarioManager.get_scenario
    (ScenarioManager.mk ScenarioManager.default_file ∅) "base_case" = None.
Proof.
  apply (delete_scenario_removes (H0:=writable) ∅ single_manager
           (ScenarioManager.mk ScenarioManager.default_file ∅) "base_case"
           {[ ScenarioManager.default_file := VDict ∅ ]}).
  vm_compute. reflexivity.
Defined.

Lemma damaged_record_blocks_load_witness :
  ∃ e, ScenarioManager.init (H:=known_enums) "2025-06-02 08:00:00"
         damaged_disk ScenarioManager.default_file = Raise e.
Proof.
  eapply (damaged_record_blocks_load (H:=known_enums) _ damaged_disk
            ScenarioManager.default_file _ "damaged").
  - reflexivity.
  - vm_compute. reflexivity.
  - vm_compute. reflexivity.
  - vm_compute. reflexivity.
Defined.

Lemma run_all_scenarios_empty_store_witness :
  RunScenarios.run_all_scenarios (H:=known_enums) id
    (λ _, "2025-06-02 08:00:00") example_run_scenario ∅
  = (∅, [RunScenarios.NoScenariosDefined], Ok tt).
Proof.
  apply (run_all_scenarios_empty_store (H:=known_enums)). by left.
Defined.

Lemma run_all_scenarios_stops_on_interrupt_witness :
  RunScenarios.run_all_scenarios (H:=known_enums) id
    (λ _, "2025-06-02 08:00:00") interrupted_run_scenario example_disk
  = (example_disk,
     [RunScenarios.RunningAll; RunScenarios.RunningScenario "base_case";
      RunScenarios.FromRun "Running scenario: base_case"],
     Raise (Exn KeyboardInterrupt "")).
Proof.
  apply (run_all_scenarios_stops_on_interrupt (H:=known_enums) id
           (λ _, "2025-06-02 08:00:00") interrupted_run_scenario
           example_disk example_disk example_manager [] "base_case" ["bad"]
           ["Running scenario: base_case"] (Exn KeyboardInterrupt "")).
  - vm_compute. reflexivity.
  - vm_compute. reflexivity.
  - constructor.
  - reflexivity.
  - reflexivity.
Defined.
(* ------------------------------------------------------------------ *)
(** ** The biogas model *)

(** X12.  The module-level calls of [model_biogas.py] assemble without
    error; every port is the destination of at most one connection;
    the third output of [splitter1] feeds nothing and nothing feeds
    the [charge] port of the balloon. *)
Theorem biogas_wiring :
  (∃ m, ModelBiogas.m = Ok m ∧
        Model.connections m = ModelBiogas.connections ∧
        dom (Model.components m)
        = list_to_set (name_of <$> ModelBiogas.components)) ∧
  NoDup ModelBiogas.connections.*2 ∧
  (("splitter1", "output2") ∉ ModelBiogas.connections.*1) ∧
  (("balloon", "charge") ∉ ModelBiogas.connections.*2).
Proof.
  split; [|split; [|split]].
  - eexists. split; [vm_compute; reflexivity|].
    split; [reflexivity|]. apply (bool_decide_unpack _). by vm_compute.
  - apply (bool_decide_unpack _). by vm_compute.
  - apply (bool_decide_unpack _). by vm_compute.
  - apply (bool_decide_unpack _). by vm_compute.
Qed.

Section Wiring.
Context {C : Type} `{Named C}.

Lemma keeps_wiring_update target (method : C → result C) :
  keeps (λ m : Model.t C, (Model.connections m, dom (Model.components m)))
        (Model.update_component target method).
Proof.
  intros m m' (c & c' & Hc & _ & ->)%update_component_inv.
  cbn [Model.connections Model.components]. f_equal.
  by apply dom_insert_lookup_L.
Qed.
End Wiring.

Lemma if_present_present {A M} k (table : gmap string A) x
    (body : A → M → result M) (model : M) :
  table !! k = Some x → if_present k table body model = body x model.
Proof. unfold if_present. by intros ->. Qed.

Lemma update_component_raises {C} `{Named C} name (method : C → result C)
    (m : Model.t C) c e :
  Model.components m !! name = Some c → method c = Raise e →
  Model.update_component name method m = Raise e.
Proof.
  intros Hc He. unfold Model.update_component, Model.get_component.
  by rewrite Hc, bind_Ok, He.
Qed.

Ltac keeps_wiring_proof callback :=
  let model := fresh "model" in let table := fresh "table" in
  let m' := fresh "m'" in let Hrun := fresh "Hrun" in
  intros model table m' Hrun;
  assert (keeps (λ m : Model.t Component,
                   (Model.connections m, dom (Model.components m)))
                (λ m, callback m table)) as Hkeeps;
  [ lazymatch callback with ?f _ => unfold f end;
    steps (@keeps_bind) (@keeps_if_present) ltac:(apply keeps_wiring_update)
  | by injection (Hkeeps model m' Hrun) ].

Section BiogasCallbacks.
Context `{ComponentLibrary}.

Lemma ModelBiogas_set_data_skips :
  skips_absent ModelBiogas.set_data ModelBiogas_data_bindings.
Proof. skips_absent_proof (@ModelBiogas.set_data H). Qed.

Lemma ModelBiogas_set_data_values :
  keeps_unbound_values ModelBiogas.set_data ModelBiogas_data_values.
Proof. keeps_values_proof (@ModelBiogas.set_data H) ModelBiogas_data_values. Qed.

Lemma ModelBiogas_set_data_returns :
  binds_present ModelBiogas.set_data ModelBiogas_data_requirements.
Proof.
  binds_present_proof (@ModelBiogas.set_data H) ModelBiogas_data_requirements.
Qed.

Lemma ModelBiogas_set_parameters_skips :
  skips_absent ModelBiogas.set_parameters ModelBiogas_parameter_bindings.
Proof. skips_absent_proof (@ModelBiogas.set_parameters H). Qed.

Lemma ModelBiogas_set_parameters_values :
  keeps_unbound_values ModelBiogas.set_parameters ModelBiogas_parameter_values.
Proof.
  keeps_values_proof (@ModelBiogas.set_parameters H) ModelBiogas_parameter_values.
Qed.

(** X13.  [set_data] of [model_biogas.py] binds like the other two:
    with a dependable library it returns on every model that is
    ready for the columns that are present; without any of its
    columns it returns the model as it is; a component none of whose
    columns is present is neither looked up nor changed; and a port
    keeps its values when the column of its block is absent. *)
Theorem biogas_set_data_binds :
  binds_present ModelBiogas.set_data ModelBiogas_data_requirements ∧
  skips_absent ModelBiogas.set_data ModelBiogas_data_bindings ∧
  keeps_unbound_values ModelBiogas.set_data ModelBiogas_data_values.
Proof.
  split; [|split].
  - apply ModelBiogas_set_data_returns.
  - apply ModelBiogas_set_data_skips.
  - apply ModelBiogas_set_data_values.
Qed.

(** X14.  [set_parameters] of [model_biogas.py] tests the key
    ["gas_turbine_heat_efficiency"] and reads
    ["gas_turbine_minload_heat_efficiency"].  With the first present
    and the second absent it raises a [KeyError] once [chp1] is found;
    with the first absent the thermal efficiency of the two CHPs is
    never set, whatever is given under the second.  Apart from that
    its blocks are skipped like those of the other callbacks, by the
    key each block tests. *)
Theorem biogas_set_parameters_keys :
  (∀ model params v,
     params !! "gas_turbine_heat_efficiency" = Some v →
     params !! "gas_turbine_minload_heat_efficiency" = None →
     is_Some (Model.components model !! "chp1") →
     ModelBiogas.set_parameters model params
     = raise KeyError "gas_turbine_minload_heat_efficiency") ∧
  (∀ model params m',
     params !! "gas_turbine_heat_efficiency" = None →
     ModelBiogas.set_parameters model params = Ok m' →
     values_at m' "chp1" "thermal_efficiency"
       = values_at model "chp1" "thermal_efficiency" ∧
     values_at m' "chp2" "thermal_efficiency"
       = values_at model "chp2" "thermal_efficiency") ∧
  skips_absent ModelBiogas.set_parameters ModelBiogas_parameter_bindings ∧
  keeps_unbound_values ModelBiogas.set_parameters ModelBiogas_parameter_values.
Proof.
  split; [|split; [|split]].
  - intros model params v Hguard Hread [c Hc].
    unfold ModelBiogas.set_parameters.
    rewrite (if_present_present "gas_turbine_heat_efficiency" params v) by done.
    rewrite (update_component_raises "chp1" _ model c
               (Exn KeyError "gas_turbine_minload_heat_efficiency")); [done|done|].
    unfold item. by rewrite Hread.
  - intros model params m' Hguard Hrun. split.
    + by apply (ModelBiogas_set_parameters_values model params
                  "gas_turbine_heat_efficiency"); [in_table|..].
    + by apply (ModelBiogas_set_parameters_values model params
                  "gas_turbine_heat_efficiency"); [in_table|..].
  - apply ModelBiogas_set_parameters_skips.
  - apply ModelBiogas_set_parameters_values.
Qed.

(** X15.  None of the six binding callbacks rewires the model: when a
    call returns, the connections and the names of the registered
    components are what they were. *)
Theorem callbacks_keep_wiring :
  (∀ model df m', ModelPy.set_data model df = Ok m' →
     Model.connections m' = Model.connections model ∧
     dom (Model.components m') = dom (Model.components model)) ∧
  (∀ model params m', ModelPy.set_parameters model params = Ok m' →
     Model.connections m' = Model.connections model ∧
     dom (Model.components m') = dom (Model.components model)) ∧
  (∀ model df m', ModelBis.set_data model df = Ok m' →
     Model.connections m' = Model.connections model ∧
     dom (Model.components m') = dom (Model.components model)) ∧
  (∀ model params m', ModelBis.set_parameters model params = Ok m' →
     Model.connections m' = Model.connections model ∧
     dom (Model.components m') = dom (Model.components model)) ∧
  (∀ model df m', ModelBiogas.set_data model df = Ok m' →
     Model.connections m' = Model.connections model ∧
     dom (Model.components m') = dom (Model.components model)) ∧
  (∀ model params m', ModelBiogas.set_parameters model params = Ok m' →
     Model.connections m' = Model.connections model ∧
     dom (Model.components m') = dom (Model.components model)).
Proof.
  split; [|split; [|split; [|split; [|split]]]].
  - keeps_wiring_proof (@ModelPy.set_data H).
  - keeps_wiring_proof (@ModelPy.set_parameters H).
  - keeps_wiring_proof (@ModelBis.set_data H).
  - keeps_wiring_proof (@ModelBis.set_parameters H).
  - keeps_wiring_proof (@ModelBiogas.set_data H).
  - keeps_wiring_proof (@ModelBiogas.set_parameters H).
Qed.
End BiogasCallbacks.

Lemma biogas_set_data_binds_witness :
  ∃ m', ModelBiogas.set_data (H:=simple_library) biogas_model example_frame
        = Ok m'.
Proof.
  destruct (biogas_set_data_binds (H:=simple_library)) as (Hreturns & _).
  destruct (Hreturns simple_library_dependable biogas_model example_frame)
    as (m' & Hrun & _).
  - vm_compute. reflexivity.
  - by exists m'.
Defined.

Lemma biogas_set_parameters_keys_witness :
  ModelBiogas.set_parameters (H:=simple_library) biogas_model
    (<["gas_turbine_heat_efficiency" := VFloat (decimal 45 100)]>
       (delete "gas_turbine_minload_heat_efficiency" optimization_params))
  = raise KeyError "gas_turbine_minload_heat_efficiency".
Proof.
  destruct (biogas_set_parameters_keys (H:=simple_library)) as (Hkey & _).
  apply (Hkey _ _ (VFloat (decimal 45 100))).
  - vm_compute. reflexivity.
  - vm_compute. reflexivity.
  - vm_compute. eauto.
Defined.

Lemma callbacks_keep_wiring_witness :
  Model.connections example_bound = Model.connections example_model ∧
  dom (Model.components example_bound) = dom (Model.components example_model).
Proof.
  destruct (callbacks_keep_wiring (H:=simple_library)) as (_ & _ & Hbis & _).
  apply (Hbis example_model example_frame). vm_compute. reflexivity.
Defined.
(* ------------------------------------------------------------------ *)
(** ** The overviews *)



Section GenerateProofs.
Context {Overview : Type}.
Variable create_scenario_overview : string → result Overview.

Lemma overviews_for_each names : ∀ all out,
  (∀ name e, name ∈ names → create_scenario_overview name = Raise e →
             is_Exception e = true) →
  ∃ all' out',
    Overviews.for_each create_scenario_overview names all out = (Ok all', out') ∧
    ∀ name,
      all' !! name
      = match create_scenario_overview name with
        | Ok overview => if bool_decide (name ∈ names) then Some overview
                         else all !! name
        | Raise _ => all !! name
        end.
Proof.
  induction names as [|n names IH]; intros all out Hexc.
  { exists all, out. split; [done|]. intros name.
    rewrite bool_decide_eq_false_2 by apply not_elem_of_nil.
    by destruct (create_scenario_overview name). }
  cbn [Overviews.for_each].
  assert (∀ name e, name ∈ names → create_scenario_overview name = Raise e →
                    is_Exception e = true) as Hrest.
  { intros name e Hin. apply Hexc. by apply elem_of_cons; right. }
  destruct (create_scenario_overview n) as [o|e] eqn:Hn.
  - destruct (IH (<[n:=o]> all) (out ++ [Overviews.Processing n]
                                     ++ [Overviews.Processed n])%list Hrest)
      as (all' & out' & Hrun & Hall).
    exists all', out'. rewrite <-app_assoc. split; [done|].
    intros name. rewrite Hall.
    destruct (decide (name = n)) as [->|Hne].
    + rewrite Hn, lookup_insert_eq.
      rewrite (bool_decide_eq_true_2 (n ∈ n :: names)) by (apply elem_of_cons; by left).
      by case_bool_decide.
    + rewrite lookup_insert_ne by done.
      rewrite (bool_decide_ext (name ∈ n :: names) (name ∈ names)); [done|].
      rewrite elem_of_cons. split; [by intros [?|?] | by right].
  - rewrite (Hexc n e) by (done || apply elem_of_cons; by left).
    destruct (IH all (out ++ [Overviews.Processing n]
                          ++ [Overviews.ErrorProcessing n (exn_msg e)])%list Hrest)
      as (all' & out' & Hrun & Hall).
    exists all', out'. rewrite <-app_assoc. split; [done|].
    intros name. rewrite Hall.
    destruct (decide (name = n)) as [->|Hne].
    + by rewrite Hn.
    + rewrite (bool_decide_ext (name ∈ n :: names) (name ∈ names)); [done|].
      rewrite elem_of_cons. split; [by intros [?|?] | by right].
Qed.

(** X18.  [generate_all_scenario_overviews] raises a [ValueError]
    without the results directory.  With it, and when the overviews
    raise nothing but [Exception]s, it returns, and what it returns
    holds an overview exactly for the directories of [results] whose
    overview could be made: a failing scenario is left out and does
    not stop the others. *)
Theorem generate_all_scenario_overviews_isolates_failures :
  (∃ e, (Overviews.generate_all_scenario_overviews
           create_scenario_overview None).1 = Raise e ∧
        exn_cls e = ValueError) ∧
  (∀ entries,
     (∀ name e, (name, true) ∈ entries →
                create_scenario_overview name = Raise e →
                is_Exception e = true) →
     ∃ all out,
       Overviews.generate_all_scenario_overviews
         create_scenario_overview (Some entries) = (Ok all, out) ∧
       ∀ name overview,
         all !! name = Some overview ↔
         (name, true) ∈ entries ∧
         create_scenario_overview name = Ok overview).
Proof.
  split; [by eexists|].
  intros entries Hexc. unfold Overviews.generate_all_scenario_overviews.
  set (names := (filter (λ d, d.2 = true) entries).*1).
  assert (∀ name, name ∈ names ↔ (name, true) ∈ entries) as Hnames.
  { intros name. subst names. rewrite list_elem_of_fmap. split.
    - intros ([n b] & -> & Hin). apply list_elem_of_filter in Hin as [Hb Hin].
      cbn in *. by subst b.
    - intros Hin. exists (name, true). split; [done|].
      by apply list_elem_of_filter. }
  destruct (overviews_for_each names ∅ [Overviews.Found names])
    as (all & out & Hrun & Hall).
  { intros name e Hin. apply Hexc. by apply Hnames. }
  exists all, out. split; [done|]. intros name overview.
  rewrite Hall, lookup_empty, <-Hnames.
  destruct (create_scenario_overview name) as [o|e].
  - case_bool_decide; split.
    + intros [= ->]. done.
    + by intros [_ [= ->]].
    + done.
    + by intros [? _].
  - split; [done|]. by intros [_ ?].
Qed.
End GenerateProofs.


Lemma generate_all_scenario_overviews_isolates_failures_witness :
  ∃ all out,
    Overviews.generate_all_scenario_overviews example_overview
      (Some example_results_dir) = (Ok all, out) ∧
    ∀ name overview,
      all !! name = Some overview ↔
      (name, true) ∈ example_results_dir ∧ example_overview name = Ok overview.
Proof.
  destruct (generate_all_scenario_overviews_isolates_failures example_overview)
    as [_ Hgen].
  apply Hgen. intros name e _. unfold example_overview.
  destruct (String.eqb name "bad"); [|done]. by intros [= <-].
Defined.
(* ------------------------------------------------------------------ *)
(** ** The data generator *)

Lemma adjust_after_spec rest : ∀ previous adjusted,
  DataGenerator.adjust_after previous rest = Ok adjusted →
  length adjusted = length rest ∧
  DataGenerator.in_order (previous :: adjusted) = true ∧
  DataGenerator.adjust_after previous adjusted = Ok adjusted.
Proof.
  induction rest as [|current rest IH]; intros previous adjusted.
  { intros [= <-]. done. }
  cbn [DataGenerator.adjust_after].
  intros (current' & Hcur & Hrun)%bind_Ok_inv.
  apply bind_Ok_inv in Hrun as (rest' & Hrest & Hrun).
  apply Ok_inj in Hrun as <-.
  destruct (IH _ _ Hrest) as (Hlen & Horder & Hfix).
  assert (DataGenerator.lt current' previous = false) as Hlt.
  { destruct (DataGenerator.lt current previous) eqn:Hcmp.
    - destruct previous as [p|]; [|by destruct current].
      cbn in Hcur. destruct (p + DataGenerator.hour <=? _); [|done].
      apply Ok_inj in Hcur as <-. cbn. apply Z.ltb_ge.
      unfold DataGenerator.hour. lia.
    - by apply Ok_inj in Hcur as <-. }
  split; [cbn; by rewrite Hlen|]. split.
  - cbn [DataGenerator.in_order] in *. by rewrite Hlt.
  - cbn [DataGenerator.adjust_after]. by rewrite Hlt, bind_Ok, Hfix.
Qed.

Lemma adjust_after_in_order rest : ∀ previous,
  DataGenerator.in_order (previous :: rest) = true →
  DataGenerator.adjust_after previous rest = Ok rest.
Proof.
  induction rest as [|current rest IH]; intros previous; [done|].
  cbn [DataGenerator.in_order DataGenerator.adjust_after].
  intros [Hlt Horder]%andb_true_iff. apply negb_true_iff in Hlt.
  by rewrite Hlt, bind_Ok, IH.
Qed.

Lemma adjust_after_total rest : ∀ previous,
  Forall (λ t, ∀ x, t = Some x →
                    x + Z.of_nat (length rest) * DataGenerator.hour
                    ≤ DataGenerator.max_timestamp) (previous :: rest) →
  ∃ adjusted, DataGenerator.adjust_after previous rest = Ok adjusted.
Proof.
  induction rest as [|current rest IH]; intros previous Hbound; [by eexists|].
  apply Forall_cons in Hbound as [Hprev Hbound].
  apply Forall_cons in Hbound as [Hcur Hrest].
  cbn [DataGenerator.adjust_after length] in *.
  assert (0 < DataGenerator.hour) as Hhour by (unfold DataGenerator.hour; lia).
  destruct (if DataGenerator.lt current previous then _ else _)
    as [current'|e] eqn:Hstep.
  2: { destruct (DataGenerator.lt current previous); [|done].
       destruct previous as [p|]; [|done].
       specialize (Hprev p eq_refl). cbn [DataGenerator.add_hour] in Hstep.
       rewrite (proj2 (Z.leb_le _ _)) in Hstep by nia. done. }
  assert (∀ x, current' = Some x →
               x + Z.of_nat (length rest) * DataGenerator.hour
               ≤ DataGenerator.max_timestamp) as Hcur'.
  { destruct (DataGenerator.lt current previous).
    - destruct previous as [p|];
        [|apply Ok_inj in Hstep as <-; by intros x [=]].
      specialize (Hprev p eq_refl). cbn [DataGenerator.add_hour] in Hstep.
      rewrite (proj2 (Z.leb_le _ _)) in Hstep by nia.
      apply Ok_inj in Hstep as <-. intros x [= <-]. nia.
    - apply Ok_inj in Hstep as <-. intros x ->.
      specialize (Hcur x eq_refl). nia. }
  rewrite bind_Ok.
  destruct (IH current') as [adjusted Hadjusted].
  { apply Forall_cons. split; [done|].
    eapply Forall_impl; [exact Hrest|]. intros t Ht x ->.
    specialize (Ht x eq_refl). nia. }
  exists (current' :: adjusted). by rewrite Hadjusted.
Qed.

(** X19.  The pass over the timestamps of the demand file leaves them
    in order: when it returns, the list has the length and the first
    element it had, no element is less than the one before it, and a
    second pass would change nothing; a list that is in order is
    returned as it is; and the pass returns when every time is at
    least as many hours before [pd.Timestamp.max] as the list is
    long. *)
Theorem adjust_timestamps_in_order (timestamps_list : list DataGenerator.timestamp) :
  (∀ adjusted,
     DataGenerator.adjust_timestamps timestamps_list = Ok adjusted →
     length adjusted = length timestamps_list ∧
     head adjusted = head timestamps_list ∧
     DataGenerator.in_order adjusted = true ∧
     DataGenerator.adjust_timestamps adjusted = Ok adjusted) ∧
  (DataGenerator.in_order timestamps_list = true →
   DataGenerator.adjust_timestamps timestamps_list = Ok timestamps_list) ∧
  (Forall (λ t, ∀ x, t = Some x →
                     x + Z.of_nat (length timestamps_list) * DataGenerator.hour
                     ≤ DataGenerator.max_timestamp) timestamps_list →
   ∃ adjusted, DataGenerator.adjust_timestamps timestamps_list = Ok adjusted).
Proof.
  destruct timestamps_list as [|first rest].
  { split; [|split]; [|done|by eexists]. by intros adjusted [= <-]. }
  cbn [DataGenerator.adjust_timestamps]. split; [|split].
  - intros adjusted (rest' & Hrest & Hrun)%bind_Ok_inv.
    apply Ok_inj in Hrun as <-.
    destruct (adjust_after_spec _ _ _ Hrest) as (Hlen & Horder & Hfix).
    split; [cbn; by rewrite Hlen|]. split; [done|]. split; [done|].
    cbn [DataGenerator.adjust_timestamps]. by rewrite Hfix.
  - intros Horder. by rewrite adjust_after_in_order.
  - intros Hbound.
    destruct (adjust_after_total rest first) as [adjusted Hadjusted].
    { eapply Forall_impl; [exact Hbound|]. intros t Ht x ->.
      specialize (Ht x eq_refl). cbn [length] in Ht.
      rewrite Nat2Z.inj_succ, Z.mul_succ_l in Ht.
      assert (0 < DataGenerator.hour) by (unfold DataGenerator.hour; lia).
      unfold DataGenerator.timestamp in *. lia. }
    exists (first :: adjusted). by rewrite Hadjusted.
Qed.

Lemma list_ascii_of_string_app (s t : string) :
  list_ascii_of_string (s ++ t)
  = (list_ascii_of_string s ++ list_ascii_of_string t)%list.
Proof.
  induction s as [|c s IH]; [done|].
  change (c :: list_ascii_of_string (s ++ t)
          = c :: (list_ascii_of_string s ++ list_ascii_of_string t)%list).
  by rewrite IH.
Qed.

Lemma string_app_inv_tail (s1 s2 t : string) : s1 ++ t = s2 ++ t → s1 = s2.
Proof.
  intros Heq.
  rewrite <-(string_of_list_ascii_of_string s1),
          <-(string_of_list_ascii_of_string s2).
  f_equal. apply (app_inv_tail (list_ascii_of_string t)).
  by rewrite <-!list_ascii_of_string_app, Heq.
Qed.

Lemma numbered_inj base_name : Inj (=) (=) (DataGenerator.numbered base_name).
Proof.
  intros j k Heq. unfold DataGenerator.numbered in Heq.
  apply (inj (String.app base_name)) in Heq.
  apply (inj (String.app "_")) in Heq.
  apply string_app_inv_tail in Heq. by apply (inj pretty).
Qed.

(** The loop, from a counter on: either it stops within the fuel, at
    a name that does not exist, or all the names it tried exist. *)
Lemma free_filename_spec fuel (files : gset string) base_name : ∀ filename counter,
  match DataGenerator.free_filename fuel (λ p, bool_decide (p ∈ files))
          base_name filename counter with
  | Some name =>
      (name ∉ files) ∧
      (name = filename ∨
       (∃ k, (counter ≤ k)%nat ∧ name = DataGenerator.numbered base_name k ∧
             filename ∈ files ∧
             ∀ j, (counter ≤ j < k)%nat →
                  DataGenerator.numbered base_name j ∈ files))
  | None =>
      ∀ j, (counter ≤ j < counter + (fuel - 1))%nat →
           DataGenerator.numbered base_name j ∈ files
  end.
Proof.
  induction fuel as [|fuel IH]; intros filename counter; [intros j; lia|].
  cbn [DataGenerator.free_filename]. case_bool_decide as Hin; [|by auto].
  specialize (IH (DataGenerator.numbered base_name counter) (S counter)).
  destruct (DataGenerator.free_filename fuel _ base_name _ (S counter))
    as [name|] eqn:Hinner.
  - destruct IH as [Hfree [->|(k & Hk & -> & Hfirst & Hbefore)]].
    + split; [done|]. right. exists counter. split; [lia|]. split; [done|].
      split; [done|]. intros j ?. lia.
    + split; [done|]. right. exists k. split; [lia|]. split; [done|].
      split; [done|]. intros j Hj.
      destruct (decide (j = counter)) as [->|]; [done|]. apply Hbefore. lia.
  - intros j Hj. destruct (decide (j = counter)) as [->|]; [|apply IH; lia].
    destruct fuel as [|fuel]; [lia|].
    cbn [DataGenerator.free_filename] in Hinner.
    destruct (decide (DataGenerator.numbered base_name counter ∈ files))
      as [|Hfirst]; [done|].
    by rewrite bool_decide_eq_false_2 in Hinner.
Qed.

Lemma free_filename_None fuel (files : gset string) base_name filename counter :
  DataGenerator.free_filename fuel (λ p, bool_decide (p ∈ files))
    base_name filename counter = None →
  (fuel ≤ size files + 1)%nat.
Proof.
  intros Hnone. pose proof (free_filename_spec fuel files base_name filename counter)
    as Hspec. rewrite Hnone in Hspec.
  destruct (decide (fuel ≤ size files + 1)%nat) as [|Hbig]; [done|]. exfalso.
  set (tried := DataGenerator.numbered base_name <$> seq counter (fuel - 1)).
  assert (NoDup tried) as Hnd.
  { apply (@NoDup_fmap_2 _ _ _ (numbered_inj base_name)). apply NoDup_seq. }
  assert (tried ⊆ elements files) as Hsub.
  { intros name Hname. apply list_elem_of_fmap in Hname as (j & -> & Hj).
    apply elem_of_elements, Hspec. apply elem_of_seq in Hj. lia. }
  pose proof (submseteq_length _ _ (NoDup_submseteq _ _ Hnd Hsub)) as Hlen.
  subst tried. rewrite length_fmap, length_seq in Hlen.
  change (length (elements files)) with (size files) in Hlen. lia.
Qed.

(** X20.  The name under which [get_data] saves: the loop that looks
    for a name that is not taken ends, after at most two more tests
    than there are files, at a name that does not exist; this is the
    name asked for, put in the data folder, when that is free, and
    otherwise the first of its numbered copies that is. *)
Theorem csv_filename_is_free (files : gset string) (filename : string) fuel :
  (size files + 2 ≤ fuel)%nat →
  let asked := DataGenerator.in_data_folder filename in
  ∃ name,
    DataGenerator.csv_filename fuel (λ p, bool_decide (p ∈ files)) filename
    = Some name ∧
    (name ∉ files) ∧
    (asked ∉ files → name = asked) ∧
    (asked ∈ files →
     ∃ k, (1 ≤ k)%nat ∧
          name = DataGenerator.numbered (DataGenerator.base_name asked) k ∧
          ∀ j, (1 ≤ j < k)%nat →
               DataGenerator.numbered (DataGenerator.base_name asked) j ∈ files).
Proof.
  intros Hfuel asked. unfold DataGenerator.csv_filename. fold asked.
  pose proof (free_filename_spec fuel files (DataGenerator.base_name asked)
                asked 1) as Hspec.
  destruct (DataGenerator.free_filename fuel _ _ asked 1) as [name|] eqn:Hrun.
  2: { apply free_filename_None in Hrun. lia. }
  exists name. split; [done|]. destruct Hspec as [Hfree Hname].
  split; [done|]. split.
  - intros Hasked. destruct Hname as [->|(k & _ & _ & Hin & _)]; done.
  - intros Hasked. destruct Hname as [->|(k & Hk & -> & _ & Hbefore)]; [done|].
    by exists k.
Qed.

Lemma adjust_timestamps_in_order_witness :
  DataGenerator.adjust_timestamps example_timestamps
  = Ok [Some 0; Some (2 * DataGenerator.hour); Some (3 * DataGenerator.hour);
        Some (4 * DataGenerator.hour); None] ∧
  DataGenerator.in_order
    [Some 0; Some (2 * DataGenerator.hour); Some (3 * DataGenerator.hour);
     Some (4 * DataGenerator.hour); None] = true.
Proof.
  assert (DataGenerator.adjust_timestamps example_timestamps
          = Ok [Some 0; Some (2 * DataGenerator.hour);
                Some (3 * DataGenerator.hour);
                Some (4 * DataGenerator.hour); None]) as Hrun
    by (vm_compute; reflexivity).
  split; [exact Hrun|].
  by apply (adjust_timestamps_in_order example_timestamps).
Defined.

Lemma csv_filename_is_free_witness :
  DataGenerator.csv_filename 4 (λ p, bool_decide (p ∈ example_data_folder))
    "time_series_data.csv" = Some "data/time_series_data_2.csv" ∧
  "data/time_series_data_2.csv" ∉ example_data_folder.
Proof.
  destruct (csv_filename_is_free example_data_folder "time_series_data.csv" 4)
    as (name & Hrun & Hfree & _).
  - vm_compute. lia.
  - assert (DataGenerator.csv_filename 4
              (λ p, bool_decide (p ∈ example_data_folder))
              "time_series_data.csv" = Some "data/time_series_data_2.csv")
      as Hname by (vm_compute; reflexivity).
    split; [exact Hname|]. rewrite Hname in Hrun.
    by injection Hrun as <-.
Defined.
